(** * Kingly AI overlay: the coaching orchestrator's hooks, embedded in Rocq

    The React hooks of the repository are modelled by the pure state
    transformers that their [setState] updaters and callbacks compute.
    Time is a virtual clock ([Z], milliseconds, the value [Date.now()]
    returns); an awaited call to the inference backend or to the store is
    an outcome handed to the continuation that runs when the promise
    settles. *)

From Stdlib Require Import List String Ascii ZArith QArith Lia Bool Arith.
From Stdlib Require Import Permutation Sorted DecimalString Qround.
From Stdlib Require DecimalZ DecimalPos.
Import ListNotations.

Local Close Scope Q_scope.
Local Open Scope string_scope.
Local Open Scope list_scope.
Local Open Scope nat_scope.

(** String concatenation, JavaScript's [+] on strings. *)
Infix "+^" := String.append (right associativity, at level 60).

(** ** JavaScript array and string primitives used by the hooks *)

Module JS.

(** [arr.slice(-n)]: the last [n] elements (all of them when shorter). *)
Definition slice_last {A : Type} (n : nat) (l : list A) : list A :=
  skipn (List.length l - n) l.

(** [arr.slice(0, n)] for a non-negative integer [n]. *)
Definition slice_first {A : Type} (n : nat) (l : list A) : list A :=
  firstn n l.

(** [arr[arr.length - 1]], [undefined] on the empty array. *)
Definition last_item {A : Type} (l : list A) : option A :=
  nth_error l (List.length l - 1).

(** [str.split(' ')]: cut at every single space; empty pieces are kept,
    and the empty string yields one empty piece. *)
Fixpoint split_space_aux (cur : string) (s : string) : list string :=
  match s with
  | EmptyString => [cur]
  | String c rest =>
      if Ascii.eqb c " "%char
      then cur :: split_space_aux EmptyString rest
      else split_space_aux (cur +^ String c EmptyString) rest
  end.

Definition split_space (s : string) : list string :=
  split_space_aux EmptyString s.

(** A JavaScript string is falsy exactly when it is empty. *)
Definition truthy (s : string) : bool :=
  match s with EmptyString => false | _ => true end.

(** [a || b] on strings. *)
Definition or_else (a b : string) : string :=
  if truthy a then a else b.

End JS.

(** ** hooks/useAudioCapture.ts: the running transcription *)

Module AudioCapture.

Record State := {
  transcription : string;
  error : option string
}.

Definition initial : State :=
  {| transcription := ""; error := None |}.

(** How the awaited [blink.ai.transcribeAudio] call settles. *)
Inductive Outcome :=
| Resolved (text : string)
| Rejected (message : string).

(** The continuation of [transcribeAudio] after the await:
    [setTranscription(prev => prev + ' ' + text)], or [setError] in the
    catch branch. *)
Definition transcribeAudio (o : Outcome) (s : State) : State :=
  match o with
  | Resolved text =>
      {| transcription := transcription s +^ " " +^ text;
         error := error s |}
  | Rejected message =>
      {| transcription := transcription s;
         error := Some ("Transcription failed: " +^ message) |}
  end.

(** The hook has no sequence numbers and no reorder buffer: every result
    is applied when it arrives.  [arrivals] lists the outcomes in the
    order in which the promises settle; calls of [startRecording], which
    clear the error, are in [Recording]. *)
Definition settle_all (arrivals : list Outcome) (s : State) : State :=
  fold_left (fun acc o => transcribeAudio o acc) arrivals s.

(** Chunks are submitted as [texts] (chunk [i] has sequence number
    [i + 1]); their results arrive in the order given by the index list
    [order]. *)
Definition arrivals_of (texts : list string) (order : list nat)
  : list Outcome :=
  map (fun i => Resolved (nth i texts "")) order.

Definition assembled (texts : list string) (order : list nat) : string :=
  transcription (settle_all (arrivals_of texts order) initial).

(** The transcript obtained when every result arrives in submission
    order. *)
Definition in_submission_order (texts : list string) : string :=
  assembled texts (seq 0 (List.length texts)).

(** Each fragment as the updater appends it. *)
Definition fragment (text : string) : string := " " +^ text.

(** The pieces joined end to end. *)
Definition concatenation (pieces : list string) : string :=
  fold_right String.append "" pieces.

Definition resolved_texts (arrivals : list Outcome) : list string :=
  flat_map (fun o => match o with
                     | Resolved t => [t]
                     | Rejected _ => []
                     end) arrivals.

End AudioCapture.

(** ** hooks/useScreenCapture.ts: the frame buffer *)

Module ScreenCapture.

Record ScreenCaptureData := {
  screenshot : string;
  timestamp : Z;
  windowTitle : option string;
  activeApplication : option string
}.

(** [setCaptureData(prev => [...prev.slice(-10), captureItem])]. *)
Definition pushCapture (captureItem : ScreenCaptureData)
  (prev : list ScreenCaptureData) : list ScreenCaptureData :=
  JS.slice_last 10 prev ++ [captureItem].

(** [captureData[captureData.length - 1]]. *)
Definition getLatestCapture (captureData : list ScreenCaptureData)
  : option ScreenCaptureData :=
  JS.last_item captureData.

(** The interval callback's frame, taken at time [now]. *)
Definition frame (now : Z) : ScreenCaptureData :=
  {| screenshot := "data:image/jpeg;base64,";
     timestamp := now;
     windowTitle := Some "Kingly";
     activeApplication := Some "Browser" |}.

(** The buffer after capturing at each of the instants [ticks]. *)
Definition capture_all (ticks : list Z) (prev : list ScreenCaptureData)
  : list ScreenCaptureData :=
  fold_left (fun acc t => pushCapture (frame t) acc) ticks prev.

End ScreenCapture.

(** ** Results of a call to the inference backend *)

(** [blink.ai.generateText] either rejects, or resolves with a text on which
    [JSON.parse] throws, returns [null], or returns a value whose fields
    are read as [data] (a field that is absent reads as [None]). *)
Inductive Inference (D : Type) :=
| CallFailed
| Unparseable (text : string)
| ParsedNull (text : string)
| Parsed (text : string) (data : D).

Arguments CallFailed {D}.
Arguments Unparseable {D} text.
Arguments ParsedNull {D} text.
Arguments Parsed {D} text data.

(** [`${n}`] for an integer: its decimal numeral. *)
Definition show_Z (n : Z) : string :=
  NilZero.string_of_int (Z.to_int n).

(** The double-quote character as a string. *)
Definition dq : string := String (Ascii.ascii_of_nat 34) EmptyString.

(** [field || fallback] for an optional string field. *)
Definition field_or (field : option string) (fallback : string) : string :=
  match field with
  | Some s => JS.or_else s fallback
  | None => fallback
  end.

(** [field || fallback] for an optional array field (arrays are truthy). *)
Definition list_or {A : Type} (field : option (list A)) (fallback : list A)
  : list A :=
  match field with
  | Some l => l
  | None => fallback
  end.

(** ** hooks/useVisualAnalysis.ts *)

Module VisualAnalysis.

Record Feedback := {
  fb_type : string;
  fb_message : string;
  fb_actionable : bool
}.

Record Analysis := {
  content : string;
  elements : list string;
  context : string;
  suggestions : list string;
  urgency : string
}.

Record VisualAnalysis := {
  id : string;
  timestamp : Z;
  screenshot : string;
  analysis : Analysis;
  feedback : list Feedback
}.

(** The fields read from the parsed response. *)
Record AnalysisData := {
  d_content : option string;
  d_elements : option (list string);
  d_context : option string;
  d_suggestions : option (list string);
  d_urgency : option string;
  d_feedback : option (list Feedback)
}.

Record State := {
  analyses : list VisualAnalysis;
  isAnalyzing : bool
}.

Definition initial : State := {| analyses := []; isAnalyzing := false |}.

(** The object substituted for the response when [JSON.parse] throws. *)
Definition parse_fallback (context : option string) (text : string)
  : AnalysisData :=
  {| d_content := Some "Screen analysis completed";
     d_elements := Some ["Various UI elements detected"];
     d_context := Some (field_or context "General screen activity");
     d_suggestions := Some ["Continue current activity"];
     d_urgency := Some "low";
     d_feedback := Some [ {| fb_type := "insight";
                             fb_message := substring 0 200 text +^ "...";
                             fb_actionable := false |} ] |}.

Definition build (now : Z) (screenshot : string) (context : option string)
  (data : AnalysisData) : VisualAnalysis :=
  {| id := "analysis_" +^ show_Z now;
     timestamp := now;
     screenshot := screenshot;
     analysis :=
       {| content := field_or (d_content data) "Screen content analyzed";
          elements := list_or (d_elements data) [];
          context := field_or (d_context data)
                       (field_or context "Unknown context");
          suggestions := list_or (d_suggestions data) [];
          urgency := field_or (d_urgency data) "low" |};
     feedback := list_or (d_feedback data) [] |}.

(** The analysis built in the catch branch. *)
Definition fallbackAnalysis (now : Z) (screenshot : string)
  (context : option string) : VisualAnalysis :=
  {| id := "analysis_" +^ show_Z now;
     timestamp := now;
     screenshot := screenshot;
     analysis :=
       {| content := "Screen capture received";
          elements := ["Screen content"];
          context := field_or context "Screen activity";
          suggestions := ["Analysis temporarily unavailable"];
          urgency := "low" |};
     feedback := [ {| fb_type := "insight";
                      fb_message := "Visual analysis is processing...";
                      fb_actionable := false |} ] |}.

(** The analysis that [analyzeScreen] appends and returns.  Reading a
    field of [null] throws, which lands in the catch branch like a
    rejected call. *)
Definition outcome_analysis (now : Z) (screenshot : string)
  (context : option string) (r : Inference AnalysisData) : VisualAnalysis :=
  match r with
  | CallFailed => fallbackAnalysis now screenshot context
  | Unparseable text =>
      build now screenshot context (parse_fallback context text)
  | ParsedNull _ => fallbackAnalysis now screenshot context
  | Parsed _ data => build now screenshot context data
  end.

(** [analyzeScreen] up to its await: [setIsAnalyzing(true)]. *)
Definition analyzeScreen_start (s : State) : State :=
  {| analyses := analyses s; isAnalyzing := true |}.

(** [analyzeScreen] from the await on, the call having settled as [r] at
    time [now]: [setAnalyses(prev => [...prev.slice(-20), analysis])] and
    the [finally] block. *)
Definition analyzeScreen_settle (now : Z) (screenshot : string)
  (context : option string) (r : Inference AnalysisData) (s : State)
  : VisualAnalysis * State :=
  let a := outcome_analysis now screenshot context r in
  (a, {| analyses := JS.slice_last 20 (analyses s) ++ [a];
         isAnalyzing := false |}).

Definition analyzeScreen (now : Z) (screenshot : string)
  (context : option string) (r : Inference AnalysisData) (s : State)
  : VisualAnalysis * State :=
  analyzeScreen_settle now screenshot context r (analyzeScreen_start s).

(** [analyses[analyses.length - 1]]. *)
Definition getLatestAnalysis (s : State) : option VisualAnalysis :=
  JS.last_item (analyses s).

(** The history after the analyses settled as [rs], one per instant. *)
Definition analyze_all (shot : string) (rs : list (Z * Inference AnalysisData))
  (s : State) : State :=
  fold_left (fun acc r => snd (analyzeScreen (fst r) shot None (snd r) acc))
    rs s.

End VisualAnalysis.

(** ** JavaScript numbers

    A number is an exact rational or one of the three non-finite values of
    IEEE arithmetic.  Rounding error of the finite operations and the sign
    of zero are not modelled. *)

Module Num.

Inductive t :=
| Finite (q : Q)
| NaN
| PosInf
| NegInf.

Definition of_Z (z : Z) : t := Finite (inject_Z z).

Definition is_finite (x : t) : bool :=
  match x with Finite _ => true | _ => false end.

Definition sign (q : Q) : comparison := Qcompare q 0.

Definition inf_of (c : comparison) : t :=
  match c with Eq => NaN | Gt => PosInf | Lt => NegInf end.

Definition flip (c : comparison) : comparison := CompOpp c.

(** [a / b]. *)
Definition div (a b : t) : t :=
  match a, b with
  | NaN, _ | _, NaN => NaN
  | Finite x, Finite y =>
      match sign y with
      | Eq => inf_of (sign x)
      | _ => Finite (x / y)
      end
  | Finite _, _ => Finite 0
  | PosInf, Finite y => match sign y with Lt => NegInf | _ => PosInf end
  | NegInf, Finite y => match sign y with Lt => PosInf | _ => NegInf end
  | _, _ => NaN
  end.

(** [a * b]. *)
Definition mul (a b : t) : t :=
  match a, b with
  | NaN, _ | _, NaN => NaN
  | Finite x, Finite y => Finite (x * y)
  | Finite x, PosInf | PosInf, Finite x => inf_of (sign x)
  | Finite x, NegInf | NegInf, Finite x => inf_of (flip (sign x))
  | PosInf, PosInf | NegInf, NegInf => PosInf
  | PosInf, NegInf | NegInf, PosInf => NegInf
  end.

(** [Math.round]: the nearest integer, halves rounded up. *)
Definition round (a : t) : t :=
  match a with
  | Finite x => Finite (inject_Z (Qfloor (x + (1 # 2))))
  | other => other
  end.

(** [a > c] and [a < c] against a finite constant; false on [NaN]. *)
Definition gtb (a : t) (c : Q) : bool :=
  match a with
  | Finite x => match Qcompare x c with Gt => true | _ => false end
  | PosInf => true
  | _ => false
  end.

Definition ltb (a : t) (c : Q) : bool :=
  match a with
  | Finite x => match Qcompare x c with Lt => true | _ => false end
  | NegInf => true
  | _ => false
  end.

(** Template-literal rendering of a value that [round] produced. *)
Definition show (a : t) : string :=
  match a with
  | Finite x => show_Z (Qfloor x)
  | NaN => "NaN"
  | PosInf => "Infinity"
  | NegInf => "-Infinity"
  end.

(** The value is a finite number that is at least zero. *)
Definition finite_nonneg (a : t) : Prop :=
  exists q : Q, a = Finite q /\ (0 <= q)%Q.

(** The value is the number zero. *)
Definition is_zero (a : t) : Prop :=
  exists q : Q, a = Finite q /\ (q == 0)%Q.

End Num.

(** ** hooks/useSmartFeedback.ts *)

Module SmartFeedback.

Record Context := {
  sessionType : string;
  duration : Z;
  activity : string
}.

Record SmartFeedback := {
  id : string;
  timestamp : Z;
  type : string;
  priority : string;
  title : string;
  message : string;
  actionable : bool;
  context : Context;
  suggestions : option (list string);
  dismissed : option bool
}.

(** [{ ...f, dismissed: true }]. *)
Definition set_dismissed (f : SmartFeedback) : SmartFeedback :=
  {| id := id f; timestamp := timestamp f; type := type f;
     priority := priority f; title := title f; message := message f;
     actionable := actionable f; context := context f;
     suggestions := suggestions f; dismissed := Some true |}.

(** [f.dismissed] as a condition: [undefined] is falsy. *)
Definition is_dismissed (f : SmartFeedback) : bool :=
  match dismissed f with Some b => b | None => false end.

Record FeedbackData := {
  d_type : option string;
  d_priority : option string;
  d_title : option string;
  d_message : option string;
  d_actionable : option bool;
  d_suggestions : option (list string)
}.

Record State := {
  feedbacks : list SmartFeedback;
  activeFeedback : option SmartFeedback
}.

Definition initial : State := {| feedbacks := []; activeFeedback := None |}.

(** [priority === 'high' || priority === 'urgent']. *)
Definition takes_slot (p : string) : bool :=
  String.eqb p "high" || String.eqb p "urgent".

Definition build (now : Z) (visualContext sessionType : string)
  (duration : Z) (text : string) (data : FeedbackData) : SmartFeedback :=
  {| id := "feedback_" +^ show_Z now;
     timestamp := now;
     type := field_or (d_type data) "insight";
     priority := field_or (d_priority data) "medium";
     title := field_or (d_title data) "AI Insight";
     message := field_or (d_message data) (substring 0 200 text);
     actionable := match d_actionable data with
                   | Some b => b
                   | None => false
                   end;
     context := {| sessionType := sessionType;
                   duration := duration;
                   activity := visualContext |};
     suggestions := Some (list_or (d_suggestions data) []);
     dismissed := Some false |}.

(** [generateContextualFeedback] from its await on.  A response that
    fails to parse returns [null]; so does a rejected call, and a
    response that parses to [null] (reading its field throws into the
    outer catch).  None of the three touches the state. *)
Definition generateContextualFeedback (now : Z)
  (transcription visualContext sessionType : string) (duration : Z)
  (r : Inference FeedbackData) (s : State)
  : option SmartFeedback * State :=
  match r with
  | CallFailed => (None, s)
  | Unparseable _ => (None, s)
  | ParsedNull _ => (None, s)
  | Parsed text data =>
      let feedback := build now visualContext sessionType duration text data in
      (Some feedback,
       {| feedbacks := JS.slice_last 50 (feedbacks s) ++ [feedback];
          activeFeedback :=
            if takes_slot (priority feedback)
            then Some feedback
            else activeFeedback s |})
  end.

(** [keyTopics.slice(0, 3).join(', ')]. *)
Definition join_topics (keyTopics : list string) : string :=
  String.concat ", " (JS.slice_first 3 keyTopics).

Definition meeting_insight (now : Z) (suffix type_ priority_ title_
  message_ : string) (actionable_ : bool) (total : Z) (activity_ : string)
  (suggestions_ : option (list string)) : SmartFeedback :=
  {| id := "insight_" +^ show_Z now +^ suffix;
     timestamp := now;
     type := type_;
     priority := priority_;
     title := title_;
     message := message_;
     actionable := actionable_;
     context := {| sessionType := "meeting";
                   duration := total;
                   activity := activity_ |};
     suggestions := suggestions_;
     dismissed := None |}.

(** The events [generateMeetingInsights] pushes, in order. *)
Definition meeting_insights (now talkTime listenTime : Z)
  (keyTopics : list string) : list SmartFeedback :=
  let total := (talkTime + listenTime)%Z in
  let talkRatio := Num.div (Num.of_Z talkTime) (Num.of_Z total) in
  (if Num.gtb talkRatio (7 # 10) then
     [meeting_insight now "_talk" "coaching" "medium" "Speaking Balance"
        ("You've been speaking "
         +^ Num.show (Num.round (Num.mul talkRatio (Num.of_Z 100)))
         +^ "% of the time. Consider asking questions to engage others more.")
        true total "discussion"
        (Some ["Ask " +^ dq +^ "What are your thoughts on this?" +^ dq;
               "Pause for questions after key points";
               "Use " +^ dq +^ "How does this align with your experience?"
               +^ dq])]
   else if Num.ltb talkRatio (2 # 10) then
     [meeting_insight now "_listen" "suggestion" "medium"
        "Participation Opportunity"
        "You've been mostly listening. Consider sharing your perspective on the key topics discussed."
        true total "discussion"
        (Some ["Share a relevant experience";
               "Ask clarifying questions";
               "Offer your perspective on key points"])]
   else [])
  ++
  (if (0 <? List.length keyTopics)%nat then
     [meeting_insight now "_topics" "insight" "low" "Key Topics Identified"
        ("Main discussion points: " +^ join_topics keyTopics)
        false total "topic_analysis" None]
   else []).

(** [setFeedbacks(prev => [...prev.slice(-50), ...insights])]; the active
    slot is not written. *)
Definition generateMeetingInsights (now talkTime listenTime : Z)
  (keyTopics : list string) (participantCount : Z) (s : State)
  : list SmartFeedback * State :=
  let insights := meeting_insights now talkTime listenTime keyTopics in
  (insights,
   {| feedbacks := JS.slice_last 50 (feedbacks s) ++ insights;
      activeFeedback := activeFeedback s |}).

Definition dismissFeedback (feedbackId : string) (s : State) : State :=
  {| feedbacks :=
       map (fun f => if String.eqb (id f) feedbackId
                     then set_dismissed f else f) (feedbacks s);
     activeFeedback :=
       match activeFeedback s with
       | Some a => if String.eqb (id a) feedbackId then None else Some a
       | None => None
       end |}.

(** [feedbacks.filter(f => !f.dismissed && f.priority !== 'low')]. *)
Definition getActiveFeedbacks (s : State) : list SmartFeedback :=
  filter (fun f => negb (is_dismissed f)
                   && negb (String.eqb (priority f) "low")) (feedbacks s).

(** [getRecentInsights(minutes)] read at time [now]. *)
Definition getRecentInsights (now minutes : Z) (s : State)
  : list SmartFeedback :=
  let cutoff := (now - minutes * 60 * 1000)%Z in
  filter (fun f => (cutoff <? timestamp f)%Z && negb (is_dismissed f))
    (feedbacks s).

(** The sweep's test on one event at time [now]:
    [f.priority === 'low' && Date.now() - f.timestamp > 30000]. *)
Definition expired (now : Z) (f : SmartFeedback) : bool :=
  String.eqb (priority f) "low" && (30000 <? now - timestamp f)%Z.

(** One run of the interval callback at time [now]. *)
Definition sweep (now : Z) (s : State) : State :=
  {| feedbacks :=
       map (fun f => if expired now f then set_dismissed f else f)
         (feedbacks s);
     activeFeedback := activeFeedback s |}.

(** The interval started when the hook mounted at [mounted] runs the
    callback for the [k]-th time ([k] from 1) at this instant. *)
Definition sweep_time (mounted : Z) (k : nat) : Z :=
  (mounted + 5000 * Z.of_nat k)%Z.

End SmartFeedback.

(** ** hooks/useAICoaching.ts *)

Module AICoaching.

Record AISuggestion := {
  id : string;
  type : string;
  content : string;
  context : string;
  timestamp : Z;
  priority : string;
  isUsed : bool
}.

(** One element of the parsed array. *)
Record SuggestionData := {
  d_type : option string;
  d_content : string;
  d_priority : option string
}.

(** What [JSON.parse] returned: an array of suggestions, or a value
    without a [map] method. *)
Inductive Payload :=
| Items (items : list SuggestionData)
| NotAnArray.

Record State := {
  suggestions : list AISuggestion;
  isGenerating : bool
}.

Definition initial : State := {| suggestions := []; isGenerating := false |}.

Definition is_space (c : ascii) : bool :=
  let n := nat_of_ascii c in
  (n =? 32) || ((9 <=? n) && (n <=? 13)).

(** [!context.trim()]: the context holds white space only. *)
Fixpoint is_blank (s : string) : bool :=
  match s with
  | EmptyString => true
  | String c rest => is_space c && is_blank rest
  end.

Fixpoint format_from (index : nat) (now : Z) (context : string)
  (items : list SuggestionData) : list AISuggestion :=
  match items with
  | [] => []
  | suggestion :: rest =>
      {| id := "suggestion_" +^ show_Z now +^ "_" +^ show_Z (Z.of_nat index);
         type := field_or (d_type suggestion) "note";
         content := d_content suggestion;
         context := context;
         timestamp := now;
         priority := field_or (d_priority suggestion) "medium";
         isUsed := false |}
      :: format_from (S index) now context rest
  end.

Definition fallbackSuggestion (now : Z) (context text : string)
  : AISuggestion :=
  {| id := "suggestion_" +^ show_Z now;
     type := "note";
     content := text;
     context := context;
     timestamp := now;
     priority := "medium";
     isUsed := false |}.

(** The suggestions one settled request appends. *)
Definition produced (now : Z) (context : string) (r : Inference Payload)
  : list AISuggestion :=
  match r with
  | CallFailed => []
  | Unparseable text => [fallbackSuggestion now context text]
  | ParsedNull text => [fallbackSuggestion now context text]
  | Parsed text NotAnArray => [fallbackSuggestion now context text]
  | Parsed _ (Items items) => format_from 0 now context items
  end.

(** [generateSuggestion] up to its await: [None] when it returns at the
    blank-context test, otherwise the state after [setIsGenerating(true)],
    with the request issued. *)
Definition generateSuggestion_start (context : string) (s : State)
  : option State :=
  if is_blank context then None
  else Some {| suggestions := suggestions s; isGenerating := true |}.

(** [generateSuggestion] from its await on. *)
Definition generateSuggestion_settle (now : Z) (context : string)
  (r : Inference Payload) (s : State) : State :=
  {| suggestions := suggestions s ++ produced now context r;
     isGenerating := false |}.

Definition markSuggestionUsed (suggestionId : string) (s : State) : State :=
  {| suggestions :=
       map (fun suggestion =>
              if String.eqb (id suggestion) suggestionId
              then {| id := id suggestion; type := type suggestion;
                      content := content suggestion;
                      context := context suggestion;
                      timestamp := timestamp suggestion;
                      priority := priority suggestion;
                      isUsed := true |}
              else suggestion) (suggestions s);
     isGenerating := isGenerating s |}.

Definition clearSuggestions (s : State) : State :=
  {| suggestions := []; isGenerating := isGenerating s |}.

(** [Array.prototype.sort] with the comparator
    [(a, b) => b.timestamp - a.timestamp]: a stable sort into
    non-increasing time stamps.  [insert x l] puts [x] in front of the
    first element that is not newer than [x]. *)
Fixpoint insert (x : AISuggestion) (l : list AISuggestion)
  : list AISuggestion :=
  match l with
  | [] => [x]
  | y :: rest =>
      if (timestamp x <? timestamp y)%Z
      then y :: insert x rest
      else x :: y :: rest
  end.

Fixpoint sort (l : list AISuggestion) : list AISuggestion :=
  match l with
  | [] => []
  | x :: rest => insert x (sort rest)
  end.

(** [suggestions.sort(...).slice(0, limit)]: [sort] reorders the array
    it is called on, which is the array held in the hook's state, and
    [slice] copies the front of it. *)
Definition getRecentSuggestions (limit : nat) (s : State)
  : list AISuggestion * State :=
  let sorted := sort (suggestions s) in
  (JS.slice_first limit sorted,
   {| suggestions := sorted; isGenerating := isGenerating s |}).



End AICoaching.

(** ** The store behind [blink.db]

    The store is an external service.  A table is the list of its rows in
    creation order; [create] adds a row and [update] overwrites the named
    fields of the rows that carry the given id.  Whether a call succeeds is
    decided outside the program. *)

Module Store.

Record SessionRow := {
  id : string;
  userId : string;
  title : string;
  type : string;
  startTime : Z;
  endTime : option Z;
  duration : option Z;
  status : string;
  createdAt : Z;
  updatedAt : Z
}.

Record AnalyticsRow := {
  a_id : string;
  a_sessionId : string;
  a_userId : string;
  suggestionsUsed : option Z;
  totalSuggestions : option Z;
  a_createdAt : Z;
  a_updatedAt : Z
}.

Record SegmentRow := {
  g_id : string;
  g_sessionId : string;
  text : string;
  timestamp : Z;
  isUserSpeaking : Z;
  g_createdAt : Z
}.

Record DB := {
  sessions : list SessionRow;
  sessionAnalytics : list AnalyticsRow;
  transcriptionSegments : list SegmentRow
}.

Definition empty : DB :=
  {| sessions := []; sessionAnalytics := []; transcriptionSegments := [] |}.

Definition create_session (row : SessionRow) (db : DB) : DB :=
  {| sessions := sessions db ++ [row];
     sessionAnalytics := sessionAnalytics db;
     transcriptionSegments := transcriptionSegments db |}.

Definition create_analytics (row : AnalyticsRow) (db : DB) : DB :=
  {| sessions := sessions db;
     sessionAnalytics := sessionAnalytics db ++ [row];
     transcriptionSegments := transcriptionSegments db |}.

Definition create_segment (row : SegmentRow) (db : DB) : DB :=
  {| sessions := sessions db;
     sessionAnalytics := sessionAnalytics db;
     transcriptionSegments := transcriptionSegments db ++ [row] |}.

(** [sessions.update(id, { endTime, duration, status, updatedAt })]. *)
Definition close_row (now dur : Z) (row : SessionRow) : SessionRow :=
  {| id := id row; userId := userId row; title := title row;
     type := type row; startTime := startTime row;
     endTime := Some now; duration := Some dur; status := "completed";
     createdAt := createdAt row; updatedAt := now |}.

Definition update_session_end (sessionId : string) (now dur : Z) (db : DB)
  : DB :=
  {| sessions :=
       map (fun row => if String.eqb (id row) sessionId
                       then close_row now dur row else row) (sessions db);
     sessionAnalytics := sessionAnalytics db;
     transcriptionSegments := transcriptionSegments db |}.

(** The row stored under [sessionId], if any. *)
Definition find_session (sessionId : string) (db : DB) : option SessionRow :=
  find (fun row => String.eqb (id row) sessionId) (sessions db).

(** The texts of the stored transcript segments of a session. *)
Definition persisted_transcript (sessionId : string) (db : DB)
  : list string :=
  map text (filter (fun g => String.eqb (g_sessionId g) sessionId)
              (transcriptionSegments db)).

End Store.

(** ** hooks/useSessionManager.ts *)

Module SessionManager.

Record Session := {
  id : string;
  title : string;
  type : string;
  startTime : Z;
  endTime : option Z;
  duration : option Z;
  status : string;
  userId : string;
  createdAt : Z;
  updatedAt : Z
}.

Record State := {
  currentSession : option Session;
  recentSessions : list Session
}.

Definition initial : State :=
  {| currentSession := None; recentSessions := [] |}.

(** A call either returns or throws. *)
Inductive Completion := Returned | Threw.

(** [createSession]: [nonce] stands for the random suffix of the id;
    [ok_session] and [ok_analytics] say whether the two awaited store
    writes succeed.  The second write is not reached when the first one
    throws. *)
Definition createSession (title type userId : string) (now : Z)
  (nonce : string) (ok_session ok_analytics : bool) (s : State)
  (db : Store.DB) : Completion * State * Store.DB :=
  let sessionId := "session_" +^ show_Z now +^ "_" +^ nonce in
  let session :=
    {| id := sessionId; title := title; type := type; startTime := now;
       endTime := None; duration := None; status := "active";
       userId := userId; createdAt := now; updatedAt := now |} in
  let with_session :=
    Store.create_session
      {| Store.id := sessionId; Store.userId := userId;
         Store.title := title; Store.type := type;
         Store.startTime := now; Store.endTime := None;
         Store.duration := None; Store.status := "active";
         Store.createdAt := now; Store.updatedAt := now |} db in
  if ok_session then
    if ok_analytics then
      (Returned,
       {| currentSession := Some session;
          recentSessions := recentSessions s |},
       Store.create_analytics
         {| Store.a_id := "analytics_" +^ sessionId;
            Store.a_sessionId := sessionId;
            Store.a_userId := userId;
            Store.suggestionsUsed := Some 0%Z;
            Store.totalSuggestions := Some 0%Z;
            Store.a_createdAt := now;
            Store.a_updatedAt := now |} with_session)
    else (Threw, s, with_session)
  else (Threw, s, db).

(** [endSession(sessionId)] called at time [now]; [ok] says whether the
    awaited store update succeeds. *)
Definition endSession (sessionId : string) (now : Z) (ok : bool)
  (s : State) (db : Store.DB) : Completion * State * Store.DB :=
  match currentSession s with
  | None => (Returned, s, db)
  | Some current =>
      let duration_ := (now - startTime current)%Z in
      if ok then
        let updatedSession :=
          {| id := id current; title := title current;
             type := type current; startTime := startTime current;
             endTime := Some now; duration := Some duration_;
             status := "completed"; userId := userId current;
             createdAt := createdAt current; updatedAt := now |} in
        (Returned,
         {| currentSession := Some updatedSession;
            recentSessions :=
              updatedSession :: JS.slice_first 9 (recentSessions s) |},
         Store.update_session_end sessionId now duration_ db)
      else (Threw, s, db)
  end.

(** [saveTranscriptionSegment]: a failed write is logged and dropped. *)
Definition saveTranscriptionSegment (sessionId text : string)
  (timestamp : Z) (isUserSpeaking : bool) (now : Z) (nonce : string)
  (ok : bool) (db : Store.DB) : Store.DB :=
  if ok then
    Store.create_segment
      {| Store.g_id := "segment_" +^ show_Z now +^ "_" +^ nonce;
         Store.g_sessionId := sessionId;
         Store.text := text;
         Store.timestamp := timestamp;
         Store.isUserSpeaking := if isUserSpeaking then 1%Z else 0%Z;
         Store.g_createdAt := now |} db
  else db.

Record Stats := {
  totalSessions : nat;
  totalDuration : Z;
  avgSuggestions : Num.t;
  successRate : Num.t
}.

(** [field || fallback] on an optional count: absent and [0] are falsy. *)
Definition count_or (field : option Z) (fallback : Z) : Z :=
  match field with
  | Some n => if (n =? 0)%Z then fallback else n
  | None => fallback
  end.

(** [rows.reduce((sum, a) => sum + f(a), 0)]. *)
Definition sum_by {A : Type} (f : A -> Z) (rows : list A) : Z :=
  fold_left (fun sum a => (sum + f a)%Z) rows 0%Z.

(** [getSessionStats]: [listed] is what the two [list] calls return, or
    [None] when one of them throws. *)
Definition getSessionStats
  (listed : option (list Store.SessionRow * list Store.AnalyticsRow))
  : Stats :=
  match listed with
  | None =>
      {| totalSessions := 0; totalDuration := 0;
         avgSuggestions := Num.of_Z 0; successRate := Num.of_Z 0 |}
  | Some (sessions, analytics) =>
      let avg :=
        if 0 <? List.length analytics then
          Num.div
            (Num.of_Z (sum_by (fun a => count_or (Store.totalSuggestions a) 0)
                         analytics))
            (Num.of_Z (Z.of_nat (List.length analytics)))
        else Num.of_Z 0 in
      let rate :=
        if 0 <? List.length analytics then
          Num.mul
            (Num.div
               (Num.of_Z (sum_by (fun a => count_or (Store.suggestionsUsed a) 0)
                            analytics))
               (Num.of_Z (sum_by (fun a => count_or (Store.totalSuggestions a) 1)
                            analytics)))
            (Num.of_Z 100)
        else Num.of_Z 0 in
      {| totalSessions := List.length sessions;
         totalDuration :=
           sum_by (fun session => count_or (Store.duration session) 0)
             sessions;
         avgSuggestions :=
           Num.div (Num.round (Num.mul avg (Num.of_Z 10))) (Num.of_Z 10);
         successRate := Num.round rate |}
  end.

End SessionManager.

(** ** components/EnhancedOverlayWindow.tsx *)

Module EnhancedOverlayWindow.

(** *** The effect that asks for suggestions *)

(** The condition under which the effect calls [generateSuggestion]:
    [transcript && transcript.length > 100] and
    [transcript.split(' ').length % 50 === 0]. *)
Definition wants_suggestion (transcript : string) : bool :=
  JS.truthy transcript
  && (100 <? String.length transcript)
  && (List.length (JS.split_space transcript) mod 50 =? 0).

(** The coaching hook together with the contexts of the requests that
    have been issued and have not settled yet. *)
Record Scheduler := {
  transcript : string;
  coaching : AICoaching.State;
  requests : list string
}.

Definition scheduler0 : Scheduler :=
  {| transcript := ""; coaching := AICoaching.initial; requests := [] |}.

Definition in_flight (s : Scheduler) : nat := List.length (requests s).

(** One run of the effect body. *)
Definition suggestion_effect (s : Scheduler) : Scheduler :=
  if wants_suggestion (transcript s) then
    match AICoaching.generateSuggestion_start (transcript s) (coaching s) with
    | Some c =>
        {| transcript := transcript s;
           coaching := c;
           requests := requests s ++ [transcript s] |}
    | None => s
    end
  else s.

Fixpoint remove_nth {A : Type} (i : nat) (l : list A) : list A :=
  match i, l with
  | _, [] => []
  | O, _ :: rest => rest
  | S j, x :: rest => x :: remove_nth j rest
  end.

Inductive Event :=
| TranscriptChanged (text : string)
| SessionTypeChanged
| Settled (i : nat) (now : Z) (r : Inference AICoaching.Payload).

(** The effect depends on the transcript and on the session type: it
    runs again when either has changed.  [Settled i now r] is the [i]-th
    pending request settling as [r]. *)
Definition step (s : Scheduler) (e : Event) : Scheduler :=
  match e with
  | TranscriptChanged text =>
      if String.eqb text (transcript s) then s
      else suggestion_effect
             {| transcript := text;
                coaching := coaching s;
                requests := requests s |}
  | SessionTypeChanged => suggestion_effect s
  | Settled i now r =>
      match nth_error (requests s) i with
      | Some context =>
          {| transcript := transcript s;
             coaching :=
               AICoaching.generateSuggestion_settle now context r (coaching s);
             requests := remove_nth i (requests s) |}
      | None => s
      end
  end.

Definition run (events : list Event) (s : Scheduler) : Scheduler :=
  fold_left step events s.

(** *** The debounced transcript write and the session controls *)

Record Timer := {
  due : Z;
  t_sessionId : string;
  t_transcript : string
}.

(** [ending] holds the argument and the clock reading of an [endSession]
    call that is waiting for the store. *)
Record Window := {
  w_transcript : string;
  sessionStartTime : option Z;
  manager : SessionManager.State;
  db : Store.DB;
  debounceTimer : option Timer;
  ending : option (string * Z)
}.

Definition window0 : Window :=
  {| w_transcript := ""; sessionStartTime := None;
     manager := SessionManager.initial; db := Store.empty;
     debounceTimer := None; ending := None |}.

(** [sessionStartTime] as a condition: [null] and [0] are falsy. *)
Definition started (w : Window) : bool :=
  match sessionStartTime w with
  | Some t => negb (t =? 0)%Z
  | None => false
  end.

(** The debounce effect runs again after one of its dependencies has
    changed: the cleanup clears the timer of the previous run, and the
    body sets a new one of 2000 ms when transcript, session and start
    time are all truthy. *)
Definition debounce_effect (now : Z) (w : Window) : Window :=
  {| w_transcript := w_transcript w;
     sessionStartTime := sessionStartTime w;
     manager := manager w;
     db := db w;
     debounceTimer :=
       match SessionManager.currentSession (manager w) with
       | Some current =>
           if JS.truthy (w_transcript w) && started w
           then Some {| due := (now + 2000)%Z;
                        t_sessionId := SessionManager.id current;
                        t_transcript := w_transcript w |}
           else None
       | None => None
       end;
     ending := ending w |}.

(** The clock reaches [now]: a timer that is due runs its callback,
    [saveTranscriptionSegment(currentSession.id, transcript, Date.now(),
    true)], at its due time. *)
Definition advance (now : Z) (nonce : string) (ok : bool) (w : Window)
  : Window :=
  match debounceTimer w with
  | Some timer =>
      if (due timer <=? now)%Z then
        {| w_transcript := w_transcript w;
           sessionStartTime := sessionStartTime w;
           manager := manager w;
           db := SessionManager.saveTranscriptionSegment
                   (t_sessionId timer) (t_transcript timer) (due timer)
                   true (due timer) nonce ok (db w);
           debounceTimer := None;
           ending := ending w |}
      else w
  | None => w
  end.

Inductive Action :=
| StartSession (sessionType : string) (userId : option string)
| SetTranscript (text : string)
| StopSession
| StopSettled
| Wait.

(** [sessionType.charAt(0).toUpperCase() + sessionType.slice(1)]. *)
Definition capitalize (s : string) : string :=
  match s with
  | EmptyString => EmptyString
  | String c rest =>
      let n := nat_of_ascii c in
      String (if (97 <=? n) && (n <=? 122) then ascii_of_nat (n - 32) else c)
        rest
  end.

(** [setSessionStartTime(null)] at the end of [stopSession], and the
    effect run that follows. *)
Definition clear_start (now : Z) (w : Window) : Window :=
  debounce_effect now
    {| w_transcript := w_transcript w;
       sessionStartTime := None;
       manager := manager w;
       db := db w;
       debounceTimer := debounceTimer w;
       ending := None |}.

(** What an action does at time [now]; [ok] is the outcome of the store
    calls it awaits and [nonce] the random part of the ids it makes. *)
Definition act (now : Z) (nonce : string) (ok : bool) (a : Action)
  (w : Window) : Window :=
  match a with
  | StartSession sessionType userId =>
      match userId with
      | None => w
      | Some uid =>
          match SessionManager.createSession
                  (capitalize sessionType +^ " Session") sessionType uid
                  now nonce ok ok (manager w) (db w) with
          | (SessionManager.Returned, m, d) =>
              debounce_effect now
                {| w_transcript := w_transcript w;
                   sessionStartTime := Some now;
                   manager := m;
                   db := d;
                   debounceTimer := debounceTimer w;
                   ending := ending w |}
          | (SessionManager.Threw, m, d) =>
              {| w_transcript := w_transcript w;
                 sessionStartTime := sessionStartTime w;
                 manager := m;
                 db := d;
                 debounceTimer := debounceTimer w;
                 ending := ending w |}
          end
      end
  | SetTranscript text =>
      if String.eqb text (w_transcript w) then w
      else debounce_effect now
             {| w_transcript := text;
                sessionStartTime := sessionStartTime w;
                manager := manager w;
                db := db w;
                debounceTimer := debounceTimer w;
                ending := ending w |}
  | StopSession =>
      match SessionManager.currentSession (manager w) with
      | Some current =>
          {| w_transcript := w_transcript w;
             sessionStartTime := sessionStartTime w;
             manager := manager w;
             db := db w;
             debounceTimer := debounceTimer w;
             ending := Some (SessionManager.id current, now) |}
      | None => clear_start now w
      end
  | StopSettled =>
      match ending w with
      | Some (sessionId, invoked) =>
          match SessionManager.endSession sessionId invoked ok
                  (manager w) (db w) with
          | (_, m, d) =>
              clear_start now
                {| w_transcript := w_transcript w;
                   sessionStartTime := sessionStartTime w;
                   manager := m;
                   db := d;
                   debounceTimer := debounceTimer w;
                   ending := ending w |}
          end
      | None => w
      end
  | Wait => w
  end.

(** One entry of a schedule: the instant, the environment's choices and
    the action. *)
Record Moment := {
  at_time : Z;
  nonce : string;
  store_ok : bool;
  action : Action
}.

Definition moment (m : Moment) (w : Window) : Window :=
  act (at_time m) (nonce m) (store_ok m) (action m)
    (advance (at_time m) (nonce m) (store_ok m) w).

Definition play (schedule : list Moment) (w : Window) : Window :=
  fold_left (fun acc m => moment m acc) schedule w.

End EnhancedOverlayWindow.

(** ** components/ScreenAnalysisOverlay.tsx *)

Module ScreenAnalysisOverlay.

(** A feedback request that has been issued: the arguments of the
    [generateContextualFeedback] call. *)
Record FeedbackCall := {
  c_transcription : string;
  c_visualContext : string;
  c_duration : Z
}.

(** The component's hooks, the analysis requests in flight (screenshot,
    and whether the interval issued it) and the feedback requests in
    flight. *)
Record State := {
  sessionType : string;
  lastAnalysisTime : Z;
  captureData : list ScreenCapture.ScreenCaptureData;
  visual : VisualAnalysis.State;
  requests : list (string * bool);
  engine : SmartFeedback.State;
  feedbackCalls : list FeedbackCall
}.

Definition initial (sessionType : string) : State :=
  {| sessionType := sessionType;
     lastAnalysisTime := 0;
     captureData := [];
     visual := VisualAnalysis.initial;
     requests := [];
     engine := SmartFeedback.initial;
     feedbackCalls := [] |}.

Definition in_flight (s : State) : nat := List.length (requests s).

(** [analyzeScreen(screenshot, sessionType)] up to its await. *)
Definition issue (screenshot : string) (from_interval : bool) (s : State)
  : State :=
  {| sessionType := sessionType s;
     lastAnalysisTime := lastAnalysisTime s;
     captureData := captureData s;
     visual := VisualAnalysis.analyzeScreen_start (visual s);
     requests := requests s ++ [(screenshot, from_interval)];
     engine := engine s;
     feedbackCalls := feedbackCalls s |}.

(** The interval callback, run at time [now]. *)
Definition tick (now : Z) (s : State) : State :=
  match ScreenCapture.getLatestCapture (captureData s) with
  | Some latestCapture =>
      if (8000 <? now - lastAnalysisTime s)%Z
      then issue (ScreenCapture.screenshot latestCapture) true s
      else s
  | None => s
  end.

(** A click on the Analyze Now button, which is disabled while
    [isAnalyzing] holds or no capture exists. *)
Definition analyzeNow (s : State) : State :=
  if VisualAnalysis.isAnalyzing (visual s) then s
  else match ScreenCapture.getLatestCapture (captureData s) with
       | Some capture => issue (ScreenCapture.screenshot capture) false s
       | None => s
       end.

(** The effect on [analyses]: ask for feedback about the latest one. *)
Definition feedback_effect (now : Z) (s : State) : State :=
  match VisualAnalysis.getLatestAnalysis (visual s) with
  | Some latestAnalysis =>
      {| sessionType := sessionType s;
         lastAnalysisTime := lastAnalysisTime s;
         captureData := captureData s;
         visual := visual s;
         requests := requests s;
         engine := engine s;
         feedbackCalls :=
           feedbackCalls s ++
           [ {| c_transcription :=
                  VisualAnalysis.content
                    (VisualAnalysis.analysis latestAnalysis);
                c_visualContext :=
                  VisualAnalysis.context
                    (VisualAnalysis.analysis latestAnalysis);
                c_duration :=
                  (now - (VisualAnalysis.timestamp latestAnalysis - 60000))%Z
             |} ] |}
  | None => s
  end.

(** The [i]-th analysis request settles as [r] at time [now]: the rest of
    [analyzeScreen], then [setLastAnalysisTime(Date.now())] when the
    request came from the interval, then the effect on [analyses]. *)
Definition analysis_settled (i : nat) (now : Z)
  (r : Inference VisualAnalysis.AnalysisData) (s : State) : State :=
  match nth_error (requests s) i with
  | Some (screenshot, from_interval) =>
      feedback_effect now
        {| sessionType := sessionType s;
           lastAnalysisTime :=
             if from_interval then now else lastAnalysisTime s;
           captureData := captureData s;
           visual :=
             snd (VisualAnalysis.analyzeScreen_settle now screenshot
                    (Some (sessionType s)) r (visual s));
           requests := EnhancedOverlayWindow.remove_nth i (requests s);
           engine := engine s;
           feedbackCalls := feedbackCalls s |}
  | None => s
  end.

(** The [i]-th feedback request settles as [r] at time [now]. *)
Definition feedback_settled (i : nat) (now : Z)
  (r : Inference SmartFeedback.FeedbackData) (s : State) : State :=
  match nth_error (feedbackCalls s) i with
  | Some call =>
      {| sessionType := sessionType s;
         lastAnalysisTime := lastAnalysisTime s;
         captureData := captureData s;
         visual := visual s;
         requests := requests s;
         engine :=
           snd (SmartFeedback.generateContextualFeedback now
                  (c_transcription call) (c_visualContext call)
                  (sessionType s) (c_duration call) r (engine s));
         feedbackCalls :=
           EnhancedOverlayWindow.remove_nth i (feedbackCalls s) |}
  | None => s
  end.

Definition captured (now : Z) (s : State) : State :=
  {| sessionType := sessionType s;
     lastAnalysisTime := lastAnalysisTime s;
     captureData :=
       ScreenCapture.pushCapture (ScreenCapture.frame now) (captureData s);
     visual := visual s;
     requests := requests s;
     engine := engine s;
     feedbackCalls := feedbackCalls s |}.

(** [Tick] is one run of the interval callback, which exists while the
    overlay is active and capturing; [Captured] is one run of the capture
    hook's interval; [AnalyzeNow] is a click on the button.  The events
    say what one run does; at which instants the interval runs, given
    that the effect starts it anew whenever a frame is stored, is the
    subject of [AnalysisTimers]. *)
Inductive Event :=
| Captured (now : Z)
| Tick (now : Z)
| AnalyzeNow
| AnalysisSettled (i : nat) (now : Z)
    (r : Inference VisualAnalysis.AnalysisData)
| FeedbackSettled (i : nat) (now : Z)
    (r : Inference SmartFeedback.FeedbackData).

Definition step (s : State) (e : Event) : State :=
  match e with
  | Captured now => captured now s
  | Tick now => tick now s
  | AnalyzeNow => analyzeNow s
  | AnalysisSettled i now r => analysis_settled i now r s
  | FeedbackSettled i now r => feedback_settled i now r s
  end.

Definition run (events : list Event) (s : State) : State :=
  fold_left step events s.

(** The feedback events present in the engine. *)
Definition emitted (s : State) : list SmartFeedback.SmartFeedback :=
  SmartFeedback.feedbacks (engine s).

End ScreenAnalysisOverlay.

(** ** Vocabulary of the properties and the scenarios they are tried on *)

Module Scenario.

Import ScreenCapture SmartFeedback AICoaching.

(** The instants 1000, 2000, ..., [n] * 1000. *)
Definition instants (n : nat) : list Z :=
  map (fun k => (1000 * Z.of_nat k)%Z) (seq 1 n).

(** The number of the first run of the sweep that comes more than 30000 ms
    after [created], for a hook mounted at [mounted]. *)
Definition first_sweep_after (mounted created : Z) : nat :=
  Z.to_nat ((created + 30000 - mounted) / 5000 + 1).

(** A low-priority event created at 10000 ms under a hook mounted at 0. *)
Definition topics_event : SmartFeedback :=
  meeting_insight 10000 "_topics" "insight" "low" "Key Topics Identified"
    "Main discussion points: pricing" false 60000 "topic_analysis" None.

(** The event is not a vision call that succeeded: analysis requests, if
    any settle, settle as failures. *)
Definition vision_fails (e : ScreenAnalysisOverlay.Event) : Prop :=
  match e with
  | ScreenAnalysisOverlay.AnalysisSettled _ _ r => r = CallFailed
  | _ => True
  end.

(** The latest analysis exists and has urgency low. *)
Definition latest_is_low (s : ScreenAnalysisOverlay.State) : Prop :=
  exists a,
    VisualAnalysis.getLatestAnalysis (ScreenAnalysisOverlay.visual s) = Some a
    /\ VisualAnalysis.urgency (VisualAnalysis.analysis a) = "low".

(** The stored counters of a record are counts: not negative. *)
Definition counts_ok (a : Store.AnalyticsRow) : Prop :=
  (0 <= SessionManager.count_or (Store.suggestionsUsed a) 0)%Z
  /\ (0 <= SessionManager.count_or (Store.totalSuggestions a) 0)%Z.

Definition counts_nonneg
  (listed : option (list Store.SessionRow * list Store.AnalyticsRow)) : Prop :=
  match listed with
  | Some (_, analytics) => Forall counts_ok analytics
  | None => True
  end.

(** No suggestion has been recorded: every record counts zero suggestions,
    none of them used (in particular when there is no record at all). *)
Definition no_suggestions
  (listed : option (list Store.SessionRow * list Store.AnalyticsRow)) : Prop :=
  match listed with
  | Some (_, analytics) =>
      Forall (fun a =>
                SessionManager.count_or (Store.suggestionsUsed a) 0 = 0%Z
                /\ SessionManager.count_or (Store.totalSuggestions a) 0 = 0%Z)
        analytics
  | None => True
  end.

(** Two suggestions in arrival order, the second one newer. *)
Definition older : AISuggestion := fallbackSuggestion 1000 "ctx" "first".
Definition newer : AISuggestion := fallbackSuggestion 2000 "ctx" "second".


(** A word: not empty and free of white space. *)
Fixpoint solid (w : string) : bool :=
  match w with
  | EmptyString => true
  | String c rest => negb (is_space c) && solid rest
  end.

Definition is_word (w : string) : bool :=
  JS.truthy w && solid w.

(** The transcript after [k] increments of ten words each, the words
    spoken being [ws]. *)
Definition grown (ws : list string) (k : nat) : string :=
  String.concat " " (firstn (10 * k) ws).

(** The transcript growing to 150 words in fifteen increments. *)
Definition growth (ws : list string) : list EnhancedOverlayWindow.Event :=
  map (fun k => EnhancedOverlayWindow.TranscriptChanged (grown ws k))
    (seq 1 15).

(** The same fifteen increments when each arrives as a transcription
    result of ten words and is assembled by the audio hook. *)
Definition heard (ws : list string) (k : nat) : string :=
  AudioCapture.transcription
    (AudioCapture.settle_all
       (map (fun j => AudioCapture.Resolved
                        (String.concat " " (firstn 10 (skipn (10 * j) ws))))
          (seq 0 k))
       AudioCapture.initial).

Definition hearing (ws : list string) : list EnhancedOverlayWindow.Event :=
  map (fun k => EnhancedOverlayWindow.TranscriptChanged (heard ws k))
    (seq 1 15).


(** A session started at 1000 ms whose transcript changes 1500 ms before
    the stop at 126000 ms; the store answers the stop 50 ms later, and the
    window is left alone until 200000 ms. *)
Definition before_stop : list EnhancedOverlayWindow.Moment :=
  [ {| EnhancedOverlayWindow.at_time := 1000;
       EnhancedOverlayWindow.nonce := "k3x9q2m1z";
       EnhancedOverlayWindow.store_ok := true;
       EnhancedOverlayWindow.action :=
         EnhancedOverlayWindow.StartSession "meeting" (Some "user_1") |};
    {| EnhancedOverlayWindow.at_time := 124500;
       EnhancedOverlayWindow.nonce := "a";
       EnhancedOverlayWindow.store_ok := true;
       EnhancedOverlayWindow.action :=
         EnhancedOverlayWindow.SetTranscript " thanks everyone" |} ].


(** The session that [before_stop] creates. *)
Definition started_session : SessionManager.Session :=
  {| SessionManager.id := "session_1000_k3x9q2m1z";
     SessionManager.title := "Meeting Session";
     SessionManager.type := "meeting";
     SessionManager.startTime := 1000;
     SessionManager.endTime := None;
     SessionManager.duration := None;
     SessionManager.status := "active";
     SessionManager.userId := "user_1";
     SessionManager.createdAt := 1000;
     SessionManager.updatedAt := 1000 |}.

(** An analytics record with the given counters. *)
Definition counted (used total : option Z) : Store.AnalyticsRow :=
  {| Store.a_id := "analytics_s"; Store.a_sessionId := "s";
     Store.a_userId := "user_1";
     Store.suggestionsUsed := used; Store.totalSuggestions := total;
     Store.a_createdAt := 0; Store.a_updatedAt := 0 |}.

(** A parsed feedback response that asks for priority urgent. *)
Definition urgent_response : Inference FeedbackData :=
  Parsed "{}"
    {| SmartFeedback.d_type := Some "warning";
       SmartFeedback.d_priority := Some "urgent";
       SmartFeedback.d_title := Some "Budget";
       SmartFeedback.d_message := Some "Address the budget concern.";
       SmartFeedback.d_actionable := Some true;
       SmartFeedback.d_suggestions := None |}.

(** Each transcript of the list differs from the one before it, [prev]
    being the transcript before the first. *)
Fixpoint changes (prev : string) (ts : list string) : Prop :=
  match ts with
  | [] => True
  | t :: rest => t <> prev /\ changes t rest
  end.

End Scenario.

(** ** useVisualAnalysis.getRecentFeedback *)

Module RecentFeedback.

(** [getRecentFeedback(minutes)] read at time [now]: the actionable
    feedback items of the analyses newer than the cutoff. *)
Definition getRecentFeedback (now minutes : Z) (s : VisualAnalysis.State)
  : list VisualAnalysis.Feedback :=
  let cutoff := (now - minutes * 60 * 1000)%Z in
  filter VisualAnalysis.fb_actionable
    (flat_map VisualAnalysis.feedback
       (filter (fun a => (cutoff <? VisualAnalysis.timestamp a)%Z)
          (VisualAnalysis.analyses s))).

(** The vision call did not deliver a parsed object. *)
Definition degraded (r : Inference VisualAnalysis.AnalysisData) : Prop :=
  match r with
  | Parsed _ _ => False
  | _ => True
  end.

End RecentFeedback.

(** ** useSmartFeedback: the operations that write the history *)

Module FeedbackHistory.

Import SmartFeedback.

Inductive Op :=
| Contextual (now : Z) (transcription visualContext sessionType : string)
    (duration : Z) (r : Inference FeedbackData)
| Insights (now talkTime listenTime : Z) (keyTopics : list string)
    (participantCount : Z)
| Dismiss (feedbackId : string)
| Sweep (now : Z).

Definition apply (s : State) (op : Op) : State :=
  match op with
  | Contextual now tr vc st dur r =>
      snd (generateContextualFeedback now tr vc st dur r s)
  | Insights now talk listen topics n =>
      snd (generateMeetingInsights now talk listen topics n s)
  | Dismiss feedbackId => dismissFeedback feedbackId s
  | Sweep now => sweep now s
  end.

Definition run (ops : list Op) (s : State) : State :=
  fold_left apply ops s.

(** The titles of the given events, in order. *)
Definition titles (l : list SmartFeedback) : list string := map title l.

End FeedbackHistory.

(** ** useSessionManager.saveAISuggestion and the effect that calls it *)

Module SuggestionSaving.

Record SuggestionRow := {
  r_id : string;
  r_sessionId : string;
  r_type : string;
  r_content : string;
  r_context : string;
  r_timestamp : Z;
  r_priority : string;
  r_isUsed : Z;
  r_createdAt : Z
}.

(** [saveAISuggestion]: one row created in the [aiSuggestions] table; a
    failed write is logged and dropped. *)
Definition saveAISuggestion (sessionId type content context priority : string)
  (now : Z) (nonce : string) (ok : bool) (table : list SuggestionRow)
  : list SuggestionRow :=
  if ok then
    table ++ [ {| r_id := "suggestion_" +^ show_Z now +^ "_" +^ nonce;
                  r_sessionId := sessionId;
                  r_type := type;
                  r_content := content;
                  r_context := context;
                  r_timestamp := now;
                  r_priority := priority;
                  r_isUsed := 0;
                  r_createdAt := now |} ]
  else table.

(** One run of the effect of EnhancedOverlayWindow that depends on
    [suggestions] and [currentSession]: the last suggestion of the list is
    saved when it is not marked used. *)
Definition save_effect (suggestions : list AICoaching.AISuggestion)
  (currentSession : option SessionManager.Session) (now : Z) (nonce : string)
  (ok : bool) (table : list SuggestionRow) : list SuggestionRow :=
  if 0 <? List.length suggestions then
    match currentSession with
    | Some current =>
        match JS.last_item suggestions with
        | Some latestSuggestion =>
            if negb (AICoaching.isUsed latestSuggestion) then
              saveAISuggestion (SessionManager.id current)
                (AICoaching.type latestSuggestion)
                (AICoaching.content latestSuggestion)
                (AICoaching.context latestSuggestion)
                (AICoaching.priority latestSuggestion) now nonce ok table
            else table
        | None => table
        end
    | None => table
    end
  else table.

End SuggestionSaving.

(** ** components/OverlayWindow.tsx: the recent words and the counter *)

Module OverlayWindow.

(** [transcription.split(' ').slice(-20).join(' ')]. *)
Definition recentWords (transcription : string) : string :=
  String.concat " " (JS.slice_last 20 (JS.split_space transcription)).

(** The string holds no space character. *)
Fixpoint spaceless (w : string) : bool :=
  match w with
  | EmptyString => true
  | String c rest => negb (Ascii.eqb c " "%char) && spaceless rest
  end.

(** The counter shown as used / total. *)
Definition used_count (suggestions : list AICoaching.AISuggestion) : nat :=
  List.length (filter AICoaching.isUsed suggestions).

End OverlayWindow.

(** ** The session clock of EnhancedOverlayWindow *)

Module SessionClock.

(** [String(n).padStart(2, '0')]. *)
Definition padStart2 (s : string) : string :=
  match String.length s with
  | 0 => "00"
  | 1 => "0" +^ s
  | _ => s
  end.

(** [sessionStartTime ? Date.now() - sessionStartTime : 0]. *)
Definition sessionDuration (now : Z) (sessionStartTime : option Z) : Z :=
  match sessionStartTime with
  | Some t => if (t =? 0)%Z then 0%Z else (now - t)%Z
  | None => 0%Z
  end.

(** The minutes shown: [Math.floor(sessionDuration / 60000)]. *)
Definition minutes (d : Z) : Z := (d / 60000)%Z.

(** The seconds shown: [Math.floor((sessionDuration % 60000) / 1000)], the
    remainder taking the sign of the dividend. *)
Definition seconds (d : Z) : Z := (Z.rem d 60000 / 1000)%Z.

(** The text of the duration tile. *)
Definition clock (d : Z) : string :=
  show_Z (minutes d) +^ ":" +^ padStart2 (show_Z (seconds d)).

End SessionClock.

(** ** Bursts of transcript changes in EnhancedOverlayWindow *)

Module Burst.

Import EnhancedOverlayWindow.

(** Every entry changes the transcript to a non-empty text, and comes
    before the timer set by the entry before it is due ([due] being the
    timer pending at the start, [cur] the transcript at the start). *)
Fixpoint quick (due : option Z) (cur : string) (ms : list Moment) : Prop :=
  match ms with
  | [] => True
  | m :: rest =>
      exists text,
        action m = SetTranscript text
        /\ JS.truthy text = true
        /\ text <> cur
        /\ match due with
           | Some d => (at_time m < d)%Z
           | None => True
           end
        /\ quick (Some (at_time m + 2000)%Z) text rest
  end.

(** The instant of the last entry, [t0] for the empty schedule. *)
Definition last_time (t0 : Z) (ms : list Moment) : Z :=
  last (map at_time ms) t0.

End Burst.

(** ** useAudioCapture: recordings and their transcriptions *)

Module Recording.

Import AudioCapture.

(** [Started failure] is a call of [startRecording]: it begins with
    [setError(null)], and when the microphone is refused its catch branch
    sets the error to the message.  [Settled o] is a transcription
    settling. *)
Inductive Event :=
| Started (failure : option string)
| Settled (o : Outcome).

Definition startRecording (failure : option string) (s : State) : State :=
  {| transcription := transcription s;
     error := match failure with
              | Some message =>
                  Some ("Failed to access microphone: " +^ message)
              | None => None
              end |}.

Definition step (s : State) (e : Event) : State :=
  match e with
  | Started failure => startRecording failure s
  | Settled o => transcribeAudio o s
  end.

Definition run (events : list Event) (s : State) : State :=
  fold_left step events s.

(** The settlements of successful transcriptions of the given texts. *)
Definition successes (texts : list string) : list Event :=
  map (fun t => Settled (Resolved t)) texts.

(** The texts of the successful transcriptions in a trace, in order. *)
Definition resolved (events : list Event) : list string :=
  flat_map (fun e => match e with
                     | Settled (Resolved t) => [t]
                     | _ => []
                     end) events.

End Recording.

(** ** ScreenAnalysisOverlay: the two intervals

    The capture hook's interval fires every 3000 ms; the overlay's effect
    keeps an interval of 10000 ms for the analysis callback.  The effect
    depends on [isActive], [isCapturing], [getLatestCapture] and
    [lastAnalysisTime]: whenever one of them changes, its cleanup clears
    the interval and its body starts a new one, if the overlay is active
    and capturing.  [getLatestCapture] is a callback on [captureData], so
    it changes with every frame that is stored. *)

Module AnalysisTimers.

Record Timed := {
  overlay : ScreenAnalysisOverlay.State;
  isActive : bool;
  isCapturing : bool;
  captureDue : option Z;
  analysisDue : option Z
}.

(** The effect runs again at time [now]. *)
Definition restart_interval (now : Z) (t : Timed) : option Z :=
  if isActive t && isCapturing t then Some (now + 10000)%Z else None.

(** The overlay as it is mounted, active, before capture has started. *)
Definition mounted (sessionType : string) : Timed :=
  {| overlay := ScreenAnalysisOverlay.initial sessionType;
     isActive := true;
     isCapturing := false;
     captureDue := None;
     analysisDue := None |}.

(** [startCapture] has obtained the stream at time [now]:
    [setIsCapturing(true)] and the capture interval. *)
Definition capture_started (now : Z) (t : Timed) : Timed :=
  let t' := {| overlay := overlay t;
               isActive := isActive t;
               isCapturing := true;
               captureDue := Some (now + 3000)%Z;
               analysisDue := analysisDue t |} in
  {| overlay := overlay t';
     isActive := isActive t';
     isCapturing := isCapturing t';
     captureDue := captureDue t';
     analysisDue := restart_interval now t' |}.

(** The capture interval fires at time [now]; [frame_ok] says whether the
    video has a frame to draw ([ctx && video.videoWidth > 0]).  A stored
    frame changes [getLatestCapture], so the analysis interval starts
    anew. *)
Definition capture_fires (now : Z) (frame_ok : bool) (t : Timed) : Timed :=
  if frame_ok then
    {| overlay := ScreenAnalysisOverlay.captured now (overlay t);
       isActive := isActive t;
       isCapturing := isCapturing t;
       captureDue := Some (now + 3000)%Z;
       analysisDue := restart_interval now t |}
  else
    {| overlay := overlay t;
       isActive := isActive t;
       isCapturing := isCapturing t;
       captureDue := Some (now + 3000)%Z;
       analysisDue := analysisDue t |}.

(** The analysis interval fires at time [now]: one run of the callback. *)
Definition analysis_fires (now : Z) (t : Timed) : Timed :=
  {| overlay := ScreenAnalysisOverlay.tick now (overlay t);
     isActive := isActive t;
     isCapturing := isCapturing t;
     captureDue := captureDue t;
     analysisDue := Some (now + 10000)%Z |}.

(** The [i]-th analysis request settles at time [now]; when that moves
    [lastAnalysisTime] the analysis interval starts anew. *)
Definition settles (i : nat) (now : Z)
  (r : Inference VisualAnalysis.AnalysisData) (t : Timed) : Timed :=
  let o := ScreenAnalysisOverlay.analysis_settled i now r (overlay t) in
  {| overlay := o;
     isActive := isActive t;
     isCapturing := isCapturing t;
     captureDue := captureDue t;
     analysisDue :=
       if (ScreenAnalysisOverlay.lastAnalysisTime o
           =? ScreenAnalysisOverlay.lastAnalysisTime (overlay t))%Z
       then analysisDue t
       else restart_interval now t |}.

(** The timer that is due first fires (the capture interval when both are
    due at the same instant). *)
Definition fire_next (frame_ok : bool) (t : Timed) : Timed :=
  match captureDue t, analysisDue t with
  | Some c, Some a =>
      if (c <=? a)%Z then capture_fires c frame_ok t else analysis_fires a t
  | Some c, None => capture_fires c frame_ok t
  | None, Some a => analysis_fires a t
  | None, None => t
  end.

(** The timers fire one after the other, [frames] telling for each firing
    whether a frame is there to be drawn. *)
Definition fire_all (frames : list bool) (t : Timed) : Timed :=
  fold_left (fun acc frame_ok => fire_next frame_ok acc) frames t.

(** The overlay active with capture started at time [t0]. *)
Definition capturing_from (t0 : Z) (sessionType : string) : Timed :=
  capture_started t0 (mounted sessionType).

End AnalysisTimers.

(** * Properties *)

Import Scenario.

(** ** Strings and arrays *)

Section StringFacts.

Lemma append_assoc (a b c : string) : (a +^ b) +^ c = a +^ (b +^ c).
Proof.
  induction a as [|ch a IH]; simpl; [reflexivity | now rewrite IH].
Qed.

Lemma append_empty_r (a : string) : a +^ "" = a.
Proof.
  induction a as [|ch a IH]; simpl; [reflexivity | now rewrite IH].
Qed.

Lemma length_append (a b : string) :
  String.length (a +^ b) = String.length a + String.length b.
Proof.
  induction a as [|ch a IH]; simpl; [reflexivity | now rewrite IH].
Qed.

End StringFacts.

Section ArrayFacts.

Context {A : Type}.

Lemma slice_last_length (n : nat) (l : list A) :
  List.length (JS.slice_last n l) = Nat.min n (List.length l).
Proof.
  unfold JS.slice_last. rewrite length_skipn. lia.
Qed.

Lemma slice_last_short (n : nat) (l : list A) :
  List.length l <= n -> JS.slice_last n l = l.
Proof.
  intros H. unfold JS.slice_last.
  replace (List.length l - n) with 0 by lia. reflexivity.
Qed.

Lemma last_item_snoc (l : list A) (x : A) :
  JS.last_item (l ++ [x]) = Some x.
Proof.
  unfold JS.last_item. rewrite length_app. simpl.
  replace (List.length l + 1 - 1) with (List.length l) by lia.
  rewrite nth_error_app2 by lia.
  rewrite Nat.sub_diag. reflexivity.
Qed.

End ArrayFacts.

(** ** The transcript (useAudioCapture) *)

Section Transcript.

Import AudioCapture.

Lemma settle_all_app (xs ys : list Outcome) (s : State) :
  settle_all (xs ++ ys) s = settle_all ys (settle_all xs s).
Proof.
  unfold settle_all. apply fold_left_app.
Qed.

(** Results are applied one after the other as they arrive; a rejected
    call leaves the transcript alone. *)
Lemma settle_all_transcription (arrivals : list Outcome) (s : State) :
  transcription (settle_all arrivals s)
  = transcription s
    +^ concatenation (map fragment (resolved_texts arrivals)).
Proof.
  revert s. induction arrivals as [|o rest IH]; intros s.
  - simpl. now rewrite append_empty_r.
  - change (settle_all (o :: rest) s)
      with (settle_all rest (transcribeAudio o s)).
    rewrite IH. destruct o as [text|msg]; simpl.
    + now rewrite !append_assoc.
    + reflexivity.
Qed.

Lemma resolved_texts_arrivals_of (texts : list string) (order : list nat) :
  resolved_texts (arrivals_of texts order)
  = map (fun i => nth i texts "") order.
Proof.
  induction order as [|i rest IH]; simpl; [reflexivity | now rewrite IH].
Qed.


Lemma map_nth_seq (texts : list string) :
  map (fun i => nth i texts "") (seq 0 (List.length texts)) = texts.
Proof.
  apply nth_ext with (d := "") (d' := "").
  - now rewrite length_map, length_seq.
  - intros n Hn. rewrite length_map, length_seq in Hn.
    rewrite nth_indep with (d' := nth (List.length texts) texts "")
      by (now rewrite length_map, length_seq).
    rewrite map_nth with (f := fun i => nth i texts "").
    now rewrite seq_nth.
Qed.

(** When the results happen to arrive in submission order the transcript
    is the concatenation in submission order. *)
Lemma transcript_when_in_order (texts : list string) :
  in_submission_order texts = concatenation (map fragment texts).
Proof.
  unfold in_submission_order, assembled. rewrite settle_all_transcription.
  now rewrite resolved_texts_arrivals_of, map_nth_seq.
Qed.


End Transcript.

(** ** The bounded buffers (useScreenCapture, useVisualAnalysis) *)

Section Buffers.

Import ScreenCapture.

(** An append keeps the last ten elements of the old buffer and adds the
    new one after them. *)
Lemma pushCapture_length (x : ScreenCaptureData) (prev : list ScreenCaptureData) :
  List.length (pushCapture x prev) = S (Nat.min 10 (List.length prev)).
Proof.
  unfold pushCapture. rewrite length_app, slice_last_length. simpl. lia.
Qed.

Lemma capture_all_snoc (ticks : list Z) (t : Z) (prev : list ScreenCaptureData) :
  capture_all (ticks ++ [t]) prev = pushCapture (frame t) (capture_all ticks prev).
Proof.
  unfold capture_all. now rewrite fold_left_app.
Qed.

(** The frame buffer never holds more than eleven frames. *)
Lemma capture_buffer_bound (ticks : list Z) :
  List.length (capture_all ticks []) <= 11.
Proof.
  induction ticks as [|t rest _] using rev_ind.
  - simpl. lia.
  - rewrite capture_all_snoc, pushCapture_length. lia.
Qed.

Lemma analyzeScreen_length (now : Z) (shot : string) (context : option string)
  (r : Inference VisualAnalysis.AnalysisData) (s : VisualAnalysis.State) :
  List.length (VisualAnalysis.analyses
                 (snd (VisualAnalysis.analyzeScreen now shot context r s)))
  = S (Nat.min 20 (List.length (VisualAnalysis.analyses s))).
Proof.
  simpl. rewrite length_app, slice_last_length. simpl. lia.
Qed.

(** C9, the code at eleven captures and at twenty-one analyses: the frame
    buffer holds eleven frames, the oldest of them still the first frame
    (eviction starts with the twelfth capture), and the analysis history
    holds twenty-one entries.  The updaters keep the last 10 (20) old
    elements and then add the new one. *)
Theorem buffers_hold_one_more_than_capacity :
  List.length (capture_all (instants 11) []) = 11
  /\ hd_error (capture_all (instants 11) []) = Some (frame 1000)
  /\ List.length (capture_all (instants 12) []) = 11
  /\ hd_error (capture_all (instants 12) []) = Some (frame 2000)
  /\ List.length
       (VisualAnalysis.analyses
          (VisualAnalysis.analyze_all "shot"
             (map (fun t => (t, CallFailed)) (instants 21))
             VisualAnalysis.initial)) = 21.
Proof.
  repeat split.
Qed.

End Buffers.

(** ** The feedback engine (useSmartFeedback) *)

Section FeedbackEngine.

Import SmartFeedback.

Lemma takes_slot_spec (p : string) :
  takes_slot p = true <-> p = "high" \/ p = "urgent".
Proof.
  unfold takes_slot. rewrite orb_true_iff, !String.eqb_eq. reflexivity.
Qed.

Lemma takes_slot_false (p : string) :
  p <> "high" -> p <> "urgent" -> takes_slot p = false.
Proof.
  intros Hh Hu. destruct (takes_slot p) eqn:E; [|reflexivity].
  apply takes_slot_spec in E. tauto.
Qed.

Lemma meeting_insights_priority (now talk listen : Z) (topics : list string) :
  Forall (fun f => priority f = "medium" \/ priority f = "low")
    (meeting_insights now talk listen topics).
Proof.
  unfold meeting_insights. apply Forall_app. split.
  - destruct (Num.gtb _ _); [|destruct (Num.ltb _ _)];
      [constructor; [left; reflexivity | constructor] ..| constructor].
  - destruct (0 <? _); [constructor; [right; reflexivity | constructor]
                       | constructor].
Qed.

Lemma dismissFeedback_nth (fid : string) (s : State) (i : nat) :
  nth_error (feedbacks (dismissFeedback fid s)) i
  = option_map (fun f => if String.eqb (id f) fid then set_dismissed f else f)
      (nth_error (feedbacks s) i).
Proof.
  simpl. apply nth_error_map.
Qed.

(** C5: there is one active slot.  Every parsed response creates an
    event, which is returned and appended to the history (behind the last
    fifty); an event created with priority high or urgent replaces the
    slot; an event of any other priority leaves the slot alone (so do the
    meeting insights, which are appended as well and are never high or
    urgent); dismissing an id sets [dismissed] on the events that carry
    it, leaves the other events as they are, and clears the slot exactly
    when the active event carries that id. *)
Theorem feedback_active_slot (s : State) :
  (forall now tr vc st dur text data,
      let f := build now vc st dur text data in
      let result :=
        generateContextualFeedback now tr vc st dur (Parsed text data) s in
      fst result = Some f
      /\ feedbacks (snd result) = JS.slice_last 50 (feedbacks s) ++ [f]
      /\ (priority f = "high" \/ priority f = "urgent" ->
          activeFeedback (snd result) = Some f)
      /\ (priority f <> "high" -> priority f <> "urgent" ->
          activeFeedback (snd result) = activeFeedback s))
  /\ (forall now tr vc st dur r f s',
      generateContextualFeedback now tr vc st dur r s = (Some f, s') ->
      feedbacks s' = JS.slice_last 50 (feedbacks s) ++ [f]
      /\ (priority f = "high" \/ priority f = "urgent" ->
          activeFeedback s' = Some f)
      /\ (priority f <> "high" -> priority f <> "urgent" ->
          activeFeedback s' = activeFeedback s))
  /\ (forall now talk listen topics n insights s',
         generateMeetingInsights now talk listen topics n s = (insights, s') ->
         insights = meeting_insights now talk listen topics
         /\ feedbacks s' = JS.slice_last 50 (feedbacks s) ++ insights
         /\ Forall (fun f => priority f = "medium" \/ priority f = "low")
              insights
         /\ activeFeedback s' = activeFeedback s)
  /\ (forall fid,
         (forall i f, nth_error (feedbacks s) i = Some f -> id f = fid ->
            exists f', nth_error (feedbacks (dismissFeedback fid s)) i = Some f'
                       /\ f' = set_dismissed f
                       /\ dismissed f' = Some true)
         /\ (forall i f, nth_error (feedbacks s) i = Some f -> id f <> fid ->
               nth_error (feedbacks (dismissFeedback fid s)) i = Some f)
         /\ (forall a, activeFeedback s = Some a -> id a = fid ->
               activeFeedback (dismissFeedback fid s) = None)
         /\ (forall a, activeFeedback s = Some a -> id a <> fid ->
               activeFeedback (dismissFeedback fid s) = Some a)
         /\ (activeFeedback s = None ->
               activeFeedback (dismissFeedback fid s) = None)).
Proof.
  split; [|split; [|split]].
  - intros now tr vc st dur text data f result. unfold result.
    cbn [generateContextualFeedback fst snd feedbacks activeFeedback].
    fold f. split; [reflexivity|]. split; [reflexivity|]. split.
    + intros Hp. apply takes_slot_spec in Hp. now rewrite Hp.
    + intros Hh Hu. now rewrite (takes_slot_false _ Hh Hu).
  - intros now tr vc st dur r f s' H.
    destruct r as [|text|text|text data]; simpl in H; try discriminate.
    injection H as Hf Hs. subst f s'. simpl. split; [reflexivity|]. split.
    + intros Hp. apply takes_slot_spec in Hp. simpl in Hp. now rewrite Hp.
    + intros Hh Hu. pose proof (takes_slot_false _ Hh Hu) as E.
      simpl in E. now rewrite E.
  - intros now talk listen topics n insights s' H.
    unfold generateMeetingInsights in H. injection H as Hi Hs.
    subst insights s'. simpl.
    auto using meeting_insights_priority.
  - intros fid. repeat split.
    + intros i f Hi Hid. exists (set_dismissed f).
      rewrite dismissFeedback_nth, Hi. simpl.
      apply String.eqb_eq in Hid. rewrite Hid. auto.
    + intros i f Hi Hid. rewrite dismissFeedback_nth, Hi. simpl.
      apply String.eqb_neq in Hid. now rewrite Hid.
    + intros a Ha Hid. simpl. rewrite Ha.
      apply String.eqb_eq in Hid. now rewrite Hid.
    + intros a Ha Hid. simpl. rewrite Ha.
      apply String.eqb_neq in Hid. now rewrite Hid.
    + intros Ha. simpl. now rewrite Ha.
Qed.

(** The sweep rewrites each event on its own. *)
Lemma sweep_nth (now : Z) (s : State) (i : nat) :
  nth_error (feedbacks (sweep now s)) i
  = option_map (fun f => if expired now f then set_dismissed f else f)
      (nth_error (feedbacks s) i).
Proof.
  simpl. apply nth_error_map.
Qed.

Lemma expired_spec (now : Z) (f : SmartFeedback) :
  expired now f = true
  <-> priority f = "low" /\ (timestamp f + 30000 < now)%Z.
Proof.
  unfold expired. rewrite andb_true_iff, String.eqb_eq, Z.ltb_lt.
  split; intros [Hp Ht]; split; auto; lia.
Qed.

(** C6, as the sweep behaves: a low-priority event created at [t] (the
    hook being mounted by then) and still in the history is marked
    dismissed by the first run of the 5-second sweep that comes more than
    30 s after [t]; that run happens in the window (t+30s, t+35s], and no
    earlier run of the sweep touches the event. *)
Theorem low_priority_swept_after_30s (mounted : Z) (f : SmartFeedback)
  (s : State) (i : nat) :
  priority f = "low" ->
  (mounted <= timestamp f)%Z ->
  nth_error (feedbacks s) i = Some f ->
  let k := first_sweep_after mounted (timestamp f) in
  let tau := sweep_time mounted k in
  (timestamp f + 30000 < tau <= timestamp f + 35000)%Z
  /\ nth_error (feedbacks (sweep tau s)) i = Some (set_dismissed f)
  /\ dismissed (set_dismissed f) = Some true
  /\ (forall j, j < k ->
        nth_error (feedbacks (sweep (sweep_time mounted j) s)) i = Some f).
Proof.
  intros Hlow Hm Hi k tau.
  set (d := (timestamp f + 30000 - mounted)%Z) in *.
  assert (Hd : (0 <= d)%Z) by (unfold d; lia).
  pose proof (Z.div_mod d 5000 ltac:(lia)) as Hdm.
  pose proof (Z.mod_pos_bound d 5000 ltac:(lia)) as Hmod.
  assert (Hq : (0 <= d / 5000)%Z) by (apply Z.div_pos; lia).
  assert (Hk : Z.of_nat k = (d / 5000 + 1)%Z).
  { unfold k, first_sweep_after. fold d. rewrite Z2Nat.id; lia. }
  assert (Htau : tau = (mounted + 5000 * (d / 5000 + 1))%Z).
  { unfold tau, sweep_time. now rewrite Hk. }
  assert (Hwin : (timestamp f + 30000 < tau <= timestamp f + 35000)%Z).
  { rewrite Htau. unfold d in *. lia. }
  split; [exact Hwin|]. split; [|split; [reflexivity|]].
  - rewrite sweep_nth, Hi. simpl.
    assert (E : expired tau f = true) by (apply expired_spec; split; [auto|lia]).
    now rewrite E.
  - intros j Hj. rewrite sweep_nth, Hi. simpl.
    assert (E : expired (sweep_time mounted j) f = false).
    { destruct (expired (sweep_time mounted j) f) eqn:E; [|reflexivity].
      apply expired_spec in E. destruct E as [_ E].
      unfold sweep_time in E.
      assert (Z.of_nat j <= d / 5000)%Z by lia.
      unfold d in *. lia. }
    now rewrite E.
Qed.

(** C6 as written fails on its window: the run of the sweep at exactly
    t+30s finds the event 30000 ms old, which is not more than 30000, so no
    run inside [t+30s, t+35s) dismisses it; the run at exactly t+35s
    does. *)
Lemma low_priority_survives_half_open_window :
  priority topics_event = "low"
  /\ timestamp topics_event = 10000%Z
  /\ (forall k, (10000 + 30000 <= sweep_time 0 k < 10000 + 35000)%Z ->
        expired (sweep_time 0 k) topics_event = false)
  /\ (forall k, (sweep_time 0 k < 10000 + 35000)%Z ->
        feedbacks (sweep (sweep_time 0 k)
                     {| feedbacks := [topics_event]; activeFeedback := None |})
        = [topics_event])
  /\ sweep_time 0 8 = (10000 + 30000)%Z
  /\ sweep_time 0 9 = (10000 + 35000)%Z
  /\ feedbacks (sweep (sweep_time 0 9)
                  {| feedbacks := [topics_event]; activeFeedback := None |})
     = [set_dismissed topics_event].
Proof.
  assert (H : forall k, (sweep_time 0 k < 10000 + 35000)%Z ->
                        expired (sweep_time 0 k) topics_event = false).
  { intros k Hk. destruct (expired (sweep_time 0 k) topics_event) eqn:E;
      [|reflexivity].
    apply expired_spec in E. destruct E as [_ E].
    change (timestamp topics_event) with 10000%Z in E.
    unfold sweep_time in *. lia. }
  repeat split.
  - intros k Hk. apply H. lia.
  - intros k Hk. unfold sweep. cbn [feedbacks map]. now rewrite (H k Hk).
Qed.

End FeedbackEngine.

(** ** Vision failures and unparseable feedback (ScreenAnalysisOverlay) *)

Section VisionFailure.

Import ScreenAnalysisOverlay.

Lemma feedback_effect_visual (now : Z) (s : State) :
  visual (feedback_effect now s) = visual s.
Proof.
  unfold feedback_effect.
  now destruct (VisualAnalysis.getLatestAnalysis (visual s)).
Qed.

Lemma feedback_effect_engine (now : Z) (s : State) :
  engine (feedback_effect now s) = engine s.
Proof.
  unfold feedback_effect.
  now destruct (VisualAnalysis.getLatestAnalysis (visual s)).
Qed.

(** After a request has settled, the latest analysis is the one built from
    its outcome. *)
Lemma analysis_settled_latest (i : nat) (now : Z)
  (r : Inference VisualAnalysis.AnalysisData) (s : State)
  (shot : string) (from_interval : bool) :
  nth_error (requests s) i = Some (shot, from_interval) ->
  VisualAnalysis.getLatestAnalysis (visual (analysis_settled i now r s))
  = Some (VisualAnalysis.outcome_analysis now shot (Some (sessionType s)) r).
Proof.
  intros Hi. unfold analysis_settled. rewrite Hi.
  rewrite feedback_effect_visual. simpl.
  unfold VisualAnalysis.getLatestAnalysis. simpl.
  apply last_item_snoc.
Qed.

Lemma getLatestAnalysis_start (v : VisualAnalysis.State) :
  VisualAnalysis.getLatestAnalysis (VisualAnalysis.analyzeScreen_start v)
  = VisualAnalysis.getLatestAnalysis v.
Proof. reflexivity. Qed.

Lemma tick_visual_latest (now : Z) (s : State) :
  VisualAnalysis.getLatestAnalysis (visual (tick now s))
  = VisualAnalysis.getLatestAnalysis (visual s).
Proof.
  unfold tick. destruct (ScreenCapture.getLatestCapture (captureData s));
    [destruct (8000 <? now - lastAnalysisTime s)%Z|]; reflexivity.
Qed.

Lemma analyzeNow_visual_latest (s : State) :
  VisualAnalysis.getLatestAnalysis (visual (analyzeNow s))
  = VisualAnalysis.getLatestAnalysis (visual s).
Proof.
  unfold analyzeNow. destruct (VisualAnalysis.isAnalyzing (visual s));
    [reflexivity|].
  destruct (ScreenCapture.getLatestCapture (captureData s)); reflexivity.
Qed.

(** While vision calls keep failing, a low-urgency latest analysis stays. *)
Lemma latest_is_low_step (s : State) (e : Event) :
  vision_fails e -> latest_is_low s -> latest_is_low (step s e).
Proof.
  intros He [a [Ha Hu]]. destruct e as [now|now| |i now r|i now r]; simpl.
  - exists a. auto.
  - exists a. now rewrite tick_visual_latest.
  - exists a. now rewrite analyzeNow_visual_latest.
  - simpl in He. subst r.
    destruct (nth_error (requests s) i) as [[shot fi]|] eqn:Hi.
    + eexists. split; [apply (analysis_settled_latest _ _ _ _ _ _ Hi)|].
      reflexivity.
    + unfold analysis_settled. rewrite Hi. exists a. auto.
  - unfold feedback_settled.
    destruct (nth_error (feedbackCalls s) i); exists a; auto.
Qed.

Lemma latest_is_low_run (events : list Event) (s : State) :
  Forall vision_fails events -> latest_is_low s -> latest_is_low (run events s).
Proof.
  revert s. induction events as [|e rest IH]; intros s Hall Hs; [exact Hs|].
  inversion Hall; subst. simpl. apply IH; [assumption|].
  now apply latest_is_low_step.
Qed.

(** One run of the interval callback taken alone: at its first run
    (nothing analysed yet, a capture available) the vision request is
    issued; when it fails, the
    latest analysis is the placeholder built in the catch branch, whose
    urgency is low, and it stays a low-urgency analysis for as long as the
    vision calls keep failing.  A feedback response that does not parse
    makes [generateContextualFeedback] return [null] and leaves the engine
    (history and active slot) as it was: no event is emitted. *)
Theorem failed_vision_leaves_placeholder (s : State) (now settled : Z)
  (capture : ScreenCapture.ScreenCaptureData) :
  requests s = [] ->
  lastAnalysisTime s = 0%Z ->
  ScreenCapture.getLatestCapture (captureData s) = Some capture ->
  (8000 < now)%Z ->
  let s1 := analysis_settled 0 settled CallFailed (tick now s) in
  VisualAnalysis.getLatestAnalysis (visual s1)
  = Some (VisualAnalysis.fallbackAnalysis settled
            (ScreenCapture.screenshot capture) (Some (sessionType s)))
  /\ latest_is_low s1
  /\ (forall events, Forall vision_fails events -> latest_is_low (run events s1))
  /\ (forall t tr vc st dur text e,
         SmartFeedback.generateContextualFeedback t tr vc st dur
           (Unparseable text) e = (None, e))
  /\ (forall i t text s2,
         engine (feedback_settled i t (Unparseable text) s2) = engine s2
         /\ emitted (feedback_settled i t (Unparseable text) s2) = emitted s2).
Proof.
  intros Hreq Hlast Hcap Hnow s1.
  assert (Htick : tick now s = issue (ScreenCapture.screenshot capture) true s).
  { unfold tick. rewrite Hcap, Hlast.
    replace (8000 <? now - 0)%Z with true; [reflexivity|].
    symmetry. apply Z.ltb_lt. lia. }
  assert (Hnth : nth_error (requests (tick now s)) 0
                 = Some (ScreenCapture.screenshot capture, true)).
  { rewrite Htick. simpl. now rewrite Hreq. }
  assert (Hlatest : VisualAnalysis.getLatestAnalysis (visual s1)
                    = Some (VisualAnalysis.fallbackAnalysis settled
                              (ScreenCapture.screenshot capture)
                              (Some (sessionType s)))).
  { unfold s1. rewrite (analysis_settled_latest _ _ _ _ _ _ Hnth).
    rewrite Htick. reflexivity. }
  assert (Hlow : latest_is_low s1).
  { eexists. split; [exact Hlatest | reflexivity]. }
  split; [exact Hlatest|]. split; [exact Hlow|]. split; [|split].
  - intros events Hall. now apply latest_is_low_run.
  - reflexivity.
  - intros i t text s2. unfold emitted, feedback_settled.
    destruct (nth_error (feedbackCalls s2) i); simpl; auto.
Qed.

End VisionFailure.

(** ** Session statistics (useSessionManager) *)

Section SessionStats.

Import SessionManager.

Lemma fold_left_sum_shift {A : Type} (f : A -> Z) (rows : list A) (acc : Z) :
  fold_left (fun sum a => (sum + f a)%Z) rows acc
  = (acc + fold_left (fun sum a => (sum + f a)%Z) rows 0)%Z.
Proof.
  revert acc. induction rows as [|a rest IH]; intros acc; simpl; [lia|].
  rewrite IH, (IH (f a)). lia.
Qed.

Lemma sum_by_cons {A : Type} (f : A -> Z) (a : A) (rows : list A) :
  sum_by f (a :: rows) = (f a + sum_by f rows)%Z.
Proof.
  unfold sum_by. simpl. apply fold_left_sum_shift.
Qed.

(** A sum is at least [c] times the number of rows when each term is. *)
Lemma sum_by_lower {A : Type} (f : A -> Z) (c : Z) (rows : list A) :
  Forall (fun a => (c <= f a)%Z) rows ->
  (c * Z.of_nat (List.length rows) <= sum_by f rows)%Z.
Proof.
  induction 1 as [|a rest Ha _ IH].
  - unfold sum_by. simpl. lia.
  - rewrite sum_by_cons. simpl List.length. lia.
Qed.

Lemma sum_by_zero {A : Type} (f : A -> Z) (rows : list A) :
  Forall (fun a => f a = 0%Z) rows -> sum_by f rows = 0%Z.
Proof.
  induction 1 as [|a rest Ha _ IH]; [reflexivity|].
  rewrite sum_by_cons. lia.
Qed.

(** [field || 1] is at least one on a count. *)
Lemma count_or_one (field : option Z) :
  (0 <= count_or field 0)%Z -> (1 <= count_or field 1)%Z.
Proof.
  unfold count_or. destruct field as [n|]; [|lia].
  destruct (n =? 0)%Z eqn:E; [lia|]. apply Z.eqb_neq in E. lia.
Qed.

Lemma div_by_positive (x y : Q) :
  (0 < y)%Q -> Num.div (Num.Finite x) (Num.Finite y) = Num.Finite (x / y).
Proof.
  intros Hy. unfold Num.div, Num.sign.
  apply Qgt_alt in Hy. now rewrite Hy.
Qed.

Lemma inject_Z_pos (z : Z) : (0 < z)%Z -> (0 < inject_Z z)%Q.
Proof.
  intros H. change 0%Q with (inject_Z 0). now rewrite <- Zlt_Qlt.
Qed.

Lemma inject_Z_nonneg (z : Z) : (0 <= z)%Z -> (0 <= inject_Z z)%Q.
Proof.
  intros H. change 0%Q with (inject_Z 0). now rewrite <- Zle_Qle.
Qed.

Lemma quotient_nonneg (x y : Q) : (0 <= x)%Q -> (0 < y)%Q -> (0 <= x / y)%Q.
Proof.
  intros Hx Hy. apply Qle_shift_div_l; [assumption|].
  now rewrite Qmult_0_l.
Qed.

(** [Math.round] of a non-negative number is a non-negative integer. *)
Lemma round_nonneg (x : Q) :
  (0 <= x)%Q -> (0 <= inject_Z (Qfloor (x + (1 # 2))))%Q.
Proof.
  intros Hx. apply inject_Z_nonneg.
  change 0%Z with (Qfloor 0). apply Qfloor_resp_le.
  apply Qle_trans with (y := x); [assumption|].
  rewrite <- (Qplus_0_r x) at 1. apply Qplus_le_r. discriminate.
Qed.

Lemma round_zero (x : Q) :
  (x == 0)%Q -> (inject_Z (Qfloor (x + (1 # 2))) == 0)%Q.
Proof.
  intros Hx. rewrite Hx. reflexivity.
Qed.

(** The two statistics over a non-empty list of records, before the final
    rounding. *)
Lemma stats_of_records (sessions : list Store.SessionRow)
  (analytics : list Store.AnalyticsRow) :
  analytics <> [] ->
  Forall counts_ok analytics ->
  let total := sum_by (fun a => count_or (Store.totalSuggestions a) 0) analytics in
  let used := sum_by (fun a => count_or (Store.suggestionsUsed a) 0) analytics in
  let floor1 := sum_by (fun a => count_or (Store.totalSuggestions a) 1) analytics in
  let n := Z.of_nat (List.length analytics) in
  (0 <= total)%Z /\ (0 <= used)%Z /\ (0 < floor1)%Z /\ (0 < n)%Z
  /\ avgSuggestions (getSessionStats (Some (sessions, analytics)))
     = Num.Finite
         (inject_Z (Qfloor (inject_Z total / inject_Z n * inject_Z 10 + (1 # 2)))
          / inject_Z 10)
  /\ successRate (getSessionStats (Some (sessions, analytics)))
     = Num.Finite
         (inject_Z (Qfloor (inject_Z used / inject_Z floor1 * inject_Z 100
                            + (1 # 2)))).
Proof.
  intros Hne Hok total used floor1 n.
  assert (Hn : (0 < n)%Z).
  { unfold n. destruct analytics; [congruence | simpl; lia]. }
  assert (Htotal : (0 <= total)%Z).
  { pose proof (sum_by_lower (fun a => count_or (Store.totalSuggestions a) 0)
                  0 analytics) as H.
    unfold total. rewrite Z.mul_0_l in H. apply H.
    eapply Forall_impl; [|exact Hok]. intros a [_ Ha]. exact Ha. }
  assert (Hused : (0 <= used)%Z).
  { pose proof (sum_by_lower (fun a => count_or (Store.suggestionsUsed a) 0)
                  0 analytics) as H.
    unfold used. rewrite Z.mul_0_l in H. apply H.
    eapply Forall_impl; [|exact Hok]. intros a [Ha _]. exact Ha. }
  assert (Hfloor : (0 < floor1)%Z).
  { pose proof (sum_by_lower (fun a => count_or (Store.totalSuggestions a) 1)
                  1 analytics) as H.
    unfold floor1. fold n in H.
    assert (1 * n <= sum_by (fun a => count_or (Store.totalSuggestions a) 1)
                       analytics)%Z; [|lia].
    apply H. eapply Forall_impl; [|exact Hok].
    intros a [_ Ha]. now apply count_or_one. }
  repeat (split; [assumption|]).
  assert (Hlen : (0 <? List.length analytics) = true).
  { apply Nat.ltb_lt. destruct analytics; [congruence | simpl; lia]. }
  unfold getSessionStats. rewrite Hlen. cbn [avgSuggestions successRate].
  fold total used floor1 n. unfold Num.of_Z.
  rewrite (div_by_positive _ _ (inject_Z_pos _ Hn)).
  rewrite (div_by_positive _ _ (inject_Z_pos _ Hfloor)).
  cbn [Num.mul Num.round].
  rewrite (div_by_positive _ (inject_Z 10)) by reflexivity.
  split; reflexivity.
Qed.

(** C8: whatever the store returns (or when it fails), [avgSuggestions]
    and [successRate] are finite numbers that are at least zero, the stored
    counters being counts; and both are zero when no suggestion has been
    recorded, in particular when there is no analytics record. *)
Theorem session_stats_finite_nonneg
  (listed : option (list Store.SessionRow * list Store.AnalyticsRow)) :
  counts_nonneg listed ->
  Num.finite_nonneg (avgSuggestions (getSessionStats listed))
  /\ Num.finite_nonneg (successRate (getSessionStats listed))
  /\ (no_suggestions listed ->
      Num.is_zero (avgSuggestions (getSessionStats listed))
      /\ Num.is_zero (successRate (getSessionStats listed))).
Proof.
  intros Hok. destruct listed as [[sessions analytics]|].
  - destruct analytics as [|a rest].
    + simpl. repeat split;
        try (eexists; split; [reflexivity | discriminate]);
        eexists; split; reflexivity.
    + simpl in Hok.
      destruct (stats_of_records sessions (a :: rest) ltac:(discriminate) Hok)
        as (Htotal & Hused & Hfloor & Hn & Havg & Hrate).
      rewrite Havg, Hrate. split; [|split].
      * eexists. split; [reflexivity|].
        apply quotient_nonneg; [|reflexivity].
        apply round_nonneg. apply Qmult_le_0_compat; [|discriminate].
        apply quotient_nonneg; [now apply inject_Z_nonneg|now apply inject_Z_pos].
      * eexists. split; [reflexivity|].
        apply round_nonneg. apply Qmult_le_0_compat; [|discriminate].
        apply quotient_nonneg; [now apply inject_Z_nonneg|now apply inject_Z_pos].
      * intros Hzero. simpl in Hzero.
        assert (Hu : sum_by (fun a => count_or (Store.suggestionsUsed a) 0)
                       (a :: rest) = 0%Z).
        { apply sum_by_zero. eapply Forall_impl; [|exact Hzero].
          intros x [Hx _]. exact Hx. }
        assert (Ht : sum_by (fun a => count_or (Store.totalSuggestions a) 0)
                       (a :: rest) = 0%Z).
        { apply sum_by_zero. eapply Forall_impl; [|exact Hzero].
          intros x [_ Hx]. exact Hx. }
        rewrite Hu, Ht. split; eexists; (split; [reflexivity|]).
        -- assert (E : (inject_Z 0 / inject_Z (Z.of_nat (List.length (a :: rest)))
                        * inject_Z 10 == 0)%Q).
           { unfold Qdiv. now rewrite !Qmult_0_l. }
           rewrite (round_zero _ E). reflexivity.
        -- assert (E : (inject_Z 0
                        / inject_Z (sum_by
                                      (fun a => count_or (Store.totalSuggestions a) 1)
                                      (a :: rest))
                        * inject_Z 100 == 0)%Q).
           { unfold Qdiv. now rewrite !Qmult_0_l. }
           rewrite (round_zero _ E). reflexivity.
  - simpl. repeat split;
      try (eexists; split; [reflexivity | discriminate]);
      eexists; split; reflexivity.
Qed.

(** Two records, one with two of four suggestions used and one without
    suggestions: the average is 2 and the success rate 40, the empty
    record counting as one suggestion in the denominator. *)
Example session_stats_sample :
  let stats := getSessionStats
                 (Some ([], [counted (Some 2%Z) (Some 4%Z);
                             counted (Some 0%Z) (Some 0%Z)])) in
  avgSuggestions stats = Num.Finite (inject_Z 20 / inject_Z 10)
  /\ successRate stats = Num.Finite (inject_Z 40).
Proof.
  split; reflexivity.
Qed.

End SessionStats.

(** ** Recent suggestions (useAICoaching) *)

Section RecentSuggestions.

Import AICoaching.










(** A call made for one suggestion leaves the stored list reversed. *)
Example recent_suggestions_reorders_store :
  getRecentSuggestions 1
    {| suggestions := [older; newer]; isGenerating := true |}
  = ([newer], {| suggestions := [newer; older]; isGenerating := true |}).
Proof. reflexivity. Qed.

End RecentSuggestions.

(** ** Requests in flight (EnhancedOverlayWindow, ScreenAnalysisOverlay) *)

Section InFlight.


(** A run of the suggestion effect that passes its tests issues a request
    whatever is pending. *)
Lemma suggestion_effect_issues (s : EnhancedOverlayWindow.Scheduler) :
  EnhancedOverlayWindow.wants_suggestion (EnhancedOverlayWindow.transcript s)
  = true ->
  AICoaching.is_blank (EnhancedOverlayWindow.transcript s) = false ->
  EnhancedOverlayWindow.requests (EnhancedOverlayWindow.suggestion_effect s)
  = EnhancedOverlayWindow.requests s ++ [EnhancedOverlayWindow.transcript s]
  /\ AICoaching.isGenerating
       (EnhancedOverlayWindow.coaching
          (EnhancedOverlayWindow.suggestion_effect s)) = true.
Proof.
  intros Hw Hb. unfold EnhancedOverlayWindow.suggestion_effect.
  rewrite Hw. unfold AICoaching.generateSuggestion_start. rewrite Hb.
  split; reflexivity.
Qed.



End InFlight.

(** ** The word-count trigger (EnhancedOverlayWindow) *)

Section WordTrigger.

Import EnhancedOverlayWindow.

Lemma solid_no_space (c : ascii) :
  AICoaching.is_space c = false -> Ascii.eqb c " "%char = false.
Proof.
  intros H. destruct (Ascii.eqb c " "%char) eqn:E; [|reflexivity].
  apply Ascii.eqb_eq in E. subst c. discriminate.
Qed.

(** Splitting runs through a word without cutting it. *)
Lemma split_space_aux_solid (w cur rest : string) :
  solid w = true ->
  JS.split_space_aux cur (w +^ rest) = JS.split_space_aux (cur +^ w) rest.
Proof.
  revert cur. induction w as [|c w IH]; intros cur Hw.
  - simpl. now rewrite append_empty_r.
  - simpl in Hw. apply andb_true_iff in Hw. destruct Hw as [Hc Hw].
    apply negb_true_iff in Hc. cbn [String.append JS.split_space_aux].
    rewrite (solid_no_space _ Hc), (IH _ Hw), append_assoc. reflexivity.
Qed.

Lemma split_space_aux_join (cur w : string) (l : list string) :
  Forall (fun x => solid x = true) (w :: l) ->
  JS.split_space_aux cur (String.concat " " (w :: l)) = (cur +^ w) :: l.
Proof.
  revert cur w. induction l as [|x rest IH]; intros cur w Hall.
  - inversion Hall; subst. cbn [String.concat].
    rewrite <- (append_empty_r w) at 1.
    now rewrite split_space_aux_solid.
  - inversion Hall as [|? ? Hw Hrest]; subst.
    change (String.concat " " (w :: x :: rest))
      with (w +^ " " +^ String.concat " " (x :: rest)).
    rewrite (split_space_aux_solid _ _ _ Hw).
    cbn [String.append JS.split_space_aux Ascii.eqb Bool.eqb].
    now rewrite (IH EmptyString x Hrest).
Qed.

(** Words joined by single spaces split back into the same words. *)
Lemma split_space_join (l : list string) :
  l <> [] -> Forall (fun x => solid x = true) l ->
  JS.split_space (String.concat " " l) = l.
Proof.
  intros Hne Hall. destruct l as [|w rest]; [congruence|].
  unfold JS.split_space. now rewrite split_space_aux_join.
Qed.

Lemma length_join_cons (w : string) (l : list string) :
  String.length (String.concat " " (w :: l))
  = String.length w
    + match l with [] => 0 | _ => 1 + String.length (String.concat " " l) end.
Proof.
  destruct l as [|x rest].
  - simpl. lia.
  - change (String.concat " " (w :: x :: rest))
      with (w +^ " " +^ String.concat " " (x :: rest)).
    now rewrite !length_append.
Qed.

(** A longer prefix of the words makes a transcript at least as long. *)
Lemma length_join_firstn (l : list string) (n m : nat) :
  n <= m ->
  String.length (String.concat " " (firstn n l))
  <= String.length (String.concat " " (firstn m l)).
Proof.
  revert n m. induction l as [|w rest IH]; intros n m Hnm.
  - rewrite !firstn_nil. lia.
  - destruct n as [|n]; [simpl; lia|].
    destruct m as [|m]; [lia|].
    rewrite !firstn_cons, !length_join_cons.
    specialize (IH n m ltac:(lia)).
    destruct (firstn n rest) as [|a ra] eqn:En; [lia|].
    destruct (firstn m rest) as [|b rb] eqn:Em; [|lia].
    exfalso. assert (H : List.length (firstn n rest) <= List.length (firstn m rest)).
    { rewrite !length_firstn. lia. }
    rewrite En, Em in H. simpl in H. lia.
Qed.

Lemma is_word_solid (ws : list string) :
  Forall (fun w => is_word w = true) ws ->
  Forall (fun w => solid w = true) ws.
Proof.
  apply Forall_impl. intros w H. unfold is_word in H.
  apply andb_true_iff in H. tauto.
Qed.

Lemma join_not_blank (w : string) (l : list string) :
  is_word w = true -> AICoaching.is_blank (String.concat " " (w :: l)) = false.
Proof.
  unfold is_word. intros H. apply andb_true_iff in H. destruct H as [Ht Hs].
  destruct w as [|c w]; [discriminate|].
  simpl in Hs. apply andb_true_iff in Hs. destruct Hs as [Hc _].
  apply negb_true_iff in Hc.
  destruct l; cbn [String.concat String.append AICoaching.is_blank];
    now rewrite Hc.
Qed.

Lemma suggestion_effect_transcript (s : Scheduler) :
  transcript (suggestion_effect s) = transcript s.
Proof.
  unfold suggestion_effect. destruct (wants_suggestion (transcript s));
    [|reflexivity].
  now destruct (AICoaching.generateSuggestion_start (transcript s) (coaching s)).
Qed.

(** The effect at a changed transcript: a request is added exactly when the
    transcript passes the test. *)
Lemma step_transcript_requests (s : Scheduler) (t : string) :
  t <> transcript s ->
  (wants_suggestion t = true -> AICoaching.is_blank t = false) ->
  requests (step s (TranscriptChanged t))
  = requests s ++ (if wants_suggestion t then [t] else [])
  /\ transcript (step s (TranscriptChanged t)) = t.
Proof.
  intros Hne Hb. cbn [step]. apply String.eqb_neq in Hne. rewrite Hne.
  split; [|now rewrite suggestion_effect_transcript].
  destruct (wants_suggestion t) eqn:Hw.
  - match goal with
    | |- context [suggestion_effect ?x] =>
        destruct (suggestion_effect_issues x Hw (Hb eq_refl)) as [Hreq _]
    end.
    exact Hreq.
  - unfold suggestion_effect. cbn [transcript]. rewrite Hw.
    cbn [requests]. now rewrite app_nil_r.
Qed.

(** Over a run of transcript changes the requests issued are the
    transcripts that pass the test, in order. *)
Lemma run_transcripts_requests (ts : list string) (s : Scheduler) :
  changes (transcript s) ts ->
  Forall (fun t => wants_suggestion t = true -> AICoaching.is_blank t = false)
    ts ->
  requests (run (map TranscriptChanged ts) s)
  = requests s ++ filter wants_suggestion ts.
Proof.
  revert s. induction ts as [|t rest IH]; intros s Hch Hall.
  - simpl. now rewrite app_nil_r.
  - destruct Hch as [Hne Hch]. inversion Hall as [|? ? Ht Hrest]; subst.
    destruct (step_transcript_requests s t Hne Ht) as [Hreq Htr].
    cbn [map]. change (run (TranscriptChanged t :: map TranscriptChanged rest) s)
      with (run (map TranscriptChanged rest) (step s (TranscriptChanged t))).
    rewrite IH; [|now rewrite Htr|assumption].
    rewrite Hreq. cbn [filter].
    destruct (wants_suggestion t); now rewrite <- app_assoc.
Qed.

Section Growth.

Variable ws : list string.
Hypothesis ws_length : List.length ws = 150.
Hypothesis ws_words : Forall (fun w => is_word w = true) ws.

Lemma grown_pieces (k : nat) :
  1 <= k <= 15 -> JS.split_space (grown ws k) = firstn (10 * k) ws.
Proof.
  intros Hk. unfold grown. apply split_space_join.
  - intros E. apply (f_equal (@List.length string)) in E.
    rewrite length_firstn, ws_length in E. simpl in E. lia.
  - apply is_word_solid. rewrite <- (firstn_skipn (10 * k) ws) in ws_words.
    apply Forall_app in ws_words. tauto.
Qed.

Lemma grown_piece_count (k : nat) :
  1 <= k <= 15 -> List.length (JS.split_space (grown ws k)) = 10 * k.
Proof.
  intros Hk. rewrite (grown_pieces k Hk), length_firstn, ws_length. lia.
Qed.

Lemma grown_not_blank (k : nat) :
  1 <= k <= 15 -> AICoaching.is_blank (grown ws k) = false.
Proof.
  intros Hk. unfold grown.
  destruct ws as [|w rest] eqn:E; [simpl in ws_length; lia|].
  replace (10 * k) with (S (10 * k - 1)) by lia. rewrite firstn_cons.
  apply join_not_blank. now inversion ws_words.
Qed.

Lemma grown_changes (k : nat) :
  1 <= k <= 15 -> grown ws k <> grown ws (k - 1).
Proof.
  intros Hk E. apply (f_equal (fun t => List.length (JS.split_space t))) in E.
  rewrite (grown_piece_count k Hk) in E.
  destruct (Nat.eq_dec k 1) as [->|Hk1].
  - simpl in E. discriminate.
  - rewrite (grown_piece_count (k - 1)) in E by lia. lia.
Qed.

(** The test at the transcript of [10 * k] words: the piece count is a
    multiple of 50 at every fifth increment, and the transcript is long
    enough there when the 50-word transcript is. *)
Lemma wants_suggestion_grown (k : nat) :
  100 < String.length (grown ws 5) ->
  1 <= k <= 15 ->
  wants_suggestion (grown ws k) = (k mod 5 =? 0).
Proof.
  intros Hlong Hk. unfold wants_suggestion.
  rewrite (grown_piece_count k Hk).
  replace ((10 * k) mod 50) with (k mod 5 * 10).
  2:{ replace (10 * k) with (k * 10) by lia.
      symmetry. exact (Nat.Div0.mul_mod_distr_r k 5 10). }
  destruct (k mod 5 =? 0) eqn:E.
  - apply Nat.eqb_eq in E. rewrite E. simpl (0 * 10 =? 0).
    rewrite andb_true_r.
    assert (H5 : 5 <= k).
    { destruct (Nat.le_gt_cases 5 k) as [H|H]; [exact H|].
      rewrite Nat.mod_small in E by lia. lia. }
    assert (Hlen : String.length (grown ws 5) <= String.length (grown ws k)).
    { unfold grown. apply length_join_firstn. lia. }
    assert (Hk100 : 100 < String.length (grown ws k)) by lia.
    assert (Ht : JS.truthy (grown ws k) = true).
    { destruct (grown ws k); [simpl in Hk100; lia | reflexivity]. }
    apply Nat.ltb_lt in Hk100. now rewrite Ht, Hk100.
  - apply Nat.eqb_neq in E.
    replace (k mod 5 * 10 =? 0) with false; [now rewrite andb_false_r|].
    symmetry. apply Nat.eqb_neq. lia.
Qed.

Lemma changes_grown (n a : nat) :
  1 <= a -> a + n <= 16 ->
  changes (grown ws (a - 1)) (map (grown ws) (seq a n)).
Proof.
  revert a. induction n as [|n IH]; intros a Ha Han; [exact I|].
  cbn [seq map changes]. split.
  - apply grown_changes. lia.
  - replace a with (S a - 1) at 1 by lia. apply IH; lia.
Qed.

(** The fifteen increments issue three requests: at 50, 100 and 150
    words. *)
Lemma growth_requests :
  100 < String.length (grown ws 5) ->
  requests (run (growth ws) scheduler0)
  = [grown ws 5; grown ws 10; grown ws 15].
Proof.
  intros Hlong. unfold growth.
  rewrite <- (map_map (grown ws) TranscriptChanged).
  rewrite run_transcripts_requests.
  - cbn [requests scheduler0 app].
    assert (E : filter wants_suggestion (map (grown ws) (seq 1 15))
                = map (grown ws) (filter (fun k => k mod 5 =? 0) (seq 1 15))).
    { generalize (fun k (H : In k (seq 1 15)) =>
                    wants_suggestion_grown k Hlong
                      (ltac:(apply in_seq in H; lia) : 1 <= k <= 15)).
      generalize (seq 1 15). intros l Hl.
      induction l as [|k rest IH]; [reflexivity|].
      cbn [map filter]. rewrite (Hl k (or_introl eq_refl)).
      rewrite IH by (intros j Hj; apply Hl; now right).
      now destruct (k mod 5 =? 0). }
    rewrite E. reflexivity.
  - change (transcript scheduler0) with (grown ws (1 - 1)).
    apply changes_grown; lia.
  - apply Forall_forall. intros t Ht _.
    apply in_map_iff in Ht. destruct Ht as [k [<- Hk]].
    apply in_seq in Hk. apply grown_not_blank. lia.
Qed.

End Growth.

(** The effect taken alone, on a transcript that has no leading space:
    when such a transcript of single-spaced words grows from 0 to 150
    words in 10-word increments, and the 50-word transcript is longer than
    100 characters, the effect asks for suggestions exactly three times,
    at the transcripts of 50, 100 and 150 words, and at no increment in
    between. *)
Theorem suggestions_fire_at_50_100_150 (ws : list string) :
  List.length ws = 150 ->
  Forall (fun w => is_word w = true) ws ->
  100 < String.length (grown ws 5) ->
  requests (run (growth ws) scheduler0)
  = [grown ws 5; grown ws 10; grown ws 15]
  /\ in_flight (run (growth ws) scheduler0) = 3.
Proof.
  intros Hlen Hwords Hlong.
  pose proof (growth_requests ws Hlen Hwords Hlong) as H.
  split; [exact H|]. unfold in_flight. now rewrite H.
Qed.

(** The effect's length test: with one-letter words the 50-word
    transcript without a leading space has 99 characters, the test rejects
    it, and only the transcripts of 100 and 150 words pass. *)
Lemma short_words_miss_the_50_word_crossing :
  List.length (repeat "a" 150) = 150
  /\ Forall (fun w => is_word w = true) (repeat "a" 150)
  /\ String.length (grown (repeat "a" 150) 5) = 99
  /\ wants_suggestion (grown (repeat "a" 150) 5) = false
  /\ requests (run (growth (repeat "a" 150)) scheduler0)
     = [grown (repeat "a" 150) 10; grown (repeat "a" 150) 15]
  /\ in_flight (run (growth (repeat "a" 150)) scheduler0) = 2.
Proof.
  split; [reflexivity|]. split.
  - apply Forall_forall. intros w Hw. apply repeat_spec in Hw. now subst w.
  - repeat split; vm_compute; reflexivity.
Qed.

(** The transcript that the audio hook assembles starts with a space, so
    the split yields one empty piece more than there are words: fed with
    fifteen results of ten words each, the effect never finds a multiple of
    50 and asks for nothing. *)
Example assembled_transcript_never_fires :
  List.length (JS.split_space (heard (repeat "hello" 150) 5)) = 51
  /\ requests (run (hearing (repeat "hello" 150)) scheduler0) = [].
Proof.
  split; vm_compute; reflexivity.
Qed.

End WordTrigger.

(** ** Stopping a session (useSessionManager, EnhancedOverlayWindow) *)

Section SessionStop.

Import EnhancedOverlayWindow.

Lemma find_session_closed (sessionId : string) (now dur : Z) (d : Store.DB) :
  Store.find_session sessionId (Store.update_session_end sessionId now dur d)
  = option_map (Store.close_row now dur) (Store.find_session sessionId d).
Proof.
  unfold Store.find_session, Store.update_session_end.
  cbn [Store.sessions]. induction (Store.sessions d) as [|row rest IH];
    [reflexivity|].
  cbn [map find]. destruct (String.eqb (Store.id row) sessionId) eqn:E.
  - cbn [Store.close_row Store.id]. now rewrite E.
  - now rewrite E.
Qed.







End SessionStop.

(** ** The theorems at concrete inputs *)

Section Witnesses.



Lemma suggestions_fire_at_50_100_150_witness :
  List.length (repeat "hello" 150) = 150
  /\ Forall (fun w => is_word w = true) (repeat "hello" 150)
  /\ 100 < String.length (grown (repeat "hello" 150) 5)
  /\ EnhancedOverlayWindow.requests
       (EnhancedOverlayWindow.run (growth (repeat "hello" 150))
          EnhancedOverlayWindow.scheduler0)
     = [grown (repeat "hello" 150) 5; grown (repeat "hello" 150) 10;
        grown (repeat "hello" 150) 15]
  /\ EnhancedOverlayWindow.in_flight
       (EnhancedOverlayWindow.run (growth (repeat "hello" 150))
          EnhancedOverlayWindow.scheduler0) = 3.
Proof.
  assert (H1 : List.length (repeat "hello" 150) = 150) by reflexivity.
  assert (H2 : Forall (fun w => is_word w = true) (repeat "hello" 150)).
  { apply Forall_forall. intros w Hw. apply repeat_spec in Hw. now subst w. }
  assert (H3 : 100 < String.length (grown (repeat "hello" 150) 5)).
  { apply Nat.ltb_lt. vm_compute. reflexivity. }
  destruct (suggestions_fire_at_50_100_150 (repeat "hello" 150) H1 H2 H3)
    as [C1 C2].
  exact (conj H1 (conj H2 (conj H3 (conj C1 C2)))).
Defined.

Lemma feedback_active_slot_witness :
  let f := SmartFeedback.build 5000 "slides" "sales_call" 90 "{}"
             {| SmartFeedback.d_type := Some "warning";
                SmartFeedback.d_priority := Some "urgent";
                SmartFeedback.d_title := Some "Budget";
                SmartFeedback.d_message := Some "Address the budget concern.";
                SmartFeedback.d_actionable := Some true;
                SmartFeedback.d_suggestions := None |} in
  let s1 := {| SmartFeedback.feedbacks := [f];
               SmartFeedback.activeFeedback := Some f |} in
  SmartFeedback.generateContextualFeedback 5000 "so the budget" "slides"
    "sales_call" 90 urgent_response SmartFeedback.initial = (Some f, s1)
  /\ (SmartFeedback.priority f = "high" \/ SmartFeedback.priority f = "urgent")
  /\ SmartFeedback.activeFeedback s1 = Some f
  /\ nth_error (SmartFeedback.feedbacks s1) 0 = Some f
  /\ SmartFeedback.id f = "feedback_5000"
  /\ SmartFeedback.activeFeedback
       (SmartFeedback.dismissFeedback "feedback_5000" s1) = None
  /\ (exists f',
        nth_error (SmartFeedback.feedbacks
                     (SmartFeedback.dismissFeedback "feedback_5000" s1)) 0
        = Some f'
        /\ f' = SmartFeedback.set_dismissed f
        /\ SmartFeedback.dismissed f' = Some true).
Proof.
  intros f s1.
  assert (H1 : SmartFeedback.generateContextualFeedback 5000 "so the budget"
                 "slides" "sales_call" 90 urgent_response SmartFeedback.initial
               = (Some f, s1)) by reflexivity.
  assert (H2 : SmartFeedback.priority f = "high"
               \/ SmartFeedback.priority f = "urgent") by (right; reflexivity).
  assert (H3 : nth_error (SmartFeedback.feedbacks s1) 0 = Some f)
    by reflexivity.
  assert (H4 : SmartFeedback.id f = "feedback_5000") by reflexivity.
  assert (H5 : SmartFeedback.activeFeedback s1 = Some f) by reflexivity.
  destruct (feedback_active_slot SmartFeedback.initial)
    as (_ & Create & _ & _).
  destruct (Create 5000%Z "so the budget" "slides" "sales_call" 90%Z
              urgent_response f s1 H1) as (_ & Slot & _).
  destruct (feedback_active_slot s1) as (_ & _ & _ & Dismiss).
  destruct (Dismiss "feedback_5000") as (Marked & _ & Cleared & _).
  exact (conj H1 (conj H2 (conj (Slot H2) (conj H3 (conj H4
           (conj (Cleared f H5 H4) (Marked 0 f H3 H4))))))).
Defined.

Lemma low_priority_swept_after_30s_witness :
  let s := {| SmartFeedback.feedbacks := [topics_event];
              SmartFeedback.activeFeedback := None |} in
  SmartFeedback.priority topics_event = "low"
  /\ (0 <= SmartFeedback.timestamp topics_event)%Z
  /\ nth_error (SmartFeedback.feedbacks s) 0 = Some topics_event
  /\ SmartFeedback.sweep_time 0 (first_sweep_after 0 10000) = 45000%Z
  /\ nth_error
       (SmartFeedback.feedbacks
          (SmartFeedback.sweep
             (SmartFeedback.sweep_time 0 (first_sweep_after 0 10000)) s)) 0
     = Some (SmartFeedback.set_dismissed topics_event).
Proof.
  intros s.
  assert (H1 : SmartFeedback.priority topics_event = "low") by reflexivity.
  assert (H2 : (0 <= SmartFeedback.timestamp topics_event)%Z)
    by (simpl; lia).
  assert (H3 : nth_error (SmartFeedback.feedbacks s) 0 = Some topics_event)
    by reflexivity.
  destruct (low_priority_swept_after_30s 0 topics_event s 0 H1 H2 H3)
    as (_ & Swept & _).
  exact (conj H1 (conj H2 (conj H3 (conj eq_refl Swept)))).
Defined.

Lemma failed_vision_leaves_placeholder_witness :
  let s := ScreenAnalysisOverlay.captured 3000
             (ScreenAnalysisOverlay.initial "interview") in
  let s1 := ScreenAnalysisOverlay.analysis_settled 0 10400 CallFailed
              (ScreenAnalysisOverlay.tick 10000 s) in
  ScreenAnalysisOverlay.requests s = []
  /\ ScreenAnalysisOverlay.lastAnalysisTime s = 0%Z
  /\ ScreenCapture.getLatestCapture (ScreenAnalysisOverlay.captureData s)
     = Some (ScreenCapture.frame 3000)
  /\ (8000 < 10000)%Z
  /\ VisualAnalysis.getLatestAnalysis (ScreenAnalysisOverlay.visual s1)
     = Some (VisualAnalysis.fallbackAnalysis 10400
               (ScreenCapture.screenshot (ScreenCapture.frame 3000))
               (Some "interview"))
  /\ latest_is_low s1.
Proof.
  intros s s1.
  assert (H1 : ScreenAnalysisOverlay.requests s = []) by reflexivity.
  assert (H2 : ScreenAnalysisOverlay.lastAnalysisTime s = 0%Z) by reflexivity.
  assert (H3 : ScreenCapture.getLatestCapture
                 (ScreenAnalysisOverlay.captureData s)
               = Some (ScreenCapture.frame 3000)) by reflexivity.
  assert (H4 : (8000 < 10000)%Z) by lia.
  destruct (failed_vision_leaves_placeholder s 10000 10400
              (ScreenCapture.frame 3000) H1 H2 H3 H4) as (Latest & Low & _).
  exact (conj H1 (conj H2 (conj H3 (conj H4 (conj Latest Low))))).
Defined.

Lemma session_stats_finite_nonneg_witness :
  let listed := Some ([] : list Store.SessionRow,
                      [counted (Some 0%Z) (Some 0%Z); counted None None]) in
  counts_nonneg listed
  /\ no_suggestions listed
  /\ Num.finite_nonneg
       (SessionManager.avgSuggestions (SessionManager.getSessionStats listed))
  /\ Num.finite_nonneg
       (SessionManager.successRate (SessionManager.getSessionStats listed))
  /\ Num.is_zero
       (SessionManager.avgSuggestions (SessionManager.getSessionStats listed))
  /\ Num.is_zero
       (SessionManager.successRate (SessionManager.getSessionStats listed)).
Proof.
  intros listed.
  assert (H1 : counts_nonneg listed).
  { repeat constructor; simpl; lia. }
  assert (H2 : no_suggestions listed).
  { repeat constructor. }
  destruct (session_stats_finite_nonneg listed H1) as (Avg & Rate & Zero).
  exact (conj H1 (conj H2 (conj Avg (conj Rate (Zero H2))))).
Defined.


End Witnesses.

(** * Further properties of the hooks *)

(** ** useAudioCapture: a failed transcription *)

Section TranscriptionErrors.

Import AudioCapture Recording.

Lemma run_app (xs ys : list Event) (s : State) :
  run (xs ++ ys) s = run ys (run xs s).
Proof.
  unfold run. apply fold_left_app.
Qed.

Lemma successes_keep_error (texts : list string) (s : State) :
  error (run (successes texts) s) = error s.
Proof.
  revert s. induction texts as [|t rest IH]; intros s; [reflexivity|].
  change (run (successes (t :: rest)) s)
    with (run (successes rest) (transcribeAudio (Resolved t) s)).
  now rewrite IH.
Qed.

(** Only successful transcriptions write the transcript. *)
Lemma run_transcription (events : list Event) (s : State) :
  transcription (run events s)
  = transcription s +^ concatenation (map fragment (resolved events)).
Proof.
  revert s. induction events as [|e rest IH]; intros s.
  - simpl. now rewrite append_empty_r.
  - change (run (e :: rest) s) with (run rest (step s e)).
    rewrite IH. destruct e as [failure|[text|message]]; simpl;
      try reflexivity.
    now rewrite !append_assoc.
Qed.

(** X1: the error of a rejected transcription is cleared by the next
    [startRecording] and by nothing else.  Successful transcriptions that
    settle after the rejection (of recordings made before it) leave the
    message in place; a [startRecording] after it resets the error to
    null when the microphone is granted, whatever settles afterwards
    successfully.  Neither a rejection nor [startRecording] touches the
    transcript: it holds the texts of the successful transcriptions, in
    the order of their settling. *)
Theorem transcription_error_lasts_until_next_recording
  (before : list Event) (message : string) (texts later : list string)
  (s : State) :
  let rejected := before ++ Settled (Rejected message) :: successes texts in
  error (run rejected s) = Some ("Transcription failed: " +^ message)
  /\ error (run (rejected ++ Started None :: successes later) s) = None
  /\ transcription (run (rejected ++ Started None :: successes later) s)
     = transcription (run (before ++ successes texts ++ successes later) s).
Proof.
  intros rejected. unfold rejected. split; [|split].
  - rewrite run_app.
    change (run (Settled (Rejected message) :: successes texts)
              (run before s))
      with (run (successes texts)
              (transcribeAudio (Rejected message) (run before s))).
    now rewrite successes_keep_error.
  - rewrite run_app.
    match goal with
    | |- error (run (Started None :: successes later) ?st) = None =>
        change (run (Started None :: successes later) st)
          with (run (successes later) (startRecording None st))
    end.
    now rewrite successes_keep_error.
  - rewrite !run_transcription. f_equal. f_equal.
    unfold resolved. rewrite !flat_map_app. cbn [flat_map app].
    now rewrite <- app_assoc.
Qed.

End TranscriptionErrors.

(** ** useScreenCapture: what the buffer holds *)

Section CaptureBuffer.

Import ScreenCapture.

Lemma slice_last_snoc {A : Type} (n : nat) (l : list A) (x : A) :
  JS.slice_last (S n) (l ++ [x]) = JS.slice_last n l ++ [x].
Proof.
  unfold JS.slice_last. rewrite length_app. simpl List.length.
  replace (List.length l + 1 - S n) with (List.length l - n) by lia.
  rewrite skipn_app.
  replace (List.length l - n - List.length l) with 0 by lia.
  reflexivity.
Qed.

Lemma slice_last_twice {A : Type} (n m : nat) (l : list A) :
  n <= m -> JS.slice_last n (JS.slice_last m l) = JS.slice_last n l.
Proof.
  intros Hnm. unfold JS.slice_last. rewrite skipn_skipn, length_skipn.
  f_equal. lia.
Qed.

Lemma slice_last_map {A B : Type} (f : A -> B) (n : nat) (l : list A) :
  JS.slice_last n (map f l) = map f (JS.slice_last n l).
Proof.
  unfold JS.slice_last. now rewrite skipn_map, length_map.
Qed.

(** X2: after any number of captures the buffer holds the frames of the
    most recent captures, eleven at most, oldest first, and
    [getLatestCapture] returns the frame captured last. *)
Theorem capture_buffer_is_recent_frames (ticks : list Z) :
  capture_all ticks [] = map frame (JS.slice_last 11 ticks)
  /\ getLatestCapture (capture_all ticks [])
     = option_map frame (JS.last_item ticks).
Proof.
  assert (H : capture_all ticks [] = map frame (JS.slice_last 11 ticks)).
  { induction ticks as [|t rest IH] using rev_ind; [reflexivity|].
    rewrite capture_all_snoc, IH. unfold pushCapture.
    rewrite slice_last_map, slice_last_twice by lia.
    rewrite slice_last_snoc, map_app. reflexivity. }
  split; [exact H|]. rewrite H. unfold getLatestCapture.
  destruct ticks as [|t rest] using rev_ind; [reflexivity|].
  rewrite slice_last_snoc, map_app. cbn [map].
  now rewrite !last_item_snoc.
Qed.

End CaptureBuffer.

(** ** useVisualAnalysis: every outcome yields an analysis *)

Section AnalysisOutcomes.

Import VisualAnalysis.

Lemma or_else_truthy (a b : string) :
  JS.truthy b = true -> JS.truthy (JS.or_else a b) = true.
Proof.
  intros Hb. unfold JS.or_else. now destruct (JS.truthy a) eqn:E.
Qed.

Lemma field_or_truthy (field : option string) (fallback : string) :
  JS.truthy fallback = true -> JS.truthy (field_or field fallback) = true.
Proof.
  intros Hb. destruct field; simpl; [now apply or_else_truthy | exact Hb].
Qed.

Lemma field_or_cases (field : option string) (fallback : string) :
  field_or field fallback = fallback
  \/ (exists u, field = Some u /\ JS.truthy u = true
                /\ field_or field fallback = u).
Proof.
  destruct field as [u|]; [|now left]. simpl. unfold JS.or_else.
  destruct (JS.truthy u) eqn:E; [right; eauto | now left].
Qed.

(** X3: whatever the vision call does (rejects, returns text that does not
    parse, returns null, returns an object with any fields missing or
    empty), [analyzeScreen] appends exactly one analysis behind the last
    twenty, returns it, makes it the latest one and lowers the busy flag;
    the analysis carries the clock reading and the screenshot, its
    content, context and urgency are never empty, and its urgency is low
    unless the parsed object supplies a non-empty one. *)
Theorem analyzeScreen_always_yields_analysis (now : Z) (shot : string)
  (ctx : option string) (r : Inference AnalysisData) (s : State) :
  let a := fst (analyzeScreen now shot ctx r s) in
  let s' := snd (analyzeScreen now shot ctx r s) in
  analyses s' = JS.slice_last 20 (analyses s) ++ [a]
  /\ getLatestAnalysis s' = Some a
  /\ isAnalyzing s' = false
  /\ timestamp a = now
  /\ screenshot a = shot
  /\ JS.truthy (content (analysis a)) = true
  /\ JS.truthy (context (analysis a)) = true
  /\ JS.truthy (urgency (analysis a)) = true
  /\ (urgency (analysis a) = "low"
      \/ exists text data u,
           r = Parsed text data /\ d_urgency data = Some u
           /\ JS.truthy u = true /\ urgency (analysis a) = u).
Proof.
  intros a s'. unfold a, s', analyzeScreen, analyzeScreen_settle.
  cbn [fst snd analyses isAnalyzing].
  split; [reflexivity|]. split; [apply last_item_snoc|].
  split; [reflexivity|].
  destruct r as [|text|text|text data]; cbn [outcome_analysis].
  - repeat split; try reflexivity.
    + cbn. now apply field_or_truthy.
    + now left.
  - repeat split; try reflexivity.
    + cbn. apply or_else_truthy. now apply field_or_truthy.
    + now left.
  - repeat split; try reflexivity.
    + cbn. now apply field_or_truthy.
    + now left.
  - repeat split; try reflexivity.
    + cbn. now apply field_or_truthy.
    + cbn. apply field_or_truthy. now apply field_or_truthy.
    + cbn. now apply field_or_truthy.
    + cbn. destruct (field_or_cases (d_urgency data) "low")
        as [E|(u & Hu & Ht & E)]; [now left|].
      right. exists text, data, u. auto.
Qed.

Lemma outcome_not_actionable (now : Z) (shot : string) (ctx : option string)
  (r : Inference AnalysisData) :
  RecentFeedback.degraded r ->
  Forall (fun f => fb_actionable f = false)
    (feedback (outcome_analysis now shot ctx r)).
Proof.
  destruct r; simpl; intros H; try contradiction; repeat constructor.
Qed.

Lemma skipn_Forall {A : Type} (P : A -> Prop) (n : nat) (l : list A) :
  Forall P l -> Forall P (skipn n l).
Proof.
  intros H. rewrite <- (firstn_skipn n l) in H.
  apply Forall_app in H. tauto.
Qed.

Lemma analyze_all_not_actionable (shot : string)
  (rs : list (Z * Inference AnalysisData)) (s : State) :
  Forall (fun r => RecentFeedback.degraded (snd r)) rs ->
  Forall (fun a => Forall (fun f => fb_actionable f = false) (feedback a))
    (analyses s) ->
  Forall (fun a => Forall (fun f => fb_actionable f = false) (feedback a))
    (analyses (analyze_all shot rs s)).
Proof.
  revert s. induction rs as [|[t r] rest IH]; intros s Hall Hs; [exact Hs|].
  inversion Hall as [|? ? Hr Hrest]; subst.
  change (analyze_all shot ((t, r) :: rest) s)
    with (analyze_all shot rest (snd (analyzeScreen t shot None r s))).
  apply IH; [assumption|]. cbn. apply Forall_app. split.
  - now apply skipn_Forall.
  - constructor; [|constructor]. now apply outcome_not_actionable.
Qed.

(** X4: the items that [analyzeScreen] fabricates when the vision call is
    rejected or its response does not parse are never actionable, so as
    long as no vision call has delivered a parsed object,
    [getRecentFeedback] returns nothing, for every window of minutes. *)
Theorem placeholders_give_no_recent_feedback (shot : string)
  (rs : list (Z * Inference AnalysisData)) (now minutes : Z) :
  Forall (fun r => RecentFeedback.degraded (snd r)) rs ->
  RecentFeedback.getRecentFeedback now minutes (analyze_all shot rs initial)
  = [].
Proof.
  intros Hall.
  pose proof (analyze_all_not_actionable shot rs initial Hall
                (Forall_nil _)) as H.
  unfold RecentFeedback.getRecentFeedback.
  set (cutoff := (now - minutes * 60 * 1000)%Z).
  induction (analyses (analyze_all shot rs initial)) as [|a rest IH];
    [reflexivity|].
  inversion H as [|? ? Ha Hrest]; subst. cbn [filter].
  destruct (cutoff <? timestamp a)%Z; [|now apply IH].
  cbn [flat_map]. rewrite filter_app, (IH Hrest), app_nil_r.
  clear -Ha. induction Ha as [|f fs Hf _ IHf]; [reflexivity|].
  cbn [filter]. now rewrite Hf.
Qed.

End AnalysisOutcomes.

(** ** useSmartFeedback: what the lists show *)

Section FeedbackLists.

Import SmartFeedback.

(** X5: the periodic sweep never changes what [getActiveFeedbacks] returns
    nor the active slot: it only marks low-priority events, which that
    list leaves out anyway. *)
Theorem sweep_keeps_active_feedbacks (now : Z) (s : State) :
  getActiveFeedbacks (sweep now s) = getActiveFeedbacks s
  /\ activeFeedback (sweep now s) = activeFeedback s.
Proof.
  split; [|reflexivity]. unfold getActiveFeedbacks, sweep.
  cbn [feedbacks]. induction (feedbacks s) as [|f rest IH]; [reflexivity|].
  cbn [map filter]. rewrite IH.
  destruct (expired now f) eqn:Ex; [|reflexivity].
  apply expired_spec in Ex. destruct Ex as [Hlow _].
  cbn [set_dismissed priority is_dismissed dismissed].
  rewrite Hlow. cbn [String.eqb Ascii.eqb Bool.eqb negb andb].
  now rewrite andb_false_r.
Qed.

(** X6: after [dismissFeedback(id)] neither [getActiveFeedbacks] nor
    [getRecentInsights] shows an event with that id, and both still show
    every other event they showed before, in the same order. *)
Theorem dismissed_id_leaves_the_lists (fid : string) (now minutes : Z)
  (s : State) :
  getActiveFeedbacks (dismissFeedback fid s)
  = filter (fun f => negb (String.eqb (id f) fid)) (getActiveFeedbacks s)
  /\ getRecentInsights now minutes (dismissFeedback fid s)
     = filter (fun f => negb (String.eqb (id f) fid))
         (getRecentInsights now minutes s).
Proof.
  unfold getActiveFeedbacks, getRecentInsights, dismissFeedback.
  cbn [feedbacks]. split.
  - induction (feedbacks s) as [|f rest IH]; [reflexivity|].
    cbn [map filter]. rewrite IH.
    destruct (String.eqb (id f) fid) eqn:E.
    + cbn [set_dismissed is_dismissed dismissed negb andb].
      destruct (negb (is_dismissed f) && negb (String.eqb (priority f) "low"));
        [cbn [filter]; now rewrite E | reflexivity].
    + destruct (negb (is_dismissed f) && negb (String.eqb (priority f) "low"));
        [cbn [filter]; now rewrite E | reflexivity].
  - induction (feedbacks s) as [|f rest IH]; [reflexivity|].
    cbn [map filter]. rewrite IH.
    destruct (String.eqb (id f) fid) eqn:E.
    + cbn [set_dismissed is_dismissed dismissed timestamp negb].
      rewrite andb_false_r.
      destruct ((now - minutes * 60 * 1000 <? timestamp f)%Z
                && negb (is_dismissed f));
        [cbn [filter]; now rewrite E | reflexivity].
    + destruct ((now - minutes * 60 * 1000 <? timestamp f)%Z
                && negb (is_dismissed f));
        [cbn [filter]; now rewrite E | reflexivity].
Qed.

Lemma meeting_insights_length (now talk listen : Z) (topics : list string) :
  List.length (meeting_insights now talk listen topics) <= 2.
Proof.
  unfold meeting_insights. rewrite length_app.
  match goal with
  | |- List.length ?a + List.length ?b <= 2 =>
      assert (Ha : List.length a <= 1);
      [|assert (Hb : List.length b <= 1); [|lia]]
  end.
  - destruct (Num.gtb _ _); [|destruct (Num.ltb _ _)]; cbn [List.length]; lia.
  - destruct (0 <? List.length topics); cbn [List.length]; lia.
Qed.

Lemma apply_history_bound (s : State) (op : FeedbackHistory.Op) :
  List.length (feedbacks s) <= 52 ->
  List.length (feedbacks (FeedbackHistory.apply s op)) <= 52.
Proof.
  intros Hs. destruct op as [now tr vc st dur r|now talk listen topics n|fid|now];
    cbn [FeedbackHistory.apply].
  - destruct r; cbn [generateContextualFeedback snd feedbacks]; try exact Hs.
    rewrite length_app, slice_last_length. cbn [List.length]. lia.
  - cbn [generateMeetingInsights snd feedbacks].
    rewrite length_app, slice_last_length.
    pose proof (meeting_insights_length now talk listen topics). lia.
  - cbn [dismissFeedback feedbacks]. now rewrite length_map.
  - cbn [sweep feedbacks]. now rewrite length_map.
Qed.

(** X7: under any sequence of the hook's operations (contextual feedback
    with any outcome, meeting insights, dismissals, sweeps) the feedback
    history never holds more than 52 events. *)
Theorem feedback_history_bounded (ops : list FeedbackHistory.Op) :
  List.length (feedbacks (FeedbackHistory.run ops initial)) <= 52.
Proof.
  unfold FeedbackHistory.run.
  assert (H : forall s, List.length (feedbacks s) <= 52 ->
                        List.length (feedbacks (fold_left FeedbackHistory.apply
                                                  ops s)) <= 52).
  { induction ops as [|op rest IH]; intros s Hs; [exact Hs|].
    cbn [fold_left]. apply IH. now apply apply_history_bound. }
  apply H. simpl. lia.
Qed.

End FeedbackLists.

(** ** useSmartFeedback: the meeting insights *)

Section MeetingInsights.

Import SmartFeedback.

Lemma talk_ratio_above (talk total : Z) (a b : positive) :
  (0 <= talk)%Z -> (0 <= total)%Z -> (talk <= total)%Z ->
  Num.gtb (Num.div (Num.of_Z talk) (Num.of_Z total)) (Z.pos a # b)
  = (Z.pos a * total <? Z.pos b * talk)%Z.
Proof.
  intros Ht Htot Hle. unfold Num.of_Z, Num.div, Num.sign.
  destruct total as [|p|p]; [|clear Htot|lia].
  - assert (talk = 0%Z) by lia. subst talk. reflexivity.
  - change (inject_Z (Z.pos p) ?= 0)%Q with Gt. cbn [Num.gtb].
    unfold Qcompare, Qdiv, Qmult, Qinv, inject_Z. cbn [Qnum Qden].
    rewrite Z.mul_1_r, Pos.mul_1_l.
    destruct (Z.compare_spec (talk * Z.pos b) (Z.pos a * Z.pos p)) as [E|E|E];
      symmetry; [apply Z.ltb_ge|apply Z.ltb_ge|apply Z.ltb_lt]; lia.
Qed.

Lemma talk_ratio_below (talk total : Z) (a b : positive) :
  (0 <= talk)%Z -> (0 <= total)%Z -> (talk <= total)%Z ->
  Num.ltb (Num.div (Num.of_Z talk) (Num.of_Z total)) (Z.pos a # b)
  = (0 <? total)%Z && (Z.pos b * talk <? Z.pos a * total)%Z.
Proof.
  intros Ht Htot Hle. unfold Num.of_Z, Num.div, Num.sign.
  destruct total as [|p|p]; [|clear Htot|lia].
  - assert (talk = 0%Z) by lia. subst talk. reflexivity.
  - change (inject_Z (Z.pos p) ?= 0)%Q with Gt. cbn [Num.ltb].
    unfold Qcompare, Qdiv, Qmult, Qinv, inject_Z. cbn [Qnum Qden].
    rewrite Z.mul_1_r, Pos.mul_1_l. cbn [Z.ltb Z.compare andb].
    destruct (Z.compare_spec (talk * Z.pos b) (Z.pos a * Z.pos p)) as [E|E|E];
      symmetry; [apply Z.ltb_ge|apply Z.ltb_lt|apply Z.ltb_ge]; lia.
Qed.

(** X8: for talk and listen times that are not negative,
    [generateMeetingInsights] produces the Speaking Balance insight exactly
    when talk time is more than 70% of the total, the Participation
    Opportunity insight exactly when the total is positive and talk time is
    less than 20% of it, and none of the two in between (70% and 20%
    themselves included) or when both times are zero; the Key Topics
    insight follows exactly when a topic is given. *)
Theorem meeting_insights_thresholds (now talk listen : Z)
  (topics : list string) :
  (0 <= talk)%Z -> (0 <= listen)%Z ->
  FeedbackHistory.titles (meeting_insights now talk listen topics)
  = (if (7 * (talk + listen) <? 10 * talk)%Z then ["Speaking Balance"]
     else if (0 <? talk + listen)%Z && (10 * talk <? 2 * (talk + listen))%Z
          then ["Participation Opportunity"]
          else [])
    ++ match topics with
       | [] => []
       | _ => ["Key Topics Identified"]
       end.
Proof.
  intros Ht Hl. unfold meeting_insights, FeedbackHistory.titles.
  rewrite map_app.
  rewrite (talk_ratio_above talk (talk + listen) 7 10) by lia.
  rewrite (talk_ratio_below talk (talk + listen) 2 10) by lia.
  f_equal.
  - destruct (7 * (talk + listen) <? 10 * talk)%Z; [reflexivity|].
    destruct ((0 <? talk + listen)%Z && (10 * talk <? 2 * (talk + listen))%Z);
      reflexivity.
  - destruct topics; reflexivity.
Qed.

End MeetingInsights.

(** ** Ids made from the clock *)

Section ClockIds.

Lemma append_inj_l (a b c : string) : a +^ b = a +^ c -> b = c.
Proof.
  induction a as [|ch a IH]; simpl; intros H; [exact H|].
  injection H as H. now apply IH.
Qed.

(** Distinct integers have distinct numerals. *)
Lemma show_Z_inj (a b : Z) : show_Z a = show_Z b -> a = b.
Proof.
  unfold show_Z. intros H.
  apply (f_equal NilZero.int_of_string) in H.
  assert (Hnil : forall z, Z.to_int z <> Decimal.Pos Decimal.Nil
                           /\ Z.to_int z <> Decimal.Neg Decimal.Nil).
  { intros [|p|p]; split; simpl; try discriminate;
      intros E; injection E as E;
      now apply DecimalPos.Unsigned.to_uint_nonnil in E. }
  rewrite !NilZero.isi in H by apply Hnil.
  injection H as H. now apply DecimalZ.to_int_inj.
Qed.

(** X9: the id of a contextual feedback is made from the clock reading
    alone, so two such events carry the same id exactly when they were
    created in the same millisecond, whatever their content; dismissing
    one by its id then marks every event created in that millisecond and
    no event created at another time. *)
Theorem feedback_ids_are_creation_times (now1 now2 : Z)
  (vc1 st1 text1 vc2 st2 text2 : string) (dur1 dur2 : Z)
  (data1 data2 : SmartFeedback.FeedbackData) :
  let f := SmartFeedback.build now1 vc1 st1 dur1 text1 data1 in
  let g := SmartFeedback.build now2 vc2 st2 dur2 text2 data2 in
  (SmartFeedback.id f = SmartFeedback.id g <-> now1 = now2)
  /\ SmartFeedback.feedbacks
       (SmartFeedback.dismissFeedback (SmartFeedback.id f)
          {| SmartFeedback.feedbacks := [f; g];
             SmartFeedback.activeFeedback := None |})
     = [SmartFeedback.set_dismissed f;
        if (now1 =? now2)%Z then SmartFeedback.set_dismissed g else g].
Proof.
  intros f g.
  assert (Hid : SmartFeedback.id f = SmartFeedback.id g <-> now1 = now2).
  { unfold f, g. cbn [SmartFeedback.build SmartFeedback.id]. split.
    - intros H. apply append_inj_l in H. now apply show_Z_inj.
    - now intros ->. }
  split; [exact Hid|].
  cbn [SmartFeedback.dismissFeedback SmartFeedback.feedbacks map].
  rewrite String.eqb_refl. f_equal. f_equal.
  destruct (now1 =? now2)%Z eqn:E.
  - apply Z.eqb_eq in E. apply Hid in E. apply String.eqb_eq in E.
    rewrite String.eqb_sym. now rewrite E.
  - apply Z.eqb_neq in E.
    destruct (String.eqb (SmartFeedback.id g) (SmartFeedback.id f)) eqn:E';
      [|reflexivity].
    apply String.eqb_eq in E'. symmetry in E'. apply Hid in E'. contradiction.
Qed.

End ClockIds.

(** ** useAICoaching: what a settled request adds *)

Section SuggestionBatches.

Import AICoaching.

Lemma format_from_ids (index : nat) (now : Z) (ctx : string)
  (items : list SuggestionData) (x : AISuggestion) :
  In x (format_from index now ctx items) ->
  exists j, index <= j
            /\ id x = "suggestion_" +^ show_Z now +^ "_" +^ show_Z (Z.of_nat j).
Proof.
  revert index. induction items as [|item rest IH]; intros index Hx;
    [contradiction|].
  cbn [format_from] in Hx. destruct Hx as [<-|Hx].
  - exists index. split; [lia | reflexivity].
  - destruct (IH (S index) Hx) as (j & Hj & E). exists j. split; [lia|exact E].
Qed.

Lemma format_from_NoDup (index : nat) (now : Z) (ctx : string)
  (items : list SuggestionData) :
  NoDup (map id (format_from index now ctx items)).
Proof.
  revert index. induction items as [|item rest IH]; intros index;
    [constructor|].
  cbn [format_from map]. constructor; [|apply IH].
  intros Hin. apply in_map_iff in Hin. destruct Hin as (x & Hx & Hin).
  destruct (format_from_ids _ _ _ _ _ Hin) as (j & Hj & E).
  rewrite E in Hx. cbn [id] in Hx.
  apply append_inj_l, append_inj_l, append_inj_l, show_Z_inj in Hx. lia.
Qed.

Lemma format_from_fresh (index : nat) (now : Z) (ctx : string)
  (items : list SuggestionData) :
  List.length (format_from index now ctx items) = List.length items
  /\ Forall (fun x => isUsed x = false /\ context x = ctx /\ timestamp x = now)
       (format_from index now ctx items)
  /\ map content (format_from index now ctx items) = map d_content items.
Proof.
  revert index. induction items as [|item rest IH]; intros index.
  - repeat split. constructor.
  - destruct (IH (S index)) as (Hl & Hf & Hc). cbn [format_from].
    repeat split.
    + cbn [List.length]. now rewrite Hl.
    + constructor; [repeat split | exact Hf].
    + cbn [map content]. now rewrite Hc.
Qed.

(** X10: when a suggestion request settles, the suggestions already held
    are kept in front, unchanged; a parsed array adds one unused
    suggestion per element, in order, with the element's content, the
    request's context, the clock reading, and ids that are pairwise
    distinct; a response that does not parse (or is not an array) adds one
    note holding the raw text; a rejected call adds nothing.  The busy
    flag is lowered in every case. *)
Theorem settled_request_adds_fresh_suggestions (now : Z) (ctx : string)
  (r : Inference Payload) (s : State) :
  let s' := generateSuggestion_settle now ctx r s in
  let added := produced now ctx r in
  suggestions s' = suggestions s ++ added
  /\ isGenerating s' = false
  /\ Forall (fun x => isUsed x = false /\ context x = ctx /\ timestamp x = now)
       added
  /\ NoDup (map id added)
  /\ map content added
     = match r with
       | CallFailed => []
       | Parsed _ (Items items) => map d_content items
       | Unparseable text | ParsedNull text | Parsed text NotAnArray => [text]
       end.
Proof.
  intros s' added. split; [reflexivity|]. split; [reflexivity|].
  unfold added. destruct r as [|text|text|text [items|]]; cbn [produced].
  - repeat split; constructor.
  - repeat split; repeat constructor. intros [].
  - repeat split; repeat constructor. intros [].
  - destruct (format_from_fresh 0 now ctx items) as (_ & Hf & Hc).
    split; [exact Hf|]. split; [apply format_from_NoDup | exact Hc].
  - repeat split; repeat constructor. intros [].
Qed.

(** X11: [markSuggestionUsed(id)] marks the suggestions that carry the id
    and changes nothing else: ids stay in place, nothing that was used
    becomes unused, the number of used suggestions grows by the number of
    unused ones with that id, and marking a second time changes nothing. *)
Theorem marking_used_only_adds_marks (sid : string) (s : State) :
  let s' := markSuggestionUsed sid s in
  map id (suggestions s') = map id (suggestions s)
  /\ map content (suggestions s') = map content (suggestions s)
  /\ map isUsed (suggestions s')
     = map (fun x => isUsed x || String.eqb (id x) sid) (suggestions s)
  /\ OverlayWindow.used_count (suggestions s')
     = OverlayWindow.used_count (suggestions s)
       + List.length (filter (fun x => String.eqb (id x) sid
                                       && negb (isUsed x)) (suggestions s))
  /\ markSuggestionUsed sid s' = s'
  /\ isGenerating s' = isGenerating s.
Proof.
  intros s'. unfold s', markSuggestionUsed, OverlayWindow.used_count.
  cbn [suggestions isGenerating].
  repeat split.
  - induction (suggestions s) as [|x rest IH]; [reflexivity|].
    cbn [map]. rewrite IH. now destruct (String.eqb (id x) sid).
  - induction (suggestions s) as [|x rest IH]; [reflexivity|].
    cbn [map]. rewrite IH. now destruct (String.eqb (id x) sid).
  - induction (suggestions s) as [|x rest IH]; [reflexivity|].
    cbn [map]. rewrite IH. destruct (String.eqb (id x) sid); cbn [isUsed].
    + now rewrite orb_true_r.
    + now rewrite orb_false_r.
  - induction (suggestions s) as [|x rest IH]; [reflexivity|].
    cbn [map filter]. destruct (String.eqb (id x) sid) eqn:E;
      cbn [isUsed andb]; destruct (isUsed x) eqn:U;
      cbn [negb List.length]; rewrite IH; lia.
  - f_equal. rewrite map_map. apply map_ext. intros x.
    destruct (String.eqb (id x) sid) eqn:E; cbn [id]; rewrite E; reflexivity.
Qed.

End SuggestionBatches.

(** ** useSessionManager: ending a session *)

Section EndingSessions.

Import SessionManager.

Lemma find_session_other (sessionId other : string) (now dur : Z)
  (d : Store.DB) :
  other <> sessionId ->
  Store.find_session other (Store.update_session_end sessionId now dur d)
  = Store.find_session other d.
Proof.
  intros Hne. unfold Store.find_session, Store.update_session_end.
  cbn [Store.sessions]. induction (Store.sessions d) as [|row rest IH];
    [reflexivity|].
  cbn [map find]. destruct (String.eqb (Store.id row) sessionId) eqn:E.
  - cbn [Store.close_row Store.id]. apply String.eqb_eq in E.
    assert (E' : String.eqb (Store.id row) other = false).
    { apply String.eqb_neq. congruence. }
    now rewrite E'.
  - now rewrite IH.
Qed.

(** X12: [endSession] without a current session does nothing at all, and
    when the store update fails it throws with the hook state and the
    store as they were.  When it succeeds, the ended session (completed,
    with its duration) becomes the current one and the head of the recent
    list, which never holds more than ten sessions however long it was;
    the store keeps its row count, the rows of other sessions, the
    analytics and the transcript segments. *)
Theorem endSession_outcomes (sessionId : string) (now : Z) (ok : bool)
  (s : State) (d : Store.DB) :
  let c := fst (fst (endSession sessionId now ok s d)) in
  let s' := snd (fst (endSession sessionId now ok s d)) in
  let d' := snd (endSession sessionId now ok s d) in
  (currentSession s = None -> c = Returned /\ s' = s /\ d' = d)
  /\ (forall current, currentSession s = Some current -> ok = false ->
        c = Threw /\ s' = s /\ d' = d)
  /\ (forall current, currentSession s = Some current -> ok = true ->
        c = Returned
        /\ (exists ended,
              currentSession s' = Some ended
              /\ hd_error (recentSessions s') = Some ended
              /\ status ended = "completed"
              /\ duration ended = Some (now - startTime current)%Z
              /\ endTime ended = Some now
              /\ id ended = id current)
        /\ List.length (recentSessions s') <= 10
        /\ tl (recentSessions s') = firstn 9 (recentSessions s)
        /\ List.length (Store.sessions d') = List.length (Store.sessions d)
        /\ (forall other, other <> sessionId ->
              Store.find_session other d' = Store.find_session other d)
        /\ Store.sessionAnalytics d' = Store.sessionAnalytics d
        /\ Store.transcriptionSegments d' = Store.transcriptionSegments d).
Proof.
  intros c s' d'. unfold c, s', d', endSession. split; [|split].
  - intros H. now rewrite H.
  - intros current H Hok. now rewrite H, Hok.
  - intros current H Hok. rewrite H, Hok. cbn [fst snd].
    split; [reflexivity|]. split.
    { eexists. repeat split. }
    cbn [recentSessions]. unfold JS.slice_first. repeat split.
    + cbn [List.length]. rewrite length_firstn. lia.
    + cbn [Store.update_session_end Store.sessions]. now rewrite length_map.
    + intros other Hne. now apply find_session_other.
Qed.

Lemma find_snoc_hit {A : Type} (p : A -> bool) (l : list A) (x : A) :
  p x = true -> exists y, find p (l ++ [x]) = Some y /\ p y = true.
Proof.
  intros Hx. induction l as [|a rest IH]; cbn [app find].
  - rewrite Hx. eauto.
  - destruct (p a) eqn:E; [eauto | exact IH].
Qed.

(** X13: a session created at [t0] and ended at [t1], both store calls
    succeeding, is found in the store under its id as completed, with end
    time [t1] and duration [t1 - t0]; the hook's current session says the
    same. *)
Theorem created_then_ended_session (title type userId nonce : string)
  (t0 t1 : Z) (s : State) (d : Store.DB) :
  let created := createSession title type userId t0 nonce true true s d in
  let sessionId := "session_" +^ show_Z t0 +^ "_" +^ nonce in
  let ended := endSession sessionId t1 true (snd (fst created)) (snd created) in
  fst (fst ended) = Returned
  /\ (exists row,
        Store.find_session sessionId (snd ended) = Some row
        /\ Store.status row = "completed"
        /\ Store.duration row = Some (t1 - t0)%Z
        /\ Store.endTime row = Some t1)
  /\ (exists current,
        currentSession (snd (fst ended)) = Some current
        /\ id current = sessionId
        /\ startTime current = t0
        /\ status current = "completed"
        /\ duration current = Some (t1 - t0)%Z).
Proof.
  intros created sessionId ended.
  unfold ended, created, createSession, endSession.
  cbn [fst snd currentSession startTime]. fold sessionId.
  split; [reflexivity|]. split.
  - rewrite find_session_closed. unfold Store.find_session.
    cbn [Store.create_analytics Store.create_session Store.sessions].
    match goal with
    | |- context [find ?p (?l ++ [?x])] =>
        destruct (find_snoc_hit p l x) as (row & Hrow & _);
        [cbn [Store.id]; apply String.eqb_refl | rewrite Hrow]
    end.
    cbn [option_map]. eexists. repeat split.
  - eexists. repeat split.
Qed.

End EndingSessions.

(** ** useSessionManager: the success rate *)

Section SuccessRate.

Import SessionManager.

Lemma sum_by_le {A : Type} (f g : A -> Z) (rows : list A) :
  Forall (fun a => (f a <= g a)%Z) rows ->
  (sum_by f rows <= sum_by g rows)%Z.
Proof.
  induction 1 as [|a rest Ha _ IH]; [reflexivity|].
  rewrite !sum_by_cons. lia.
Qed.

Lemma count_or_zero_le_one (field : option Z) :
  (count_or field 0 <= count_or field 1)%Z.
Proof.
  unfold count_or. destruct field as [n|]; [|lia].
  destruct (n =? 0)%Z eqn:E; lia.
Qed.

(** X14: when no record counts more used suggestions than suggestions
    (and no counter is negative), the success rate that [getSessionStats]
    returns is a whole number between 0 and 100. *)
Theorem success_rate_is_a_percentage (sessions : list Store.SessionRow)
  (analytics : list Store.AnalyticsRow) :
  Forall (fun a => (0 <= count_or (Store.suggestionsUsed a) 0
                    <= count_or (Store.totalSuggestions a) 0)%Z) analytics ->
  exists n : Z,
    successRate (getSessionStats (Some (sessions, analytics)))
    = Num.Finite (inject_Z n)
    /\ (0 <= n <= 100)%Z.
Proof.
  intros Hall. destruct analytics as [|a rest].
  - exists 0%Z. split; [reflexivity | lia].
  - assert (Hok : Forall counts_ok (a :: rest)).
    { eapply Forall_impl; [|exact Hall]. intros x Hx. cbv beta in Hx.
      unfold counts_ok. lia. }
    destruct (stats_of_records sessions (a :: rest) ltac:(discriminate) Hok)
      as (_ & Hused & Hfloor & _ & _ & Hrate).
    rewrite Hrate. eexists. split; [reflexivity|].
    set (used := sum_by (fun x => count_or (Store.suggestionsUsed x) 0)
                   (a :: rest)) in *.
    set (floor1 := sum_by (fun x => count_or (Store.totalSuggestions x) 1)
                     (a :: rest)) in *.
    assert (Hle : (used <= floor1)%Z).
    { unfold used, floor1.
      apply Z.le_trans
        with (m := sum_by (fun x => count_or (Store.totalSuggestions x) 0)
                     (a :: rest)).
      - apply sum_by_le. eapply Forall_impl; [|exact Hall].
        intros x Hx. cbv beta in Hx. lia.
      - apply sum_by_le. apply Forall_forall. intros x _.
        apply count_or_zero_le_one. }
    assert (Hq0 : (0 <= inject_Z used / inject_Z floor1)%Q).
    { apply quotient_nonneg;
        [now apply inject_Z_nonneg | now apply inject_Z_pos]. }
    assert (Hq1 : (inject_Z used / inject_Z floor1 <= 1)%Q).
    { apply Qle_shift_div_r; [now apply inject_Z_pos|].
      rewrite Qmult_1_l. now rewrite <- Zle_Qle. }
    split.
    + change 0%Z with (Qfloor 0). apply Qfloor_resp_le.
      apply Qle_trans with (y := (inject_Z used / inject_Z floor1
                                  * inject_Z 100)%Q).
      * apply Qmult_le_0_compat; [exact Hq0 | discriminate].
      * rewrite <- (Qplus_0_r (_ * _)) at 1. apply Qplus_le_r. discriminate.
    + change 100%Z with (Qfloor (inject_Z 100 + (1 # 2))) at 2.
      apply Qfloor_resp_le. apply Qplus_le_l.
      rewrite <- (Qmult_1_l (inject_Z 100)) at 2.
      apply Qmult_le_compat_r; [exact Hq1 | discriminate].
Qed.

End SuccessRate.

(** ** EnhancedOverlayWindow: the debounced transcript write *)

Section Debounce.

Import EnhancedOverlayWindow Burst.

(** One transcript change that comes before the pending timer is due: the
    timer is replaced, nothing is written. *)
Lemma quick_change (m : Moment) (w : Window) (current : SessionManager.Session)
  (text : string) :
  SessionManager.currentSession (manager w) = Some current ->
  started w = true ->
  action m = SetTranscript text ->
  JS.truthy text = true ->
  text <> w_transcript w ->
  match option_map due (debounceTimer w) with
  | Some d => (at_time m < d)%Z
  | None => True
  end ->
  moment m w
  = {| w_transcript := text;
       sessionStartTime := sessionStartTime w;
       manager := manager w;
       db := db w;
       debounceTimer := Some {| due := (at_time m + 2000)%Z;
                                t_sessionId := SessionManager.id current;
                                t_transcript := text |};
       ending := ending w |}.
Proof.
  intros Hcur Hst Hact Htext Hne Hdue. unfold moment.
  assert (Hadv : advance (at_time m) (nonce m) (store_ok m) w = w).
  { unfold advance. destruct (debounceTimer w) as [timer|]; [|reflexivity].
    cbn [option_map] in Hdue.
    replace (due timer <=? at_time m)%Z with false; [reflexivity|].
    symmetry. apply Z.leb_gt. exact Hdue. }
  rewrite Hadv, Hact. cbn [act].
  apply String.eqb_neq in Hne. rewrite Hne.
  unfold debounce_effect, started in *.
  cbn [w_transcript sessionStartTime manager db debounceTimer ending].
  now rewrite Hcur, Htext, Hst.
Qed.

Lemma quick_burst_state (ms : list Moment) (w : Window)
  (current : SessionManager.Session) :
  SessionManager.currentSession (manager w) = Some current ->
  started w = true ->
  ms <> [] ->
  quick (option_map due (debounceTimer w)) (w_transcript w) ms ->
  db (play ms w) = db w
  /\ debounceTimer (play ms w)
     = Some {| due := (last_time 0 ms + 2000)%Z;
               t_sessionId := SessionManager.id current;
               t_transcript := w_transcript (play ms w) |}
  /\ exists front m, ms = front ++ [m]
                     /\ action m = SetTranscript (w_transcript (play ms w)).
Proof.
  revert w. induction ms as [|m rest IH]; intros w Hcur Hst Hne Hq;
    [congruence|].
  destruct Hq as (text & Hact & Htext & Hchg & Hdue & Hrest).
  pose proof (quick_change m w current text Hcur Hst Hact Htext Hchg Hdue)
    as Hm.
  change (play (m :: rest) w) with (play rest (moment m w)).
  destruct rest as [|m' rest'].
  - cbn [play fold_left]. rewrite Hm.
    cbn [db debounceTimer w_transcript].
    split; [reflexivity|]. split; [reflexivity|].
    exists [], m. split; [reflexivity | exact Hact].
  - destruct (IH (moment m w)) as (Hdb & Htimer & front & mlast & Hsplit & Hlast).
    + now rewrite Hm.
    + rewrite Hm. unfold started in *. exact Hst.
    + discriminate.
    + rewrite Hm. cbn [debounceTimer option_map due w_transcript]. exact Hrest.
    + split; [rewrite Hdb, Hm; reflexivity|]. split.
      * rewrite Htimer. reflexivity.
      * exists (m :: front), mlast. split; [|exact Hlast].
        cbn [app]. now rewrite <- Hsplit.
Qed.

(** X15: the transcript write is a trailing-edge debounce.  During a burst
    of transcript changes in a running session, each arriving less than
    2000 ms after the one before, nothing is written; once the clock has
    passed the last change by 2000 ms, exactly one segment is written, for
    the session, stamped 2000 ms after the last change and holding the
    whole transcript as the last change left it; then no timer is
    pending. *)
Theorem debounce_writes_last_transcript_once (ms : list Moment) (w : Window)
  (current : SessionManager.Session) (T : Z) (suffix : string) :
  SessionManager.currentSession (manager w) = Some current ->
  started w = true ->
  ms <> [] ->
  quick (option_map due (debounceTimer w)) (w_transcript w) ms ->
  (last_time 0 ms + 2000 <= T)%Z ->
  let w1 := play ms w in
  let w2 := moment {| at_time := T; nonce := suffix; store_ok := true;
                      action := Wait |} w1 in
  Store.transcriptionSegments (db w1) = Store.transcriptionSegments (db w)
  /\ (exists front m, ms = front ++ [m]
                      /\ action m = SetTranscript (w_transcript w1))
  /\ Store.transcriptionSegments (db w2)
     = Store.transcriptionSegments (db w)
       ++ [ {| Store.g_id := "segment_" +^ show_Z (last_time 0 ms + 2000)
                             +^ "_" +^ suffix;
               Store.g_sessionId := SessionManager.id current;
               Store.text := w_transcript w1;
               Store.timestamp := (last_time 0 ms + 2000)%Z;
               Store.isUserSpeaking := 1;
               Store.g_createdAt := (last_time 0 ms + 2000)%Z |} ]
  /\ debounceTimer w2 = None.
Proof.
  intros Hcur Hst Hne Hq HT w1 w2.
  destruct (quick_burst_state ms w current Hcur Hst Hne Hq)
    as (Hdb & Htimer & Hlast).
  fold w1 in Hdb, Htimer, Hlast.
  split; [now rewrite Hdb|]. split; [exact Hlast|].
  unfold w2, moment. cbn [at_time nonce store_ok action act].
  unfold advance. rewrite Htimer. cbn [due t_sessionId t_transcript].
  replace (last_time 0 ms + 2000 <=? T)%Z with true
    by (symmetry; apply Z.leb_le; exact HT).
  cbn [db debounceTimer]. rewrite Hdb. split; reflexivity.
Qed.

End Debounce.

(** ** Splitting and joining the transcript (EnhancedOverlayWindow,
    OverlayWindow) *)

Section SplitJoin.

Lemma split_space_aux_nonempty (cur s : string) :
  JS.split_space_aux cur s <> [].
Proof.
  revert cur. induction s as [|c rest IH]; intros cur; cbn [JS.split_space_aux].
  - discriminate.
  - destruct (Ascii.eqb c " "%char); [discriminate | apply IH].
Qed.

Lemma join_cons_nonempty (x : string) (l : list string) :
  l <> [] -> String.concat " " (x :: l) = x +^ " " +^ String.concat " " l.
Proof.
  destruct l; [congruence | reflexivity].
Qed.

Lemma join_split_aux (cur s : string) :
  String.concat " " (JS.split_space_aux cur s) = cur +^ s.
Proof.
  revert cur. induction s as [|c rest IH]; intros cur;
    cbn [JS.split_space_aux].
  - cbn [String.concat]. now rewrite append_empty_r.
  - destruct (Ascii.eqb c " "%char) eqn:E.
    + apply Ascii.eqb_eq in E. subst c.
      rewrite join_cons_nonempty by apply split_space_aux_nonempty.
      now rewrite IH.
    + rewrite IH, append_assoc. reflexivity.
Qed.

(** X16: [split(' ')] followed by [join(' ')] gives back the string, for
    every string (leading, trailing and repeated spaces included); the
    split never returns an empty array. *)
Theorem join_after_split_is_identity (s : string) :
  String.concat " " (JS.split_space s) = s
  /\ exists piece pieces, JS.split_space s = piece :: pieces.
Proof.
  split.
  - unfold JS.split_space. now rewrite join_split_aux.
  - pose proof (split_space_aux_nonempty EmptyString s) as H.
    unfold JS.split_space. destruct (JS.split_space_aux EmptyString s);
      [congruence | eauto].
Qed.

Lemma join_skipn_suffix (l : list string) (k : nat) :
  k < List.length l ->
  exists front, String.concat " " l = front +^ String.concat " " (skipn k l).
Proof.
  revert l. induction k as [|k IH]; intros l Hk.
  - exists "". reflexivity.
  - destruct l as [|x rest]; [simpl in Hk; lia|].
    simpl in Hk. destruct (IH rest ltac:(lia)) as [front Hfront].
    exists (x +^ " " +^ front).
    rewrite join_cons_nonempty by (destruct rest; [simpl in Hk; lia|discriminate]).
    cbn [skipn]. rewrite Hfront. now rewrite !append_assoc.
Qed.

Lemma spaceless_append (a b : string) :
  OverlayWindow.spaceless a = true -> OverlayWindow.spaceless b = true ->
  OverlayWindow.spaceless (a +^ b) = true.
Proof.
  intros Ha Hb. induction a as [|c a IH]; [exact Hb|].
  cbn [OverlayWindow.spaceless String.append] in *.
  apply andb_true_iff in Ha. destruct Ha as [Hc Ha].
  rewrite Hc. now apply IH.
Qed.

(** The pieces of a split hold no space. *)
Lemma split_space_aux_spaceless (cur s : string) :
  OverlayWindow.spaceless cur = true ->
  Forall (fun w => OverlayWindow.spaceless w = true) (JS.split_space_aux cur s).
Proof.
  revert cur. induction s as [|c rest IH]; intros cur Hcur;
    cbn [JS.split_space_aux].
  - now constructor.
  - destruct (Ascii.eqb c " "%char) eqn:E.
    + constructor; [exact Hcur | now apply IH].
    + apply IH. apply spaceless_append; [exact Hcur|].
      cbn [OverlayWindow.spaceless]. now rewrite E.
Qed.

Lemma split_space_aux_run (w cur rest : string) :
  OverlayWindow.spaceless w = true ->
  JS.split_space_aux cur (w +^ rest) = JS.split_space_aux (cur +^ w) rest.
Proof.
  revert cur. induction w as [|c w IH]; intros cur Hw.
  - simpl. now rewrite append_empty_r.
  - cbn [OverlayWindow.spaceless] in Hw. apply andb_true_iff in Hw.
    destruct Hw as [Hc Hw]. apply negb_true_iff in Hc.
    cbn [String.append JS.split_space_aux].
    rewrite Hc, (IH _ Hw), append_assoc. reflexivity.
Qed.

Lemma split_space_aux_pieces (cur w : string) (l : list string) :
  Forall (fun x => OverlayWindow.spaceless x = true) (w :: l) ->
  JS.split_space_aux cur (String.concat " " (w :: l)) = (cur +^ w) :: l.
Proof.
  revert cur w. induction l as [|x rest IH]; intros cur w Hall.
  - inversion Hall; subst. cbn [String.concat].
    rewrite <- (append_empty_r w) at 1.
    now rewrite split_space_aux_run.
  - inversion Hall as [|? ? Hw Hrest]; subst.
    rewrite join_cons_nonempty by discriminate.
    rewrite (split_space_aux_run _ _ _ Hw).
    cbn [String.append JS.split_space_aux Ascii.eqb Bool.eqb].
    now rewrite (IH EmptyString x Hrest).
Qed.

(** X17: the recent words that OverlayWindow computes from the
    transcription, [split(' ').slice(-20).join(' ')], are a suffix of the
    transcription; split again they are exactly the last twenty pieces of
    the transcription (all of them when there are fewer), and they are the
    whole transcription when that has at most twenty pieces. *)
Theorem recent_words_is_a_suffix (transcription : string) :
  (exists front,
      transcription = front +^ OverlayWindow.recentWords transcription)
  /\ JS.split_space (OverlayWindow.recentWords transcription)
     = JS.slice_last 20 (JS.split_space transcription)
  /\ List.length (JS.split_space (OverlayWindow.recentWords transcription))
     = Nat.min 20 (List.length (JS.split_space transcription))
  /\ (List.length (JS.split_space transcription) <= 20 ->
      OverlayWindow.recentWords transcription = transcription).
Proof.
  pose proof (split_space_aux_nonempty EmptyString transcription) as Hne.
  fold (JS.split_space transcription) in Hne.
  assert (Hsplit : JS.split_space (OverlayWindow.recentWords transcription)
                   = JS.slice_last 20 (JS.split_space transcription)).
  { unfold OverlayWindow.recentWords.
    pose proof (split_space_aux_spaceless EmptyString transcription eq_refl)
      as Hall.
    fold (JS.split_space transcription) in Hall.
    assert (Hlast : Forall (fun w => OverlayWindow.spaceless w = true)
                      (JS.slice_last 20 (JS.split_space transcription)))
      by (now apply skipn_Forall).
    destruct (JS.slice_last 20 (JS.split_space transcription))
      as [|w rest] eqn:E.
    - exfalso. apply (f_equal (@List.length string)) in E.
      rewrite slice_last_length in E.
      destruct (JS.split_space transcription); [congruence|].
      simpl in E. lia.
    - unfold JS.split_space at 1. now rewrite split_space_aux_pieces. }
  split; [|split; [exact Hsplit|split]].
  - unfold OverlayWindow.recentWords, JS.slice_last.
    destruct (join_skipn_suffix (JS.split_space transcription)
                (List.length (JS.split_space transcription) - 20))
      as [front Hfront].
    + destruct (JS.split_space transcription); [congruence | simpl; lia].
    + exists front. rewrite <- Hfront.
      unfold JS.split_space. now rewrite join_split_aux.
  - now rewrite Hsplit, slice_last_length.
  - intros Hle. unfold OverlayWindow.recentWords.
    rewrite slice_last_short by exact Hle.
    unfold JS.split_space. now rewrite join_split_aux.
Qed.

End SplitJoin.

(** ** EnhancedOverlayWindow: the session clock *)

Section Clock.

Import SessionClock.

Lemma padded_two_digits (k : nat) :
  k < 60 -> String.length (padStart2 (show_Z (Z.of_nat k))) = 2.
Proof.
  intros Hk.
  do 60 (destruct k as [|k]; [reflexivity|]). lia.
Qed.

(** X18: for an elapsed time that is not negative the duration tile shows
    the whole minutes, a colon and the seconds in exactly two characters;
    the seconds are below 60, and minutes and seconds together are the
    elapsed time rounded down to the full second.  Without a start time
    the duration is 0. *)
Theorem clock_shows_elapsed_time (d : Z) :
  (0 <= d)%Z ->
  (0 <= minutes d)%Z
  /\ (0 <= seconds d < 60)%Z
  /\ (60000 * minutes d + 1000 * seconds d <= d
      < 60000 * minutes d + 1000 * seconds d + 1000)%Z
  /\ String.length (padStart2 (show_Z (seconds d))) = 2
  /\ clock d = show_Z (minutes d) +^ ":" +^ padStart2 (show_Z (seconds d))
  /\ (forall now, sessionDuration now None = 0%Z).
Proof.
  intros Hd. unfold minutes, seconds.
  rewrite Z.rem_mod_nonneg by lia.
  pose proof (Z.div_mod d 60000 ltac:(lia)) as Hdm.
  pose proof (Z.mod_pos_bound d 60000 ltac:(lia)) as Hm.
  pose proof (Z.div_mod (d mod 60000) 1000 ltac:(lia)) as Hsm.
  pose proof (Z.mod_pos_bound (d mod 60000) 1000 ltac:(lia)) as Hs.
  assert (Hq : (0 <= d / 60000)%Z) by (apply Z.div_pos; lia).
  assert (Hsec : (0 <= d mod 60000 / 1000 < 60)%Z).
  { split; [apply Z.div_pos; lia|].
    apply Z.div_lt_upper_bound; lia. }
  split; [exact Hq|]. split; [exact Hsec|]. split; [lia|].
  split; [|split; [|reflexivity]].
  - rewrite <- (Z2Nat.id (d mod 60000 / 1000)) by lia.
    apply padded_two_digits. lia.
  - unfold clock, minutes, seconds. now rewrite Z.rem_mod_nonneg by lia.
Qed.

End Clock.

(** ** EnhancedOverlayWindow: saving suggestions *)

Section SavingSuggestions.

Import SuggestionSaving.

Lemma last_item_app {A : Type} (l l' : list A) :
  l' <> [] -> JS.last_item (l ++ l') = JS.last_item l'.
Proof.
  intros Hne. destruct l' as [|x rest] using rev_ind; [congruence|].
  now rewrite app_assoc, !last_item_snoc.
Qed.

Lemma last_item_In {A : Type} (l : list A) (x : A) :
  JS.last_item l = Some x -> In x l.
Proof.
  unfold JS.last_item. apply nth_error_In.
Qed.

Lemma produced_unused (now : Z) (ctx : string)
  (r : Inference AICoaching.Payload) :
  Forall (fun x => AICoaching.isUsed x = false) (AICoaching.produced now ctx r).
Proof.
  destruct r as [|text|text|text [items|]]; cbn [AICoaching.produced];
    repeat constructor.
  destruct (format_from_fresh 0 now ctx items) as (_ & Hf & _).
  eapply Forall_impl; [|exact Hf]. intros x Hx. cbv beta in Hx.
  destruct Hx as [Hx _]. exact Hx.
Qed.

(** X19: the saving effect writes one row per run, for the last suggestion
    of the list.  After a request has settled with a batch of several
    suggestions, the run of the effect in a running session therefore
    stores the last suggestion of the batch only: the table grows by
    exactly one row, whatever the size of the batch. *)
Theorem batch_saves_its_last_suggestion_only (now : Z) (ctx : string)
  (r : Inference AICoaching.Payload) (s : AICoaching.State)
  (current : SessionManager.Session) (latest : AICoaching.AISuggestion)
  (at_run : Z) (suffix : string) (table : list SuggestionRow) :
  JS.last_item (AICoaching.produced now ctx r) = Some latest ->
  let s' := AICoaching.generateSuggestion_settle now ctx r s in
  let table' := save_effect (AICoaching.suggestions s') (Some current)
                  at_run suffix true table in
  List.length table' = S (List.length table)
  /\ exists row,
       table' = table ++ [row]
       /\ r_content row = AICoaching.content latest
       /\ r_type row = AICoaching.type latest
       /\ r_sessionId row = SessionManager.id current
       /\ r_isUsed row = 0%Z.
Proof.
  intros Hlast s' table'.
  assert (Hne : AICoaching.produced now ctx r <> []).
  { intros E. rewrite E in Hlast. discriminate. }
  assert (Hunused : AICoaching.isUsed latest = false).
  { pose proof (produced_unused now ctx r) as H.
    rewrite Forall_forall in H. apply H. now apply last_item_In. }
  assert (Ht : table' = saveAISuggestion (SessionManager.id current)
                          (AICoaching.type latest) (AICoaching.content latest)
                          (AICoaching.context latest)
                          (AICoaching.priority latest) at_run suffix true
                          table).
  { unfold table', save_effect, s'.
    cbn [AICoaching.generateSuggestion_settle AICoaching.suggestions].
    rewrite (last_item_app _ _ Hne), Hlast, Hunused.
    replace (0 <? List.length (AICoaching.suggestions s
                               ++ AICoaching.produced now ctx r)) with true;
      [reflexivity|].
    symmetry. apply Nat.ltb_lt. rewrite length_app.
    destruct (AICoaching.produced now ctx r); [congruence | simpl; lia]. }
  rewrite Ht. unfold saveAISuggestion. split.
  - rewrite length_app. simpl. lia.
  - eexists. split; [reflexivity|]. repeat split.
Qed.

End SavingSuggestions.

(** ** ScreenAnalysisOverlay: the analysis gap and the feedback request *)

Section AnalysisGap.

Import ScreenAnalysisOverlay.



(** X21: every settled analysis makes the component ask for contextual
    feedback once, also when the vision call failed: the request is then
    about the placeholder, with its content Screen capture received as
    the transcription argument. *)
Theorem failed_analysis_still_requests_feedback (i : nat) (t : Z)
  (r : Inference VisualAnalysis.AnalysisData) (s : State) (shot : string)
  (from_interval : bool) :
  nth_error (requests s) i = Some (shot, from_interval) ->
  let s1 := analysis_settled i t r s in
  let a := VisualAnalysis.outcome_analysis t shot (Some (sessionType s)) r in
  (exists call,
      feedbackCalls s1 = feedbackCalls s ++ [call]
      /\ c_transcription call = VisualAnalysis.content (VisualAnalysis.analysis a)
      /\ c_visualContext call
         = VisualAnalysis.context (VisualAnalysis.analysis a))
  /\ (r = CallFailed ->
      exists call,
        feedbackCalls s1 = feedbackCalls s ++ [call]
        /\ c_transcription call = "Screen capture received"
        /\ c_visualContext call = JS.or_else (sessionType s) "Screen activity").
Proof.
  intros Hi s1 a.
  assert (H : exists call,
             feedbackCalls s1 = feedbackCalls s ++ [call]
             /\ c_transcription call
                = VisualAnalysis.content (VisualAnalysis.analysis a)
             /\ c_visualContext call
                = VisualAnalysis.context (VisualAnalysis.analysis a)).
  { unfold s1, analysis_settled. rewrite Hi. unfold feedback_effect.
    cbn [visual VisualAnalysis.analyzeScreen_settle snd].
    unfold VisualAnalysis.getLatestAnalysis.
    cbn [VisualAnalysis.analyses]. rewrite last_item_snoc.
    cbn [feedbackCalls]. eexists. split; [reflexivity|]. split; reflexivity. }
  split; [exact H|]. intros ->. exact H.
Qed.

End AnalysisGap.

(** ** useSmartFeedback: dismissal is final *)

Section DismissalIsFinal.

Import SmartFeedback.

Lemma skipn_In {A : Type} (n : nat) (l : list A) (x : A) :
  In x (skipn n l) -> In x l.
Proof.
  intros H. rewrite <- (firstn_skipn n l). apply in_or_app. now right.
Qed.

(** X22: no operation of the hook clears a dismissed flag or alters an
    event otherwise.  After any operation, every event of the history is
    an event of the history before, unchanged or marked dismissed, or an
    event that the operation has just created with the operation's clock
    reading as its time stamp. *)
Theorem operations_never_undismiss (s : State) (op : FeedbackHistory.Op)
  (g : SmartFeedback) :
  In g (feedbacks (FeedbackHistory.apply s op)) ->
  (exists f, In f (feedbacks s) /\ (g = f \/ g = set_dismissed f))
  \/ (is_dismissed g = false
      /\ match op with
         | FeedbackHistory.Contextual now _ _ _ _ _
         | FeedbackHistory.Insights now _ _ _ _ => timestamp g = now
         | _ => False
         end).
Proof.
  destruct op as [now tr vc st dur r|now talk listen topics n|fid|now];
    cbn [FeedbackHistory.apply]; intros Hg.
  - destruct r as [|text|text|text data];
      cbn [generateContextualFeedback snd feedbacks] in Hg;
      try (left; exists g; auto; fail).
    apply in_app_or in Hg. destruct Hg as [Hg|[<-|[]]].
    + left. exists g. split; [now apply skipn_In in Hg | now left].
    + right. split; reflexivity.
  - cbn [generateMeetingInsights snd feedbacks] in Hg.
    apply in_app_or in Hg. destruct Hg as [Hg|Hg].
    + left. exists g. split; [now apply skipn_In in Hg | now left].
    + right. unfold meeting_insights in Hg. apply in_app_or in Hg.
      destruct Hg as [Hg|Hg].
      * destruct (Num.gtb _ _); [|destruct (Num.ltb _ _)];
          cbn [In] in Hg; try contradiction;
          destruct Hg as [<-|[]]; split; reflexivity.
      * destruct (0 <? List.length topics); cbn [In] in Hg;
          try contradiction; destruct Hg as [<-|[]]; split; reflexivity.
  - left. cbn [dismissFeedback feedbacks] in Hg. apply in_map_iff in Hg.
    destruct Hg as (f & Hf & Hin). exists f. split; [exact Hin|].
    destruct (String.eqb (id f) fid); auto.
  - left. cbn [sweep feedbacks] in Hg. apply in_map_iff in Hg.
    destruct Hg as (f & Hf & Hin). exists f. split; [exact Hin|].
    destruct (expired now f); auto.
Qed.

End DismissalIsFinal.

(** ** EnhancedOverlayWindow: suggestions under the scheduler *)

Section AppendOnlySuggestions.

Import EnhancedOverlayWindow.

Lemma suggestion_effect_suggestions (s : Scheduler) :
  AICoaching.suggestions (coaching (suggestion_effect s))
  = AICoaching.suggestions (coaching s).
Proof.
  unfold suggestion_effect. destruct (wants_suggestion (transcript s));
    [|reflexivity].
  unfold AICoaching.generateSuggestion_start.
  now destruct (AICoaching.is_blank (transcript s)).
Qed.

(** X23: under the window's scheduler suggestions are only ever added:
    after any sequence of transcript changes, session-type changes and
    settlements (in any order, with any outcome) the suggestions held
    before are still there, unchanged and in front. *)
Theorem scheduler_keeps_suggestions (events : list Event) (s : Scheduler) :
  exists added,
    AICoaching.suggestions (coaching (run events s))
    = AICoaching.suggestions (coaching s) ++ added.
Proof.
  revert s. induction events as [|e rest IH]; intros s.
  - exists []. now rewrite app_nil_r.
  - change (run (e :: rest) s) with (run rest (step s e)).
    destruct (IH (step s e)) as [added Hadded]. rewrite Hadded.
    assert (Hstep : exists one,
               AICoaching.suggestions (coaching (step s e))
               = AICoaching.suggestions (coaching s) ++ one).
    { destruct e as [text| |i now r]; cbn [step].
      - destruct (String.eqb text (transcript s));
          [exists []; now rewrite app_nil_r|].
        rewrite suggestion_effect_suggestions. exists [].
        now rewrite app_nil_r.
      - rewrite suggestion_effect_suggestions. exists [].
        now rewrite app_nil_r.
      - destruct (nth_error (requests s) i) as [context|];
          [|exists []; now rewrite app_nil_r].
        eexists. reflexivity. }
    destruct Hstep as [one Hone]. rewrite Hone.
    exists (one ++ added). now rewrite app_assoc.
Qed.

End AppendOnlySuggestions.

(** ** EnhancedOverlayWindow: a transcript left over from the last
    session *)

Section LeftoverTranscript.

Import EnhancedOverlayWindow.


End LeftoverTranscript.

(** ** useSessionManager: creating a session *)

Section CreatingSessions.

Import SessionManager.

(** X25: [createSession] makes its two store writes one after the other.
    When both succeed the session is current, stored as active and found
    under its id, with an analytics record of zero counters.  When the
    session write fails nothing is stored; when only the analytics write
    fails the session row stays in the store although the call throws and
    the hook has no current session. *)
Theorem createSession_outcomes (title type userId nonce : string) (now : Z)
  (s : State) (d : Store.DB) :
  let sessionId := "session_" +^ show_Z now +^ "_" +^ nonce in
  let both := createSession title type userId now nonce true true s d in
  let none := createSession title type userId now nonce false true s d in
  let half := createSession title type userId now nonce true false s d in
  (fst (fst both) = Returned
   /\ option_map id (currentSession (snd (fst both))) = Some sessionId
   /\ option_map status (currentSession (snd (fst both))) = Some "active"
   /\ recentSessions (snd (fst both)) = recentSessions s
   /\ List.length (Store.sessions (snd both))
      = S (List.length (Store.sessions d))
   /\ (exists row, Store.find_session sessionId (snd both) = Some row)
   /\ option_map Store.a_sessionId (JS.last_item
                                      (Store.sessionAnalytics (snd both)))
      = Some sessionId
   /\ option_map Store.totalSuggestions
        (JS.last_item (Store.sessionAnalytics (snd both))) = Some (Some 0%Z))
  /\ none = (Threw, s, d)
  /\ (fst (fst half) = Threw
      /\ snd (fst half) = s
      /\ Store.sessions (snd half) = Store.sessions (snd both)
      /\ Store.sessionAnalytics (snd half) = Store.sessionAnalytics d).
Proof.
  intros sessionId both none half. unfold both, none, half, createSession.
  cbn [fst snd currentSession recentSessions option_map id status].
  fold sessionId. repeat split.
  - cbn [Store.create_analytics Store.create_session Store.sessions].
    rewrite length_app. simpl. lia.
  - unfold Store.find_session.
    cbn [Store.create_analytics Store.create_session Store.sessions].
    match goal with
    | |- context [find ?p (?l ++ [?x])] =>
        destruct (find_snoc_hit p l x) as (row & Hrow & _);
        [cbn [Store.id]; apply String.eqb_refl | eauto]
    end.
  - cbn [Store.create_analytics Store.sessionAnalytics].
    now rewrite last_item_snoc.
  - cbn [Store.create_analytics Store.sessionAnalytics].
    now rewrite last_item_snoc.
Qed.

End CreatingSessions.

(** ** The further properties at concrete inputs *)

Section FurtherWitnesses.

Lemma placeholders_give_no_recent_feedback_witness :
  let rs := [(10000%Z, CallFailed); (20000%Z, Unparseable "sorry");
             (30000%Z, ParsedNull "null")] in
  Forall (fun r : Z * Inference VisualAnalysis.AnalysisData =>
            RecentFeedback.degraded (snd r)) rs
  /\ List.length (VisualAnalysis.analyses
                    (VisualAnalysis.analyze_all "shot" rs
                       VisualAnalysis.initial)) = 3
  /\ RecentFeedback.getRecentFeedback 31000 5
       (VisualAnalysis.analyze_all "shot" rs VisualAnalysis.initial) = [].
Proof.
  intros rs.
  assert (H : Forall (fun r : Z * Inference VisualAnalysis.AnalysisData =>
                        RecentFeedback.degraded (snd r)) rs)
    by (repeat constructor).
  exact (conj H (conj eq_refl
           (placeholders_give_no_recent_feedback "shot" rs 31000 5 H))).
Defined.

Lemma meeting_insights_thresholds_witness :
  (0 <= 71)%Z /\ (0 <= 29)%Z
  /\ FeedbackHistory.titles
       (SmartFeedback.meeting_insights 5000 71 29 ["pricing"])
     = ["Speaking Balance"; "Key Topics Identified"].
Proof.
  assert (H1 : (0 <= 71)%Z) by lia.
  assert (H2 : (0 <= 29)%Z) by lia.
  exact (conj H1 (conj H2
           (meeting_insights_thresholds 5000 71 29 ["pricing"] H1 H2))).
Defined.

Lemma feedback_ids_are_creation_times_witness :
  let data := {| SmartFeedback.d_type := None;
                 SmartFeedback.d_priority := None;
                 SmartFeedback.d_title := None;
                 SmartFeedback.d_message := None;
                 SmartFeedback.d_actionable := None;
                 SmartFeedback.d_suggestions := None |} in
  SmartFeedback.id (SmartFeedback.build 7000 "a" "meeting" 60 "{}" data)
  = SmartFeedback.id (SmartFeedback.build 7000 "b" "exam" 90 "[]" data)
  /\ 7000%Z = 7000%Z.
Proof.
  intros data.
  destruct (feedback_ids_are_creation_times 7000 7000 "a" "meeting" "{}"
              "b" "exam" "[]" 60 90 data data) as [Hiff _].
  exact (conj (proj2 Hiff eq_refl) eq_refl).
Defined.

Lemma endSession_outcomes_witness :
  let s := {| SessionManager.currentSession := Some started_session;
              SessionManager.recentSessions := repeat started_session 12 |} in
  let ended := SessionManager.endSession "session_1000_k3x9q2m1z" 61000 true
                 s Store.empty in
  SessionManager.currentSession s = Some started_session
  /\ true = true
  /\ List.length (SessionManager.recentSessions (snd (fst ended))) <= 10
  /\ fst (fst ended) = SessionManager.Returned.
Proof.
  intros s ended.
  assert (H1 : SessionManager.currentSession s = Some started_session)
    by reflexivity.
  destruct (endSession_outcomes "session_1000_k3x9q2m1z" 61000 true s
              Store.empty) as (_ & _ & Ok).
  destruct (Ok started_session H1 eq_refl) as (Ret & _ & Len & _).
  exact (conj H1 (conj eq_refl (conj Len Ret))).
Defined.

Lemma success_rate_is_a_percentage_witness :
  let analytics := [counted (Some 3%Z) (Some 4%Z); counted None (Some 2%Z)] in
  Forall (fun a =>
            (0 <= SessionManager.count_or (Store.suggestionsUsed a) 0
             <= SessionManager.count_or (Store.totalSuggestions a) 0)%Z)
    analytics
  /\ exists n : Z,
       SessionManager.successRate
         (SessionManager.getSessionStats (Some ([], analytics)))
       = Num.Finite (inject_Z n)
       /\ (0 <= n <= 100)%Z.
Proof.
  intros analytics.
  assert (H : Forall (fun a =>
                (0 <= SessionManager.count_or (Store.suggestionsUsed a) 0
                 <= SessionManager.count_or (Store.totalSuggestions a) 0)%Z)
                analytics).
  { repeat constructor; simpl; lia. }
  exact (conj H (success_rate_is_a_percentage [] analytics H)).
Defined.

Lemma debounce_writes_last_transcript_once_witness :
  let w := EnhancedOverlayWindow.play (firstn 1 before_stop)
             EnhancedOverlayWindow.window0 in
  let change t text :=
    {| EnhancedOverlayWindow.at_time := t;
       EnhancedOverlayWindow.nonce := "n";
       EnhancedOverlayWindow.store_ok := true;
       EnhancedOverlayWindow.action :=
         EnhancedOverlayWindow.SetTranscript text |} in
  let ms := [change 5000%Z " good"; change 6500%Z " good morning"] in
  let w2 := EnhancedOverlayWindow.moment
              {| EnhancedOverlayWindow.at_time := 9000;
                 EnhancedOverlayWindow.nonce := "q";
                 EnhancedOverlayWindow.store_ok := true;
                 EnhancedOverlayWindow.action := EnhancedOverlayWindow.Wait |}
              (EnhancedOverlayWindow.play ms w) in
  SessionManager.currentSession (EnhancedOverlayWindow.manager w)
  = Some started_session
  /\ EnhancedOverlayWindow.started w = true
  /\ Burst.quick
       (option_map EnhancedOverlayWindow.due
          (EnhancedOverlayWindow.debounceTimer w))
       (EnhancedOverlayWindow.w_transcript w) ms
  /\ (Burst.last_time 0 ms + 2000 <= 9000)%Z
  /\ Store.persisted_transcript "session_1000_k3x9q2m1z"
       (EnhancedOverlayWindow.db w2) = [" good morning"]
  /\ EnhancedOverlayWindow.debounceTimer w2 = None.
Proof.
  intros w change ms w2.
  assert (H1 : SessionManager.currentSession (EnhancedOverlayWindow.manager w)
               = Some started_session) by reflexivity.
  assert (H2 : EnhancedOverlayWindow.started w = true) by reflexivity.
  assert (H3 : ms <> []) by discriminate.
  assert (H4 : Burst.quick
                 (option_map EnhancedOverlayWindow.due
                    (EnhancedOverlayWindow.debounceTimer w))
                 (EnhancedOverlayWindow.w_transcript w) ms).
  { exists " good". split; [reflexivity|]. split; [reflexivity|].
    split; [discriminate|]. split; [exact I|].
    exists " good morning". split; [reflexivity|]. split; [reflexivity|].
    split; [discriminate|]. split; [cbn; lia | exact I]. }
  assert (H5 : (Burst.last_time 0 ms + 2000 <= 9000)%Z) by (cbn; lia).
  destruct (debounce_writes_last_transcript_once ms w started_session 9000
              "q" H1 H2 H3 H4 H5) as (_ & _ & Written & Cleared).
  refine (conj H1 (conj H2 (conj H4 (conj H5 (conj _ Cleared))))).
  unfold Store.persisted_transcript. fold w2 in Written. rewrite Written.
  reflexivity.
Defined.

Lemma recent_words_is_a_suffix_witness :
  List.length (JS.split_space "so what about the budget") <= 20
  /\ OverlayWindow.recentWords "so what about the budget"
     = "so what about the budget".
Proof.
  assert (H1 : List.length (JS.split_space "so what about the budget") <= 20)
    by (cbn; lia).
  destruct (recent_words_is_a_suffix "so what about the budget")
    as (_ & _ & _ & Whole).
  exact (conj H1 (Whole H1)).
Defined.

Lemma clock_shows_elapsed_time_witness :
  (0 <= 125999)%Z
  /\ SessionClock.minutes 125999 = 2%Z
  /\ SessionClock.seconds 125999 = 5%Z
  /\ SessionClock.clock 125999 = "2:05"
  /\ String.length
       (SessionClock.padStart2 (show_Z (SessionClock.seconds 125999))) = 2.
Proof.
  assert (H : (0 <= 125999)%Z) by lia.
  destruct (clock_shows_elapsed_time 125999 H) as (_ & _ & _ & Two & _).
  exact (conj H (conj eq_refl (conj eq_refl (conj eq_refl Two)))).
Defined.

Lemma batch_saves_its_last_suggestion_only_witness :
  let item c := {| AICoaching.d_type := Some "question";
                   AICoaching.d_content := c;
                   AICoaching.d_priority := None |} in
  let r := Parsed "[...]"
             (AICoaching.Items [item "Ask about budget"; item "Ask about time";
                                item "Confirm next steps"]) in
  let latest := {| AICoaching.id := "suggestion_4000_2";
                   AICoaching.type := "question";
                   AICoaching.content := "Confirm next steps";
                   AICoaching.context := "ctx";
                   AICoaching.timestamp := 4000;
                   AICoaching.priority := "medium";
                   AICoaching.isUsed := false |} in
  let table' :=
    SuggestionSaving.save_effect
      (AICoaching.suggestions
         (AICoaching.generateSuggestion_settle 4000 "ctx" r AICoaching.initial))
      (Some started_session) 4001 "z" true [] in
  JS.last_item (AICoaching.produced 4000 "ctx" r) = Some latest
  /\ List.length (AICoaching.produced 4000 "ctx" r) = 3
  /\ List.length table' = 1
  /\ map SuggestionSaving.r_content table' = ["Confirm next steps"].
Proof.
  intros item r latest table'.
  assert (H : JS.last_item (AICoaching.produced 4000 "ctx" r) = Some latest)
    by reflexivity.
  destruct (batch_saves_its_last_suggestion_only 4000 "ctx" r
              AICoaching.initial started_session latest 4001 "z" [] H)
    as (Len & _).
  exact (conj H (conj eq_refl (conj Len eq_refl))).
Defined.


Lemma failed_analysis_still_requests_feedback_witness :
  let s := ScreenAnalysisOverlay.run
             [ScreenAnalysisOverlay.Captured 3000;
              ScreenAnalysisOverlay.Tick 10000]
             (ScreenAnalysisOverlay.initial "meeting") in
  let s1 := ScreenAnalysisOverlay.analysis_settled 0 12000 CallFailed s in
  nth_error (ScreenAnalysisOverlay.requests s) 0
  = Some (ScreenCapture.screenshot (ScreenCapture.frame 3000), true)
  /\ exists call,
       ScreenAnalysisOverlay.feedbackCalls s1
       = ScreenAnalysisOverlay.feedbackCalls s ++ [call]
       /\ ScreenAnalysisOverlay.c_transcription call = "Screen capture received"
       /\ ScreenAnalysisOverlay.c_visualContext call
          = JS.or_else (ScreenAnalysisOverlay.sessionType s) "Screen activity".
Proof.
  intros s s1.
  assert (H : nth_error (ScreenAnalysisOverlay.requests s) 0
              = Some (ScreenCapture.screenshot (ScreenCapture.frame 3000),
                      true)) by reflexivity.
  destruct (failed_analysis_still_requests_feedback 0 12000 CallFailed s _ _ H)
    as (_ & Failed).
  exact (conj H (Failed eq_refl)).
Defined.

Lemma operations_never_undismiss_witness :
  let s := {| SmartFeedback.feedbacks :=
                [SmartFeedback.set_dismissed topics_event];
              SmartFeedback.activeFeedback := None |} in
  let op := FeedbackHistory.Sweep 99000 in
  In (SmartFeedback.set_dismissed topics_event)
    (SmartFeedback.feedbacks (FeedbackHistory.apply s op))
  /\ ((exists f, In f (SmartFeedback.feedbacks s)
                 /\ (SmartFeedback.set_dismissed topics_event = f
                     \/ SmartFeedback.set_dismissed topics_event
                        = SmartFeedback.set_dismissed f))
      \/ (SmartFeedback.is_dismissed (SmartFeedback.set_dismissed topics_event)
          = false /\ False)).
Proof.
  intros s op.
  assert (H : In (SmartFeedback.set_dismissed topics_event)
                (SmartFeedback.feedbacks (FeedbackHistory.apply s op)))
    by (left; reflexivity).
  exact (conj H (operations_never_undismiss s op _ H)).
Defined.


End FurtherWitnesses.

(** ** The word-count trigger on the transcript of the audio hook *)

Section AssembledTrigger.

Import EnhancedOverlayWindow.

Lemma join_app (l1 l2 : list string) :
  l1 <> [] -> l2 <> [] ->
  String.concat " " (l1 ++ l2)
  = String.concat " " l1 +^ " " +^ String.concat " " l2.
Proof.
  intros H1 H2. induction l1 as [|x rest IH]; [congruence|].
  destruct rest as [|y rest'].
  - cbn [app]. now rewrite join_cons_nonempty.
  - change ((x :: y :: rest') ++ l2) with (x :: ((y :: rest') ++ l2)).
    rewrite join_cons_nonempty by discriminate.
    rewrite IH by discriminate.
    rewrite (join_cons_nonempty x (y :: rest')) by discriminate.
    now rewrite !append_assoc.
Qed.

Lemma firstn_plus {A : Type} (a b : nat) (l : list A) :
  firstn (a + b) l = firstn a l ++ firstn b (skipn a l).
Proof.
  revert l. induction a as [|a IH]; intros l; [reflexivity|].
  destruct l as [|x rest]; [now rewrite !firstn_nil|].
  cbn [Nat.add firstn skipn app]. now rewrite IH.
Qed.

Lemma concatenation_snoc (pieces : list string) (piece : string) :
  AudioCapture.concatenation (pieces ++ [piece])
  = AudioCapture.concatenation pieces +^ piece.
Proof.
  induction pieces as [|p rest IH]; simpl.
  - now rewrite append_empty_r.
  - now rewrite IH, append_assoc.
Qed.

Lemma resolved_texts_map (f : nat -> string) (l : list nat) :
  AudioCapture.resolved_texts (map (fun j => AudioCapture.Resolved (f j)) l)
  = map f l.
Proof.
  induction l as [|j rest IH]; simpl; [reflexivity | now rewrite IH].
Qed.

(** No transcript of the list passes the effect's test: nothing is
    requested. *)
Lemma run_without_wants (ts : list string) (s : Scheduler) :
  Forall (fun t => wants_suggestion t = false) ts ->
  requests (run (map TranscriptChanged ts) s) = requests s.
Proof.
  revert s. induction ts as [|t rest IH]; intros s Hall; [reflexivity|].
  inversion Hall as [|? ? Ht Hrest]; subst.
  cbn [map]. change (run (TranscriptChanged t :: map TranscriptChanged rest) s)
    with (run (map TranscriptChanged rest) (step s (TranscriptChanged t))).
  rewrite (IH _ Hrest). cbn [step].
  destruct (String.eqb t (transcript s)); [reflexivity|].
  unfold suggestion_effect. cbn [transcript]. now rewrite Ht.
Qed.

Section Heard.

Variable ws : list string.
Hypothesis ws_length : List.length ws = 150.
Hypothesis ws_words : Forall (fun w => is_word w = true) ws.

(** What the audio hook has assembled after [k] results of ten words is
    one space followed by the first [10 * k] words. *)
Lemma heard_is_space_then_words (k : nat) :
  1 <= k <= 15 -> heard ws k = " " +^ grown ws k.
Proof.
  intros Hk. unfold heard. rewrite settle_all_transcription.
  rewrite resolved_texts_map.
  change (AudioCapture.transcription AudioCapture.initial +^ ?x) with x.
  destruct Hk as [Hk1 Hk15]. induction k as [|k IH]; [lia|].
  destruct (Nat.eq_dec k 0) as [->|Hk0].
  - cbn [seq map]. unfold AudioCapture.concatenation. cbn [fold_right].
    rewrite append_empty_r. reflexivity.
  - rewrite seq_S, !map_app. cbn [Nat.add map].
    rewrite concatenation_snoc, IH by lia.
    unfold AudioCapture.fragment, grown.
    replace (10 * S k) with (10 * k + 10) by lia.
    rewrite firstn_plus, join_app.
    + now rewrite !append_assoc.
    + intros E. apply (f_equal (@List.length string)) in E.
      rewrite length_firstn, ws_length in E. cbn [List.length] in E. lia.
    + intros E. apply (f_equal (@List.length string)) in E.
      rewrite length_firstn, length_skipn, ws_length in E.
      cbn [List.length] in E. lia.
Qed.

Lemma heard_piece_count (k : nat) :
  1 <= k <= 15 -> List.length (JS.split_space (heard ws k)) = 10 * k + 1.
Proof.
  intros Hk. rewrite (heard_is_space_then_words k Hk).
  change (JS.split_space (" " +^ grown ws k))
    with (EmptyString :: JS.split_space (grown ws k)).
  cbn [List.length]. rewrite (grown_piece_count ws ws_length ws_words k Hk).
  lia.
Qed.

Lemma heard_never_wanted (k : nat) :
  1 <= k <= 15 -> wants_suggestion (heard ws k) = false.
Proof.
  intros Hk. unfold wants_suggestion. rewrite (heard_piece_count k Hk).
  replace ((10 * k + 1) mod 50 =? 0) with false; [apply andb_false_r|].
  symmetry. apply Nat.eqb_neq. intros E.
  pose proof (Nat.div_mod_eq (10 * k + 1) 50) as H. rewrite E in H.
  remember ((10 * k + 1) / 50) as q. lia.
Qed.

End Heard.

(** C4, the code on the transcript it really gets: the audio hook puts a
    space in front of every result, so after [k] results of ten words the
    transcript is a space followed by the [10 * k] words, [split(' ')]
    yields [10 * k + 1] pieces, the count is never a multiple of 50, and
    over the fifteen increments from 0 to 150 words the effect asks for
    suggestions not once. *)
Theorem assembled_transcript_asks_at_no_crossing (ws : list string) :
  List.length ws = 150 ->
  Forall (fun w => is_word w = true) ws ->
  (forall k, 1 <= k <= 15 ->
     heard ws k = " " +^ grown ws k
     /\ List.length (JS.split_space (heard ws k)) = 10 * k + 1
     /\ wants_suggestion (heard ws k) = false)
  /\ requests (run (hearing ws) scheduler0) = []
  /\ in_flight (run (hearing ws) scheduler0) = 0.
Proof.
  intros Hlen Hwords.
  assert (Hreq : requests (run (hearing ws) scheduler0) = []).
  { unfold hearing. rewrite <- (map_map (heard ws) TranscriptChanged).
    rewrite run_without_wants; [reflexivity|].
    apply Forall_forall. intros t Ht. apply in_map_iff in Ht.
    destruct Ht as (k & <- & Hk). apply in_seq in Hk.
    apply heard_never_wanted; [assumption|assumption|lia]. }
  split; [|split; [exact Hreq|]].
  - intros k Hk. split; [|split].
    + now apply heard_is_space_then_words.
    + now apply heard_piece_count.
    + now apply heard_never_wanted.
  - unfold in_flight. now rewrite Hreq.
Qed.

Lemma assembled_transcript_asks_at_no_crossing_witness :
  List.length (repeat "hello" 150) = 150
  /\ Forall (fun w => is_word w = true) (repeat "hello" 150)
  /\ 1 <= 5 <= 15
  /\ List.length (JS.split_space (heard (repeat "hello" 150) 5)) = 51
  /\ requests (run (hearing (repeat "hello" 150)) scheduler0) = [].
Proof.
  assert (H1 : List.length (repeat "hello" 150) = 150) by reflexivity.
  assert (H2 : Forall (fun w => is_word w = true) (repeat "hello" 150)).
  { apply Forall_forall. intros w Hw. apply repeat_spec in Hw. now subst w. }
  assert (H3 : 1 <= 5 <= 15) by lia.
  destruct (assembled_transcript_asks_at_no_crossing (repeat "hello" 150)
              H1 H2) as (Each & Asked & _).
  destruct (Each 5 H3) as (_ & Count & _).
  exact (conj H1 (conj H2 (conj H3 (conj Count Asked)))).
Defined.

End AssembledTrigger.

(** ** ScreenAnalysisOverlay: when the analysis interval fires *)

Section IntervalRestarts.

Import AnalysisTimers.

Lemma fire_all_snoc (frames : list bool) (frame_ok : bool) (t : Timed) :
  fire_all (frames ++ [frame_ok]) t = fire_next frame_ok (fire_all frames t).
Proof.
  unfold fire_all. now rewrite fold_left_app.
Qed.

(** With a frame at every firing of the capture interval, the capture
    interval is the only timer that ever fires. *)
Lemma frames_keep_restarting (t0 : Z) (sessionType : string) (n : nat) :
  let t := fire_all (repeat true n) (capturing_from t0 sessionType) in
  captureDue t = Some (t0 + 3000 * (Z.of_nat n + 1))%Z
  /\ analysisDue t = Some (t0 + 3000 * Z.of_nat n + 10000)%Z
  /\ isActive t = true /\ isCapturing t = true
  /\ ScreenAnalysisOverlay.requests (overlay t) = []
  /\ ScreenAnalysisOverlay.visual (overlay t) = VisualAnalysis.initial
  /\ ScreenAnalysisOverlay.feedbackCalls (overlay t) = []
  /\ ScreenCapture.getLatestCapture
       (ScreenAnalysisOverlay.captureData (overlay t))
     = match n with
       | O => None
       | S _ => Some (ScreenCapture.frame (t0 + 3000 * Z.of_nat n)%Z)
       end.
Proof.
  induction n as [|n IH].
  - cbn [repeat fire_all fold_left]. unfold capturing_from, capture_started.
    cbn. repeat split; f_equal; lia.
  - cbv zeta in IH. destruct IH as (Hc & Ha & Hact & Hcap & Hreq & Hvis & Hfb & _).
    cbv zeta. replace (repeat true (S n)) with (repeat true n ++ [true])
      by (symmetry; apply repeat_cons).
    rewrite fire_all_snoc.
    set (t := fire_all (repeat true n) (capturing_from t0 sessionType)) in *.
    unfold fire_next. rewrite Hc, Ha.
    replace (t0 + 3000 * (Z.of_nat n + 1) <=? t0 + 3000 * Z.of_nat n + 10000)%Z
      with true by (symmetry; apply Z.leb_le; lia).
    unfold capture_fires, restart_interval. rewrite Hact, Hcap.
    cbn [captureDue analysisDue isActive isCapturing overlay andb
         ScreenAnalysisOverlay.captured ScreenAnalysisOverlay.requests
         ScreenAnalysisOverlay.visual ScreenAnalysisOverlay.feedbackCalls
         ScreenAnalysisOverlay.captureData].
    split; [f_equal; lia|]. split; [f_equal; lia|].
    repeat (split; [assumption || reflexivity|]).
    unfold ScreenCapture.getLatestCapture, ScreenCapture.pushCapture.
    rewrite last_item_snoc. do 2 f_equal. lia.
Qed.

(** With no frame at any firing, the analysis callback runs every ten
    seconds, finds no capture and issues nothing. *)
Lemma no_frames_no_analysis (t0 : Z) (sessionType : string) (n : nat) :
  overlay (fire_all (repeat false n) (capturing_from t0 sessionType))
  = ScreenAnalysisOverlay.initial sessionType.
Proof.
  induction n as [|n IH]; [reflexivity|].
  replace (repeat false (S n)) with (repeat false n ++ [false])
    by (symmetry; apply repeat_cons).
  rewrite fire_all_snoc.
  set (t := fire_all (repeat false n) (capturing_from t0 sessionType)) in *.
  unfold fire_next.
  destruct (captureDue t) as [c|]; destruct (analysisDue t) as [a|];
    try destruct (c <=? a)%Z; cbn [capture_fires analysis_fires overlay];
    rewrite ?IH; reflexivity.
Qed.

(** C7, the component with every vision call failing: while capture
    delivers a frame every 3000 ms, each frame restarts the 10000 ms
    interval, whose callback therefore never runs; no vision call is
    made, no placeholder is appended, and [getLatestAnalysis()] is
    undefined however many frames have arrived, the first scheduled tick
    (at 10000 ms after capture started) long past.  When capture delivers
    no frame at all the callback runs and issues nothing, with the same
    result.  The other half of the claim holds: a feedback response that
    does not parse returns [null] and leaves the engine as it was. *)
Theorem analysis_interval_never_fires_while_frames_arrive (t0 : Z)
  (sessionType : string) (n : nat) :
  let t := fire_all (repeat true n) (capturing_from t0 sessionType) in
  captureDue t = Some (t0 + 3000 * (Z.of_nat n + 1))%Z
  /\ analysisDue t = Some (t0 + 3000 * Z.of_nat n + 10000)%Z
  /\ ScreenCapture.getLatestCapture
       (ScreenAnalysisOverlay.captureData (overlay t))
     = match n with
       | O => None
       | S _ => Some (ScreenCapture.frame (t0 + 3000 * Z.of_nat n)%Z)
       end
  /\ ScreenAnalysisOverlay.requests (overlay t) = []
  /\ VisualAnalysis.analyses (ScreenAnalysisOverlay.visual (overlay t)) = []
  /\ VisualAnalysis.getLatestAnalysis
       (ScreenAnalysisOverlay.visual (overlay t)) = None
  /\ VisualAnalysis.getLatestAnalysis
       (ScreenAnalysisOverlay.visual
          (overlay (fire_all (repeat false n)
                      (capturing_from t0 sessionType)))) = None
  /\ (forall now tr vc st dur text e,
        SmartFeedback.generateContextualFeedback now tr vc st dur
          (Unparseable text) e = (None, e)).
Proof.
  intros t.
  destruct (frames_keep_restarting t0 sessionType n)
    as (Hc & Ha & _ & _ & Hreq & Hvis & _ & Hlatest).
  fold t in Hc, Ha, Hreq, Hvis, Hlatest.
  split; [exact Hc|]. split; [exact Ha|]. split; [exact Hlatest|].
  split; [exact Hreq|]. rewrite Hvis. split; [reflexivity|].
  split; [reflexivity|]. split.
  - now rewrite no_frames_no_analysis.
  - reflexivity.
Qed.

(** Capture started at 1000 ms: after ten frames, at 31000 ms, the
    analysis interval is due at 41000 ms and nothing has been analysed. *)
Example ten_frames_no_analysis :
  let t := fire_all (repeat true 10) (capturing_from 1000 "meeting") in
  captureDue t = Some 34000%Z
  /\ analysisDue t = Some 41000%Z
  /\ List.length (ScreenAnalysisOverlay.captureData (overlay t)) = 10
  /\ VisualAnalysis.getLatestAnalysis
       (ScreenAnalysisOverlay.visual (overlay t)) = None.
Proof.
  vm_compute. repeat split.
Qed.

End IntervalRestarts.
